(** * The OmniParser call/poll clients

    A shallow embedding of the three polling scripts of the repository,
    [test_omniparser_http.py], [test_omniparser_logging.py] and
    [inspect_omniparser.py], and of the Python text and decoding
    primitives they are built from.

    Conventions.
    - Python [str] is modelled by [string], one [ascii] per character:
      the model covers text whose characters are below U+0100, and an
      [ascii] is the code point of its character.
    - A value decoded from JSON (or from a Python literal) is a [value].
    - A Python exception is a constructor of [exn]; code that can raise
      lives in the [result] monad.
    - Every [return] statement of a script is a constructor of [Exit],
      so that two exits returning the same Python value stay apart. *)

From Stdlib Require Import String Ascii List ZArith Bool Lia Arith.
Import ListNotations.
Local Open Scope string_scope.
Local Open Scope list_scope.
#[local] Set Warnings "-register-all".

(** ** Python text primitives *)

Module Text.

Definition newline : ascii := "010"%char.

(** [s[n:]] *)
Fixpoint drop (n : nat) (s : string) : string :=
  match n, s with
  | O, _ => s
  | S _, EmptyString => EmptyString
  | S n', String _ r => drop n' r
  end.

(** [s[:n]] *)
Fixpoint take (n : nat) (s : string) : string :=
  match n, s with
  | O, _ => EmptyString
  | S _, EmptyString => EmptyString
  | S n', String a r => String a (take n' r)
  end.

(** [s.startswith(p)] *)
Definition startswith (p s : string) : bool := String.prefix p s.

(** [s.split(c)] for a one-character separator: never empty, and a
    trailing separator yields a trailing empty piece. *)
Fixpoint split (c : ascii) (s : string) : list string :=
  match s with
  | EmptyString => [EmptyString]
  | String a r =>
      if Ascii.eqb a c then EmptyString :: split c r
      else match split c r with
           | h :: t => String a h :: t
           | [] => [String a EmptyString]
           end
  end.

(** [str.isspace] on 8-bit characters: TAB..CR, FS..US, space, NEL and
    the no-break space. *)
Definition isspace (a : ascii) : bool :=
  let n := nat_of_ascii a in
  ((9 <=? n) && (n <=? 13) || (28 <=? n) && (n <=? 32)
   || (n =? 133) || (n =? 160))%nat.

Fixpoint lstrip (s : string) : string :=
  match s with
  | String a r => if isspace a then lstrip r else s
  | EmptyString => EmptyString
  end.

Fixpoint rstrip (s : string) : string :=
  match s with
  | EmptyString => EmptyString
  | String a r =>
      match rstrip r with
      | EmptyString => if isspace a then EmptyString else String a EmptyString
      | r' => String a r'
      end
  end.

(** [s.strip()] *)
Definition strip (s : string) : string := rstrip (lstrip s).

(** [str.lower] on the characters below U+0100: the letters [A] to [Z]
    and the capital letters of Latin-1, U+00C0 to U+00DE without the
    multiplication sign U+00D7, move 32 places up; every other character
    is kept. *)
Definition lower_char (a : ascii) : ascii :=
  let n := nat_of_ascii a in
  if ((65 <=? n) && (n <=? 90)
      || (192 <=? n) && (n <=? 222) && negb (n =? 215))%nat
  then ascii_of_nat (n + 32) else a.

Fixpoint lower (s : string) : string :=
  match s with
  | EmptyString => EmptyString
  | String a r => String (lower_char a) (lower r)
  end.

(** [needle in hay] *)
Fixpoint contains (needle hay : string) : bool :=
  String.prefix needle hay
  || match hay with
     | EmptyString => false
     | String _ r => contains needle r
     end.

(** Iterating over a [str] yields its one-character strings. *)
Fixpoint chars (s : string) : list string :=
  match s with
  | EmptyString => []
  | String a r => String a EmptyString :: chars r
  end.

End Text.

(** ** Decoded values *)

(** What [json.loads] returns: [None], [bool], [int], [float], [str],
    [list] and [dict] with [str] keys.  A [float] is kept as the decimal
    [m * 10^e] it was read from, with [m] free of trailing zeros, and
    stands for the binary64 number that decimal is rounded to: two
    decimals may stand for the same [float], and equal decimals stand
    for equal ones.  A [dict] is the list of its items in insertion
    order. *)
Inductive value : Type :=
| VNone
| VBool (b : bool)
| VInt (z : Z)
| VFloat (m e : Z)
| VStr (s : string)
| VList (l : list value)
| VDict (kvs : list (string * value)).

(** ** Exceptions and results *)

Inductive exn : Type :=
| JSONDecodeError      (* json.JSONDecodeError *)
| RequestException     (* requests.exceptions.RequestException and subclasses *)
| TypeError
| AttributeError
| ValueError
| OverflowError.

Inductive result (A : Type) : Type :=
| Ok (a : A)
| Raise (x : exn).
Arguments Ok {A} a.
Arguments Raise {A} x.

Definition bind {A B} (c : result A) (k : A -> result B) : result B :=
  match c with
  | Ok a => k a
  | Raise x => Raise x
  end.

Declare Scope py_scope.
Delimit Scope py_scope with py.
Notation "x <- c ;; k" := (bind c (fun x => k))
  (at level 61, c at next level, right associativity) : py_scope.
Notation "c ;;; k" := (bind c (fun _ => k))
  (at level 61, right associativity) : py_scope.
Local Open Scope py_scope.

(** [for x in xs: body(x)] where the body only raises or goes on. *)
Fixpoint for_each {A} (body : A -> result unit) (xs : list A) : result unit :=
  match xs with
  | [] => Ok tt
  | x :: r => body x ;;; for_each body r
  end.

(** ** Operations of the Python data model used by the scripts *)

Module Py.

(** [d.get(k)] on the items of a dict: the first item with that key. *)
Fixpoint lookup (k : string) (kvs : list (string * value)) : option value :=
  match kvs with
  | [] => None
  | (k', v) :: r => if String.eqb k k' then Some v else lookup k r
  end.

(** [d[k] = v]: an existing key keeps its place. *)
Fixpoint set (k : string) (v : value) (kvs : list (string * value))
  : list (string * value) :=
  match kvs with
  | [] => [(k, v)]
  | (k', v') :: r =>
      if String.eqb k k' then (k, v) :: r else (k', v') :: set k v r
  end.

(** [x.get(k, default)]: only a dict has [get]. *)
Definition get (x : value) (k : string) (default : value) : result value :=
  match x with
  | VDict kvs =>
      match lookup k kvs with
      | Some v => Ok v
      | None => Ok default
      end
  | _ => Raise AttributeError
  end.

(** [len(x)] *)
Definition len (x : value) : result nat :=
  match x with
  | VStr s => Ok (String.length s)
  | VList l => Ok (List.length l)
  | VDict kvs => Ok (List.length kvs)
  | _ => Raise TypeError
  end.

(** [for e in x[:n]]: the items the loop visits.  Slicing a dict
    raises (TypeError up to Python 3.11, KeyError from 3.12; both are
    handled by the same clause of the scripts). *)
Definition slice_items (n : nat) (x : value) : result (list value) :=
  match x with
  | VStr s => Ok (map VStr (Text.chars (Text.take n s)))
  | VList l => Ok (firstn n l)
  | _ => Raise TypeError
  end.

(** [for e in x] *)
Definition items (x : value) : result (list value) :=
  match x with
  | VStr s => Ok (map VStr (Text.chars s))
  | VList l => Ok l
  | VDict kvs => Ok (map (fun kv => VStr (fst kv)) kvs)
  | _ => Raise TypeError
  end.

(** The decimal [m * 10^e] is rounded to the [float] zero when it is at
    most [2^-1075], half the least positive [float]. *)
Definition rounds_to_zero (m e : Z) : bool :=
  if (0 <=? e)%Z then (m =? 0)%Z
  else (Z.abs m * 2 ^ 1075 <=? 10 ^ (- e))%Z.

(** Truth value of [x]. *)
Definition truthy (x : value) : bool :=
  match x with
  | VNone => false
  | VBool b => b
  | VInt z => negb (z =? 0)%Z
  | VFloat m e => negb (rounds_to_zero m e)
  | VStr s => negb (String.eqb s EmptyString)
  | VList l => match l with [] => false | _ => true end
  | VDict kvs => match kvs with [] => false | _ => true end
  end.

(** An [int] converts to [float] when it rounds below [2^1024]. *)
Definition float_max_int : Z := (2 ^ 1024 - 2 ^ 970)%Z.

(** [f"{x:.2f}"]: defined on numbers and booleans.  The model keeps
    the number that is formatted, not its digits. *)
Definition format_2f (x : value) : result value :=
  match x with
  | VInt z =>
      if (Z.abs z <? float_max_int)%Z then Ok (VInt z) else Raise OverflowError
  | VFloat m e => Ok (VFloat m e)
  | VBool b => Ok (VInt (if b then 1 else 0))
  | VStr _ => Raise ValueError
  | _ => Raise TypeError
  end.

(** [x.lower()]: only a [str] has [lower]. *)
Definition lower (x : value) : result string :=
  match x with
  | VStr s => Ok (Text.lower s)
  | _ => Raise AttributeError
  end.

End Py.

(** ** The remote service and the exits of a run *)

(** What one HTTP call gives back: the call raises (connection error,
    timeout), or a response with a status code and a body. *)
Inductive Response : Type :=
| Unreachable
| Answer (status_code : Z) (text : string).

(** The service as a run sees it: the answer to the POST, and the answer
    to each GET of the result URL.  The result URL is built from
    [event_id] alone, so the model addresses the GET by [event_id]; the
    second argument counts the GETs already made. *)
Record Service : Type := {
  post : Response;
  get : value -> nat -> Response
}.

(** The [return] statements of [test_omniparser] and of
    [test_omniparser_with_logging]. *)
Inductive Exit : Type :=
| ResultReceived   (* return True *)
| NoElements       (* logging, line 106: return False *)
| NoMatch          (* logging, line 141: return False *)
| Timeout          (* http, line 97; logging, line 151: return False *)
| BadStatus        (* logging, line 57: return False *)
| RequestFailed    (* http, line 101: return False *)
| Error            (* http, line 106; logging, line 157: return False *)
| FellThrough.     (* http: the end of the body is reached, None *)

(** The Python value a run returns. *)
Definition returned (e : Exit) : option bool :=
  match e with
  | ResultReceived => Some true
  | FellThrough => None
  | _ => Some false
  end.

(** What the body of a loop does: [Ok None] goes on with the next
    iteration, [Ok (Some e)] returns from the function, [Raise x]
    raises. *)
Definition flow : Type := result (option Exit).

Definition max_attempts : nat := 30.

(** ** [test_omniparser_http.py] *)

Module Http.
Section Client.

(** [json.loads] on a [str]: [None] stands for [json.JSONDecodeError]. *)
Variable loads : string -> option value.
Variable service : Service.

(** [json.loads(x)]: anything but text is a [TypeError]. *)
Definition json_loads (x : value) : result value :=
  match x with
  | VStr s =>
      match loads s with
      | Some v => Ok v
      | None => Raise JSONDecodeError
      end
  | _ => Raise TypeError
  end.

(** Lines 83-87: the four fields printed for one element. *)
Definition show_element (elem : value) : result (list value) :=
  t <- Py.get elem "type" (VStr "N/A") ;;
  b <- Py.get elem "bbox" (VStr "N/A") ;;
  c <- Py.get elem "content" (VStr "N/A") ;;
  f <- Py.get elem "confidence" (VStr "N/A") ;;
  Ok [t; b; c; f].

(** Lines 78-89: the inner [try]; a [JSONDecodeError] prints the raw
    text instead. *)
Definition show_elements (parsed_elements : value) : result unit :=
  match (elements <- json_loads parsed_elements ;;
         _ <- Py.len elements ;;
         first <- Py.slice_items 5 elements ;;
         for_each (fun elem => show_element elem ;;; Ok tt) first) with
  | Raise JSONDecodeError => Ok tt
  | r => r
  end.

(** Lines 62-93: one line of a response. *)
Definition on_line (line : string) : flow :=
  if Text.startswith "data: " line then
    let data := Text.drop 6 line in
    if String.eqb data "null" then Ok None
    else
      match (parsed <- json_loads (VStr data) ;;
             match parsed with
             | VList l =>
                 if (2 <=? List.length l)%nat then
                   let parsed_elements := nth 1 l VNone in
                   show_elements parsed_elements ;;; Ok (Some ResultReceived)
                 else Ok None
             | _ => Ok None
             end) with
      | Raise JSONDecodeError => Ok None
      | r => r
      end
  else Ok None.

(** [for line in lines] *)
Fixpoint for_lines (lines : list string) : flow :=
  match lines with
  | [] => Ok None
  | line :: rest =>
      match on_line line with
      | Ok None => for_lines rest
      | r => r
      end
  end.

(** Line 59. *)
Definition lines_of (text : string) : list string :=
  Text.split Text.newline (Text.strip text).

(** Lines 54-97: [n] iterations of the loop from index [i], after
    [fetched] GETs.  Gives the flow and the number of GETs made. *)
Fixpoint poll (event_id : value) (n i fetched : nat) : flow * nat :=
  match n with
  | O => (Ok None, fetched)
  | S n' =>
      match get service event_id fetched with
      | Unreachable => (Raise RequestException, S fetched)
      | Answer status_code text =>
          if (status_code =? 200)%Z then
            match for_lines (lines_of text) with
            | Ok None =>
                if (i =? max_attempts - 1)%nat
                then (Ok (Some Timeout), S fetched)
                else poll event_id n' (S i) (S fetched)
            | r => (r, S fetched)
            end
          else poll event_id n' (S i) (S fetched)
      end
  end.

(** Lines 41-45: the submission.  [raise_for_status] raises on 4xx and
    5xx, [response.json()] on a body that is not JSON; both are
    [RequestException]s. *)
Definition submit : result value :=
  match post service with
  | Unreachable => Raise RequestException
  | Answer status_code text =>
      if ((400 <=? status_code) && (status_code <? 600))%Z
      then Raise RequestException
      else
        match loads text with
        | None => Raise RequestException
        | Some result => Py.get result "event_id" VNone
        end
  end.

(** Lines 99-106 and the end of the body. *)
Definition finish (r : flow) : Exit :=
  match r with
  | Ok (Some e) => e
  | Ok None => FellThrough
  | Raise RequestException => RequestFailed
  | Raise _ => Error
  end.

(** [test_omniparser]: the exit taken and the number of GETs made. *)
Definition test_omniparser : Exit * nat :=
  match submit with
  | Raise x => (finish (Raise x), O)
  | Ok event_id =>
      let (r, fetched) := poll event_id max_attempts 0 0 in
      (finish r, fetched)
  end.

End Client.
End Http.

(** ** [test_omniparser_logging.py] *)

Module Logging.

(** What lines 110-114 print for one element. *)
Record Shown : Type := {
  shown_type : value;
  shown_content : value;
  shown_confidence : value;
  shown_bbox : value;
  shown_interactivity : value
}.

(** Lines 110-114. *)
Definition show_element (elem : value) : result Shown :=
  t <- Py.get elem "type" (VStr "N/A") ;;
  c <- Py.get elem "content" (VStr "N/A") ;;
  f <- Py.get elem "confidence" (VInt 0) ;;
  f' <- Py.format_2f f ;;
  b <- Py.get elem "bbox" (VStr "N/A") ;;
  i <- Py.get elem "interactivity" (VBool false) ;;
  Ok {| shown_type := t; shown_content := c; shown_confidence := f';
        shown_bbox := b; shown_interactivity := i |}.

(** Lines 130-131: [(elem.get(key) or '').lower()] *)
Definition text_field (elem : value) (key : string) : result string :=
  v <- Py.get elem key VNone ;;
  Py.lower (if Py.truthy v then v else VStr EmptyString).

(** Line 133. *)
Definition matches (target_lower content source : string) : bool :=
  Text.contains target_lower content || Text.contains target_lower source.

(** Lines 127-137: the elements appended to [matched], in order. *)
Fixpoint filter_elements (target_lower : string) (elements : list value)
  : result (list value) :=
  match elements with
  | [] => Ok []
  | elem :: rest =>
      content <- text_field elem "content" ;;
      source <- text_field elem "source" ;;
      if matches target_lower content source then
        f <- Py.get elem "confidence" (VInt 0) ;;
        _ <- Py.format_2f f ;;
        matched <- filter_elements target_lower rest ;;
        Ok (elem :: matched)
      else filter_elements target_lower rest
  end.

Section Client.

Variable loads : string -> option value.
Variable service : Service.
(** The second argument of the script; [None] when it is not given. *)
Variable target_text : option string.

Definition json_loads (x : value) : result value :=
  match x with
  | VStr s =>
      match loads s with
      | Some v => Ok v
      | None => Raise JSONDecodeError
      end
  | _ => Raise TypeError
  end.

(** Lines 120-143, entered when [target_text] is true (given and not
    empty). *)
Definition filter_step (elements : value) : flow :=
  match target_text with
  | Some t =>
      if negb (String.eqb t EmptyString) then
        let target_lower := Text.lower t in
        all <- Py.items elements ;;
        matched <- filter_elements target_lower all ;;
        match matched with
        | [] => Ok (Some NoMatch)
        | _ => Ok None
        end
      else Ok None
  | None => Ok None
  end.

(** Lines 97-100: the second member, decoded when it is text. *)
Definition elements_of (parsed_elements_str : value) : result value :=
  match parsed_elements_str with
  | VStr _ => json_loads parsed_elements_str
  | _ => Ok parsed_elements_str
  end.

(** Lines 95-145: a decoded list of at least two members. *)
Definition on_result (parsed : list value) : flow :=
  let parsed_elements_str := nth 1 parsed VNone in
  elements <- elements_of parsed_elements_str ;;
  n <- Py.len elements ;;
  if (n =? 0)%nat then Ok (Some NoElements)
  else
    first <- Py.slice_items 10 elements ;;
    for_each (fun elem => show_element elem ;;; Ok tt) first ;;;
    r <- filter_step elements ;;
    match r with
    | Some e => Ok (Some e)
    | None => Ok (Some ResultReceived)
    end.

(** Lines 81-148: one line of a response. *)
Definition on_line (line : string) : flow :=
  if Text.startswith "data: " line then
    let data := Text.drop 6 line in
    if String.eqb data "null" then Ok None
    else
      match (parsed <- json_loads (VStr data) ;;
             match parsed with
             | VList l =>
                 if (2 <=? List.length l)%nat then on_result l else Ok None
             | _ => Ok None
             end) with
      | Raise JSONDecodeError => Ok None
      | r => r
      end
  else Ok None.

Fixpoint for_lines (lines : list string) : flow :=
  match lines with
  | [] => Ok None
  | line :: rest =>
      match on_line line with
      | Ok None => for_lines rest
      | r => r
      end
  end.

(** Line 78. *)
Definition lines_of (text : string) : list string :=
  Text.split Text.newline text.

(** Lines 71-148: [n] iterations of the loop, after [fetched] GETs. *)
Fixpoint poll (event_id : value) (n fetched : nat) : flow * nat :=
  match n with
  | O => (Ok None, fetched)
  | S n' =>
      match get service event_id fetched with
      | Unreachable => (Raise RequestException, S fetched)
      | Answer status_code text =>
          if (status_code =? 200)%Z then
            match for_lines (lines_of text) with
            | Ok None => poll event_id n' (S fetched)
            | r => (r, S fetched)
            end
          else poll event_id n' (S fetched)
      end
  end.

(** Lines 52-61: the submission.  [None] is the [return False] of line
    57. *)
Definition submit : result (option value) :=
  match post service with
  | Unreachable => Raise RequestException
  | Answer status_code text =>
      if negb (status_code =? 200)%Z then Ok None
      else
        match loads text with
        | None => Raise RequestException
        | Some result =>
            event_id <- Py.get result "event_id" VNone ;; Ok (Some event_id)
        end
  end.

(** Lines 150-157. *)
Definition finish (r : flow) : Exit :=
  match r with
  | Ok (Some e) => e
  | Ok None => Timeout
  | Raise _ => Error
  end.

(** [test_omniparser_with_logging]: the exit taken and the number of
    GETs made. *)
Definition test_omniparser_with_logging : Exit * nat :=
  match submit with
  | Raise x => (Error, O)
  | Ok None => (BadStatus, O)
  | Ok (Some event_id) =>
      let (r, fetched) := poll event_id max_attempts 0 in
      (finish r, fetched)
  end.

End Client.
End Logging.

(** ** [inspect_omniparser.py] *)

Module Inspect.

(** How lines 104-123 came by [elements]. *)
Inductive Decoded : Type :=
| StrictJson (elements : value)        (* lines 106-111 *)
| LiteralEval (elements : value)       (* lines 117-121 *)
| LiteralEvalUnlisted (elements : value)
    (* line 117 succeeded, then the listing raised: line 123 *)
| Undecoded                            (* line 123 *)
| NotText.                             (* [elements_data] is no [str] *)

(** The [return] statements of [inspect_omniparser_response]; all of
    them return [None]. *)
Inductive Report : Type :=
| Rejected                  (* line 42 *)
| Analysed (d : Decoded)    (* line 125 *)
| NoResult.                 (* line 131 *)

Section Client.

Variable loads : string -> option value.
(** [ast.literal_eval] on a [str]: [None] stands for any exception. *)
Variable literal_eval : string -> option value.
Variable service : Service.

(** Lines 104-123. *)
Definition decode_elements (elements_data : value) : result Decoded :=
  match elements_data with
  | VStr s =>
      match loads s with
      | Some elements =>
          _ <- Py.len elements ;;
          _ <- Py.slice_items 3 elements ;;
          Ok (StrictJson elements)
      | None =>
          match literal_eval s with
          | Some elements =>
              match (_ <- Py.len elements ;; Py.slice_items 3 elements) with
              | Ok _ => Ok (LiteralEval elements)
              | Raise _ => Ok (LiteralEvalUnlisted elements)
              end
          | None => Ok Undecoded
          end
      end
  | _ => Ok NotText
  end.

(** Lines 71-129: one line of a response; [Some d] is the [return] of
    line 125. *)
Definition on_line (line : string) : result (option Decoded) :=
  if Text.startswith "data: " line then
    let data := Text.drop 6 line in
    if String.eqb data "null" then Ok None
    else
      match loads data with
      | Some (VList l) =>
          if (2 <=? List.length l)%nat then
            let elements_data := nth 1 l VNone in
            d <- decode_elements elements_data ;; Ok (Some d)
          else Ok None
      | Some _ => Ok None
      | None => Ok None
      end
  else Ok None.

Fixpoint for_lines (lines : list string) : result (option Decoded) :=
  match lines with
  | [] => Ok None
  | line :: rest =>
      match on_line line with
      | Ok None => for_lines rest
      | r => r
      end
  end.

(** Line 68. *)
Definition lines_of (text : string) : list string :=
  Text.split Text.newline text.

(** Lines 52-129: [n] iterations of the loop, after [fetched] GETs. *)
Fixpoint poll (event_id : value) (n fetched : nat)
  : result (option Decoded) * nat :=
  match n with
  | O => (Ok None, fetched)
  | S n' =>
      match get service event_id fetched with
      | Unreachable => (Raise RequestException, S fetched)
      | Answer status_code text =>
          if (status_code =? 200)%Z then
            match for_lines (lines_of text) with
            | Ok None => poll event_id n' (S fetched)
            | r => (r, S fetched)
            end
          else poll event_id n' (S fetched)
      end
  end.

(** [inspect_omniparser_response]: nothing is caught, so an exception
    leaves the function. *)
Definition inspect_omniparser_response : result Report * nat :=
  match post service with
  | Unreachable => (Raise RequestException, O)
  | Answer status_code text =>
      if negb (status_code =? 200)%Z then (Ok Rejected, O)
      else
        match loads text with
        | None => (Raise RequestException, O)
        | Some result =>
            match Py.get result "event_id" VNone with
            | Raise x => (Raise x, O)
            | Ok event_id =>
                match poll event_id 30 0 with
                | (Ok (Some d), fetched) => (Ok (Analysed d), fetched)
                | (Ok None, fetched) => (Ok NoResult, fetched)
                | (Raise x, fetched) => (Raise x, fetched)
                end
            end
        end
  end.

End Client.
End Inspect.

(** ** A reference model of the two decoders

    [json.loads] and [ast.literal_eval] belong to the Python library,
    not to the repository.  They are modelled here, as CPython 3.11 has
    them, on the notation the element lists are sent in: [None],
    booleans, decimal numbers, text, lists, and dicts keyed by text.
    The two notations share their structure and differ in the quotes,
    in the spelling of the three constants, in the white space between
    tokens, in the characters text may hold unescaped, in the escapes
    and in the trailing comma; [Syntax] collects the differences.

    The model reads less than the library does, never more: what
    either scanner reads, the library function reads with the same
    result, a [float] being the decimal it is rounded from.  Notation
    outside the fragment is not read by the model: tuples, sets, bytes,
    hexadecimal numbers, digits grouped by underscores, [NaN] and
    [Infinity], escapes above code point 255, integers of more than
    [int_max_str_digits] digits, and values nested deeper than
    [max_nesting]. *)

Module Decoder.

Record Syntax : Type := {
  quotes : list ascii;          (* the characters that open text *)
  lit_none : string;
  lit_true : string;
  lit_false : string;
  space : ascii -> bool;        (* white space between tokens *)
  raw : ascii -> bool;          (* allowed unescaped inside text *)
  escapes : list (ascii * ascii);  (* one-character escapes *)
  hex_escape : bool;            (* the escape [\xXX] *)
  trailing_comma : bool
}.

Definition digit (c : ascii) : option Z :=
  let n := nat_of_ascii c in
  if ((48 <=? n) && (n <=? 57))%nat then Some (Z.of_nat (n - 48)) else None.

Definition hex_digit (c : ascii) : option Z :=
  let n := nat_of_ascii c in
  if ((48 <=? n) && (n <=? 57))%nat then Some (Z.of_nat (n - 48))
  else if ((97 <=? n) && (n <=? 102))%nat then Some (Z.of_nat (n - 87))
  else if ((65 <=? n) && (n <=? 70))%nat then Some (Z.of_nat (n - 55))
  else None.

(** [s] begins with the character [c]. *)
Definition starts_with (c : ascii) (s : string) : bool :=
  match s with
  | String a _ => Ascii.eqb a c
  | EmptyString => false
  end.

(** The longest run of digits at the head of [s]: its value on top of
    [acc], its length, and what follows. *)
Fixpoint digits (acc : Z) (s : string) : Z * nat * string :=
  match s with
  | String c r =>
      match digit c with
      | Some d => let '(z, n, r') := digits (acc * 10 + d) r in (z, S n, r')
      | None => (acc, O, s)
      end
  | EmptyString => (acc, O, s)
  end.

(** The integer part: [0], or a run of digits that does not start with
    [0]; its value and the number of its digits. *)
Definition int_part (s : string) : option (Z * nat * string) :=
  match s with
  | String c r =>
      if Ascii.eqb c "0" then Some (0%Z, 1, r)
      else
        match digits 0 s with
        | (_, O, _) => None
        | (z, S n, r') => Some (z, S n, r')
        end
  | EmptyString => None
  end.

(** An optional fraction [.ddd]: the mantissa extended by the digits,
    and their number. *)
Definition frac_part (m : Z) (s : string) : option (Z * nat * string) :=
  match s with
  | String c r =>
      if Ascii.eqb c "." then
        match digits m r with
        | (_, O, _) => None
        | (m', S n, r') => Some (m', S n, r')
        end
      else None
  | EmptyString => None
  end.

(** The sign in front of the digits of an exponent. *)
Definition exp_sign (s : string) : Z * string :=
  match s with
  | String c r =>
      if Ascii.eqb c "+" then (1%Z, r)
      else if Ascii.eqb c "-" then ((-1)%Z, r)
      else (1%Z, s)
  | EmptyString => (1%Z, s)
  end.

(** An optional exponent [e+dd]. *)
Definition exp_part (s : string) : option (Z * string) :=
  match s with
  | String c r =>
      if Ascii.eqb c "e" || Ascii.eqb c "E" then
        let '(sign, r1) := exp_sign r in
        match digits 0 r1 with
        | (_, O, _) => None
        | (z, S _, r2) => Some ((sign * z)%Z, r2)
        end
      else None
  | EmptyString => None
  end.

(** [m * 10^e] with the trailing zeros of [m] moved to [e]. *)
Fixpoint normalize (fuel : nat) (m e : Z) : Z * Z :=
  match fuel with
  | O => (m, e)
  | S fuel' =>
      if (m =? 0)%Z then (0%Z, 0%Z)
      else if (m mod 10 =? 0)%Z then normalize fuel' (m / 10)%Z (e + 1)%Z
      else (m, e)
  end.

Definition make_float (m e : Z) : value :=
  let '(m', e') := normalize (S (Z.to_nat (Z.log2 (Z.abs m)))) m e in
  VFloat m' e'.

(** The sign in front of a number. *)
Definition number_sign (s : string) : Z * string :=
  match s with
  | String c r => if Ascii.eqb c "-" then ((-1)%Z, r) else (1%Z, s)
  | EmptyString => (1%Z, s)
  end.

(** [sys.int_info.default_max_str_digits]: an [int] of more digits is
    converted by neither function. *)
Definition int_max_str_digits : nat := 4300.

(** A number: an [int] when it has neither fraction nor exponent. *)
Definition number (s : string) : option (value * string) :=
  let '(sign, s1) := number_sign s in
  match int_part s1 with
  | None => None
  | Some (i, k, s2) =>
      match frac_part i s2 with
      | Some (m, n, s3) =>
          match exp_part s3 with
          | Some (e, s4) =>
              Some (make_float (sign * m) (e - Z.of_nat n), s4)
          | None => Some (make_float (sign * m) (- Z.of_nat n), s3)
          end
      | None =>
          match exp_part s2 with
          | Some (e, s4) => Some (make_float (sign * i) e, s4)
          | None =>
              if (k <=? int_max_str_digits)%nat
              then Some (VInt (sign * i), s2)
              else None
          end
      end
  end.

(** The deepest nesting of lists and dicts the model reads.  The parser
    behind [ast.literal_eval] gives up at 200 open brackets and
    [json.loads] at the recursion limit. *)
Definition max_nesting : nat := 50.

Section Scanner.

Variable syn : Syntax.

Fixpoint skip_space (s : string) : string :=
  match s with
  | String c r => if space syn c then skip_space r else s
  | EmptyString => EmptyString
  end.

Definition is_quote (c : ascii) : bool :=
  existsb (Ascii.eqb c) (quotes syn).

Fixpoint escape_of (c : ascii) (table : list (ascii * ascii)) : option ascii :=
  match table with
  | [] => None
  | (k, v) :: r => if Ascii.eqb c k then Some v else escape_of c r
  end.

(** [\uXXXX] for the code points below 256. *)
Definition unicode_escape (s : string) : option (ascii * string) :=
  match s with
  | String a (String b (String c (String d r))) =>
      match hex_digit a, hex_digit b, hex_digit c, hex_digit d with
      | Some 0%Z, Some 0%Z, Some x, Some y =>
          Some (ascii_of_nat (Z.to_nat (x * 16 + y)), r)
      | _, _, _, _ => None
      end
  | _ => None
  end.

(** The two digits of [\xXX]. *)
Definition byte_escape (s : string) : option (ascii * string) :=
  match s with
  | String a (String b r) =>
      match hex_digit a, hex_digit b with
      | Some x, Some y => Some (ascii_of_nat (Z.to_nat (x * 16 + y)), r)
      | _, _ => None
      end
  | _ => None
  end.

(** Text up to the closing quote [q]. *)
Fixpoint text_body (fuel : nat) (q : ascii) (s : string)
  : option (string * string) :=
  match fuel with
  | O => None
  | S fuel' =>
      match s with
      | EmptyString => None
      | String c r =>
          if Ascii.eqb c q then Some (EmptyString, r)
          else if Ascii.eqb c "092" then
            match r with
            | String e r1 =>
                if Ascii.eqb e "u" then
                  match unicode_escape r1 with
                  | Some (x, r2) =>
                      match text_body fuel' q r2 with
                      | Some (t, r3) => Some (String x t, r3)
                      | None => None
                      end
                  | None => None
                  end
                else if hex_escape syn && Ascii.eqb e "x" then
                  match byte_escape r1 with
                  | Some (x, r2) =>
                      match text_body fuel' q r2 with
                      | Some (t, r3) => Some (String x t, r3)
                      | None => None
                      end
                  | None => None
                  end
                else
                  match escape_of e (escapes syn) with
                  | Some x =>
                      match text_body fuel' q r1 with
                      | Some (t, r2) => Some (String x t, r2)
                      | None => None
                      end
                  | None => None
                  end
            | EmptyString => None
            end
          else if raw syn c then
            match text_body fuel' q r with
            | Some (t, r1) => Some (String c t, r1)
            | None => None
            end
          else None
      end
  end.

Definition scan_text (q : ascii) (s : string) : option (string * string) :=
  text_body (S (String.length s)) q s.

Definition keyword (s : string) : option (value * string) :=
  if String.prefix (lit_none syn) s
  then Some (VNone, Text.drop (String.length (lit_none syn)) s)
  else if String.prefix (lit_true syn) s
  then Some (VBool true, Text.drop (String.length (lit_true syn)) s)
  else if String.prefix (lit_false syn) s
  then Some (VBool false, Text.drop (String.length (lit_false syn)) s)
  else None.

Section Compound.

(** The scanner of the members, one level down. *)
Variable scan_member : string -> option (value * string).

(** The members of a list, from the first one to the closing bracket;
    [fuel] bounds their number. *)
Fixpoint scan_items (fuel : nat) (s : string) : option (list value * string) :=
  match fuel with
  | O => None
  | S fuel' =>
      match scan_member s with
      | None => None
      | Some (v, r) =>
          match skip_space r with
          | String c r1 =>
              if Ascii.eqb c "]" then Some ([v], r1)
              else if Ascii.eqb c "," then
                let r2 := skip_space r1 in
                if starts_with "]" r2 then
                  if trailing_comma syn then Some ([v], Text.drop 1 r2)
                  else None
                else
                  match scan_items fuel' r2 with
                  | Some (vs, r3) => Some (v :: vs, r3)
                  | None => None
                  end
              else None
          | EmptyString => None
          end
      end
  end.

(** The items of a dict, from the first key to the closing brace; [acc]
    holds the items read so far. *)
Fixpoint scan_pairs (fuel : nat) (acc : list (string * value)) (s : string)
  : option (list (string * value) * string) :=
  match fuel with
  | O => None
  | S fuel' =>
      match s with
      | String q r =>
          if is_quote q then
            match scan_text q r with
            | None => None
            | Some (k, r1) =>
                let r2 := skip_space r1 in
                if starts_with ":" r2 then
                  match scan_member (skip_space (Text.drop 1 r2)) with
                  | None => None
                  | Some (v, r3) =>
                      let acc' := Py.set k v acc in
                      match skip_space r3 with
                      | String c r4 =>
                          if Ascii.eqb c "}" then Some (acc', r4)
                          else if Ascii.eqb c "," then
                            let r5 := skip_space r4 in
                            if starts_with "}" r5 then
                              if trailing_comma syn
                              then Some (acc', Text.drop 1 r5)
                              else None
                            else scan_pairs fuel' acc' r5
                          else None
                      | EmptyString => None
                      end
                  end
                else None
            end
          else None
      | EmptyString => None
      end
  end.

End Compound.

(** One value at the head of [s], and what follows it; [depth] bounds
    the nesting.  A list or a dict has fewer members than its text has
    characters. *)
Fixpoint scan (depth : nat) (s : string) : option (value * string) :=
  match depth with
  | O => None
  | S depth' =>
      match s with
      | EmptyString => None
      | String c r =>
          if is_quote c then
            match scan_text c r with
            | Some (t, r1) => Some (VStr t, r1)
            | None => None
            end
          else if Ascii.eqb c "[" then
            let r1 := skip_space r in
            if starts_with "]" r1 then Some (VList [], Text.drop 1 r1)
            else
              match scan_items (scan depth') (String.length r1) r1 with
              | Some (vs, r2) => Some (VList vs, r2)
              | None => None
              end
          else if Ascii.eqb c "{" then
            let r1 := skip_space r in
            if starts_with "}" r1 then Some (VDict [], Text.drop 1 r1)
            else
              match scan_pairs (scan depth') (String.length r1) [] r1 with
              | Some (kvs, r2) => Some (VDict kvs, r2)
              | None => None
              end
          else
            match keyword s with
            | Some r1 => Some r1
            | None => number s
            end
      end
  end.

(** The whole of [s] is one value, white space around it apart. *)
Definition parse (s : string) : option value :=
  let s1 := skip_space s in
  match scan (S max_nesting) s1 with
  | Some (v, r) =>
      match skip_space r with
      | EmptyString => Some v
      | _ => None
      end
  | None => None
  end.

End Scanner.

Definition json_space (c : ascii) : bool :=
  Ascii.eqb c " " || Ascii.eqb c "009" || Ascii.eqb c "010" || Ascii.eqb c "013".

Definition python_space (c : ascii) : bool :=
  json_space c || Ascii.eqb c "012".

(** JSON: double quotes, [null], [true], [false], no control character
    inside text. *)
Definition json_syntax : Syntax := {|
  quotes := ["034"%char];
  lit_none := "null";
  lit_true := "true";
  lit_false := "false";
  space := json_space;
  raw := fun c => (32 <=? nat_of_ascii c)%nat;
  escapes := [("034"%char, "034"%char); ("092"%char, "092"%char); ("/"%char, "/"%char);
              ("b"%char, "008"%char); ("f"%char, "012"%char);
              ("n"%char, "010"%char); ("r"%char, "013"%char);
              ("t"%char, "009"%char)];
  hex_escape := false;
  trailing_comma := false
|}.

(** Python literals: either quote, [None], [True], [False], neither a
    line break nor the null character inside text. *)
Definition python_syntax : Syntax := {|
  quotes := ["'"%char; "034"%char];
  lit_none := "None";
  lit_true := "True";
  lit_false := "False";
  space := python_space;
  raw := fun c =>
    negb (Ascii.eqb c "010" || Ascii.eqb c "013" || Ascii.eqb c "000");
  escapes := [("'"%char, "'"%char); ("034"%char, "034"%char); ("092"%char, "092"%char);
              ("a"%char, "007"%char); ("b"%char, "008"%char);
              ("f"%char, "012"%char); ("n"%char, "010"%char);
              ("r"%char, "013"%char); ("t"%char, "009"%char);
              ("v"%char, "011"%char)];
  hex_escape := true;
  trailing_comma := true
|}.

(** *** The lines around a Python literal

    [ast.literal_eval] strips the spaces and tabs in front of its
    argument and hands the rest to the parser, for which the literal is
    a line of a program: it may follow empty lines but must not be
    indented, and the lines after it must be empty; a form feed sets the
    indentation back. *)

(** Space and tab: what indents a line. *)
Definition blank (c : ascii) : bool :=
  Ascii.eqb c " " || Ascii.eqb c "009".

Definition line_break (c : ascii) : bool :=
  Ascii.eqb c "010" || Ascii.eqb c "013".

(** [s.lstrip(" \t")] *)
Fixpoint lstrip_blank (s : string) : string :=
  match s with
  | String c r => if blank c then lstrip_blank r else s
  | EmptyString => EmptyString
  end.

(** The white space in front of the literal; [indented] tells whether
    the current line begins with blanks. *)
Fixpoint margin (indented : bool) (s : string) : option string :=
  match s with
  | EmptyString => Some EmptyString
  | String c r =>
      if blank c then margin true r
      else if line_break c || Ascii.eqb c "012" then margin false r
      else if indented then None
      else Some s
  end.

(** The white space after the literal; [broken] tells whether a line
    break has been passed. *)
Fixpoint trailer (broken indented : bool) (s : string) : bool :=
  match s with
  | EmptyString => negb (broken && indented)
  | String c r =>
      if blank c then trailer broken true r
      else if Ascii.eqb c "012" then trailer broken false r
      else if line_break c then trailer true false r
      else false
  end.

(** *** The same text in JSON spelling

    What the specification calls the equivalent valid JSON of a text in
    Python literal notation: the same tokens, respelled.  Text is
    enclosed in double quotes, with the escapes JSON has ([\xXX]
    becomes [\u00XX], a control character its escape); [True],
    [False] and [None] become [true], [false] and [null]; a form feed
    between tokens becomes a space; a comma in front of a closing
    bracket is left out.  Numbers and punctuation are kept. *)

(** Where in the text the respelling is. *)
Inductive Place : Type :=
| Outside                 (* between tokens *)
| Inside (q : ascii)      (* in text opened by [q] *)
| Escaped (q : ascii)     (* behind a backslash in such text *)
| Skipping (n : nat).     (* in [None], [n] letters before its last *)

Definition hex_char (d : nat) : ascii :=
  if (d <? 10)%nat then ascii_of_nat (48 + d) else ascii_of_nat (87 + d).

(** The escape [\u00XY] of the character [c], in front of [tail]. *)
Definition unicode_of (c : ascii) (tail : string) : string :=
  let n := nat_of_ascii c in
  String "092" (String "u" (String "0" (String "0"
    (String (hex_char (n / 16)) (String (hex_char (n mod 16)) tail))))).

(** [s] begins with a closing bracket. *)
Definition closes (s : string) : bool :=
  starts_with "]" s || starts_with "}" s.

Fixpoint respell (p : Place) (s : string) : string :=
  match s with
  | EmptyString => EmptyString
  | String c r =>
      match p with
      | Outside =>
          if is_quote python_syntax c
          then String "034" (respell (Inside c) r)
          else if Ascii.eqb c "T" then String "t" (respell Outside r)
          else if Ascii.eqb c "F" then String "f" (respell Outside r)
          else if Ascii.eqb c "N" then "null" ++ respell (Skipping 2) r
          else if Ascii.eqb c "012" then String " " (respell Outside r)
          else if Ascii.eqb c "," then
            if closes (skip_space python_syntax r) then respell Outside r
            else String "," (respell Outside r)
          else String c (respell Outside r)
      | Skipping n =>
          respell (match n with O => Outside | S n' => Skipping n' end) r
      | Inside q =>
          if Ascii.eqb c q then String "034" (respell Outside r)
          else if Ascii.eqb c "092" then respell (Escaped q) r
          else if Ascii.eqb c "034"
          then String "092" (String "034" (respell (Inside q) r))
          else if (nat_of_ascii c <? 32)%nat
          then unicode_of c (respell (Inside q) r)
          else String c (respell (Inside q) r)
      | Escaped q =>
          if Ascii.eqb c "'" then String "'" (respell (Inside q) r)
          else if Ascii.eqb c "a"
          then unicode_of "007" (respell (Inside q) r)
          else if Ascii.eqb c "v"
          then unicode_of "011" (respell (Inside q) r)
          else if Ascii.eqb c "x"
          then String "092" (String "u" (String "0" (String "0"
                 (respell (Inside q) r))))
          else String "092" (String c (respell (Inside q) r))
      end
  end.

Definition as_json (s : string) : string := respell Outside s.

(** *** Writing a value down

    The text of a value in either notation, as [json.dumps] and [repr]
    lay it out: items separated by a comma and a space, keys followed by
    a colon and a space, text between the first quote of the notation.
    A [float] is written as its mantissa and exponent, [91e-2], which
    both notations read.  Text is written as it is: the writer is for
    text without quotes, backslashes and control characters. *)

Definition digit_char (d : Z) : ascii := ascii_of_nat (48 + Z.to_nat d).

(** The decimal digits of [n >= 0] in front of [tail]. *)
Fixpoint write_digits (fuel : nat) (n : Z) (tail : string) : string :=
  match fuel with
  | O => tail
  | S fuel' =>
      let tail' := String (digit_char (n mod 10)) tail in
      if (n <? 10)%Z then tail' else write_digits fuel' (n / 10) tail'
  end.

Definition write_nat (n : Z) (tail : string) : string :=
  write_digits (S (Z.to_nat (Z.log2 n))) n tail.

Definition write_int (z : Z) (tail : string) : string :=
  if (z <? 0)%Z then String "-" (write_nat (- z) tail) else write_nat z tail.

Section Writer.

Variable syn : Syntax.

Definition quote : ascii := hd "034"%char (quotes syn).

Definition write_text (s : string) (tail : string) : string :=
  String quote (s ++ String quote tail).

Section Sequences.

(** The writer of the members, one level down. *)
Variable write_member : value -> string -> string.

(** The members of a list and the closing bracket. *)
Fixpoint write_items (l : list value) (tail : string) : string :=
  match l with
  | [] => String "]" tail
  | x :: r =>
      match r with
      | [] => write_member x (String "]" tail)
      | _ :: _ =>
          write_member x (String "," (String " " (write_items r tail)))
      end
  end.

(** The items of a dict and the closing brace. *)
Fixpoint write_pairs (kvs : list (string * value)) (tail : string) : string :=
  match kvs with
  | [] => String "}" tail
  | (k, x) :: r =>
      write_text k
        (String ":" (String " "
           (match r with
            | [] => write_member x (String "}" tail)
            | _ :: _ =>
                write_member x (String "," (String " " (write_pairs r tail)))
            end)))
  end.

End Sequences.

(** [write v tail] is the text of [v] followed by [tail]. *)
Fixpoint write (v : value) (tail : string) : string :=
  match v with
  | VNone => lit_none syn ++ tail
  | VBool true => lit_true syn ++ tail
  | VBool false => lit_false syn ++ tail
  | VInt z => write_int z tail
  | VFloat m e => write_int m (String "e" (write_int e tail))
  | VStr s => write_text s tail
  | VList l => String "[" (write_items write l tail)
  | VDict kvs => String "{" (write_pairs write kvs tail)
  end.

End Writer.

(** The text of [v] as JSON. *)
Definition json_text (v : value) : string := write json_syntax v EmptyString.

(** *** What the lemmas on the scanners speak of *)

(** What cannot continue a run of digits. *)
Definition no_digit (tail : string) : Prop :=
  match tail with
  | String c _ => digit c = None
  | EmptyString => True
  end.

(** The characters a number begins with. *)
Definition numeric (c : ascii) : bool :=
  match digit c with
  | Some _ => true
  | None => Ascii.eqb c "-"
  end.

(** The characters a value begins with in Python literal notation. *)
Definition opens (c : ascii) : bool :=
  is_quote python_syntax c || Ascii.eqb c "[" || Ascii.eqb c "{"
  || Ascii.eqb c "T" || Ascii.eqb c "F" || Ascii.eqb c "N" || numeric c.

(** [s] begins with a value. *)
Definition value_start (s : string) : bool :=
  match s with
  | String c _ => opens c
  | EmptyString => false
  end.

(** What may follow a value: the end of the text, white space, the
    comma, or the bracket that closes the list or the dict. *)
Definition follows (syn : Syntax) (tail : string) : bool :=
  match tail with
  | EmptyString => true
  | String c _ =>
      space syn c || Ascii.eqb c "," || Ascii.eqb c "]" || Ascii.eqb c "}"
  end.

(** [s] begins with white space or with a closing bracket. *)
Definition closing_head (s : string) : bool :=
  match s with
  | String c _ => json_space c || Ascii.eqb c "]" || Ascii.eqb c "}"
  | EmptyString => false
  end.

(** The characters that are kept between tokens. *)
Definition kept (c : ascii) : bool :=
  negb (is_quote python_syntax c || Ascii.eqb c "T" || Ascii.eqb c "F"
        || Ascii.eqb c "N" || Ascii.eqb c "012" || Ascii.eqb c ",").

(** [json.loads] *)
Definition loads : string -> option value := parse json_syntax.

(** [ast.literal_eval] *)
Definition literal_eval (s : string) : option value :=
  match margin false (lstrip_blank s) with
  | Some s1 =>
      match scan python_syntax (S max_nesting) s1 with
      | Some (v, r) => if trailer false false r then Some v else None
      | None => None
      end
  | None => None
  end.

End Decoder.

(** ** Frames *)

(** A line of a response is a frame when it starts with the marker; its
    payload is what follows the marker. *)
Definition is_frame (line : string) : bool := Text.startswith "data: " line.

Definition payload (line : string) : string := Text.drop 6 line.

(** A line that is no frame, or a frame that carries the sentinel. *)
Definition pending_line (line : string) : bool :=
  negb (is_frame line) || String.eqb (payload line) "null".

(** A response in which every frame carries the sentinel. *)
Definition pending_only (lines : list string) : bool :=
  forallb pending_line lines.

(** Dropping the frames that carry the sentinel. *)
Definition without_pending (lines : list string) : list string :=
  filter (fun line => negb (String.eqb line "data: null")) lines.

(** The decoded payloads a run may end on: lists of two members or more. *)
Definition terminal (v : value) : bool :=
  match v with
  | VList l => (2 <=? List.length l)%nat
  | _ => false
  end.

(** A response the loop of [test_omniparser] passes over: any status but
    200, or no frame that ends the run. *)
Definition http_quiet (loads : string -> option value) (r : Response) : Prop :=
  match r with
  | Unreachable => False
  | Answer status_code text =>
      status_code <> 200%Z
      \/ Http.for_lines loads (Http.lines_of text) = Ok None
  end.

(** The same for [test_omniparser_with_logging]. *)
Definition logging_quiet (loads : string -> option value)
  (target_text : option string) (r : Response) : Prop :=
  match r with
  | Unreachable => False
  | Answer status_code text =>
      status_code <> 200%Z
      \/ Logging.for_lines loads target_text (Logging.lines_of text) = Ok None
  end.

(** A line neither script can end the run on: no frame, the sentinel, or
    a payload [json.loads] rejects. *)
Definition undecoded_line (loads : string -> option value) (line : string)
  : bool :=
  pending_line line
  || match loads (payload line) with
     | None => true
     | Some _ => false
     end.

(** ** Elements *)

Definition default (d : value) (o : option value) : value :=
  match o with
  | Some v => v
  | None => d
  end.

(** The text of a field: the field when it is text, empty otherwise. *)
Definition text_of (key : string) (elem : value) : string :=
  match elem with
  | VDict kvs =>
      match Py.lookup key kvs with
      | Some (VStr s) => s
      | _ => EmptyString
      end
  | _ => EmptyString
  end.

(** A field that is absent, false in the sense of Python, or text. *)
Definition textual (o : option value) : bool :=
  match o with
  | None => true
  | Some (VStr _) => true
  | Some v => negb (Py.truthy v)
  end.

Definition formattable (v : value) : bool :=
  match Py.format_2f v with
  | Ok _ => true
  | Raise _ => false
  end.

(** An element map whose [content] and [source] are textual and whose
    [confidence], when present, is a number. *)
Definition element_map (elem : value) : bool :=
  match elem with
  | VDict kvs =>
      textual (Py.lookup "content" kvs)
      && textual (Py.lookup "source" kvs)
      && formattable (default (VInt 0) (Py.lookup "confidence" kvs))
  | _ => false
  end.

(** The letters below U+0100 that have a lower case, each with its
    small letter: [A] to [Z], and U+00C0 to U+00DE without U+00D7. *)
Definition case_pairs : list (ascii * ascii) :=
  [("A"%char, "a"%char); ("B"%char, "b"%char); ("C"%char, "c"%char);
   ("D"%char, "d"%char); ("E"%char, "e"%char); ("F"%char, "f"%char);
   ("G"%char, "g"%char); ("H"%char, "h"%char); ("I"%char, "i"%char);
   ("J"%char, "j"%char); ("K"%char, "k"%char); ("L"%char, "l"%char);
   ("M"%char, "m"%char); ("N"%char, "n"%char); ("O"%char, "o"%char);
   ("P"%char, "p"%char); ("Q"%char, "q"%char); ("R"%char, "r"%char);
   ("S"%char, "s"%char); ("T"%char, "t"%char); ("U"%char, "u"%char);
   ("V"%char, "v"%char); ("W"%char, "w"%char); ("X"%char, "x"%char);
   ("Y"%char, "y"%char); ("Z"%char, "z"%char); ("192"%char, "224"%char);
   ("193"%char, "225"%char); ("194"%char, "226"%char); ("195"%char, "227"%char);
   ("196"%char, "228"%char); ("197"%char, "229"%char); ("198"%char, "230"%char);
   ("199"%char, "231"%char); ("200"%char, "232"%char); ("201"%char, "233"%char);
   ("202"%char, "234"%char); ("203"%char, "235"%char); ("204"%char, "236"%char);
   ("205"%char, "237"%char); ("206"%char, "238"%char); ("207"%char, "239"%char);
   ("208"%char, "240"%char); ("209"%char, "241"%char); ("210"%char, "242"%char);
   ("211"%char, "243"%char); ("212"%char, "244"%char); ("213"%char, "245"%char);
   ("214"%char, "246"%char); ("216"%char, "248"%char); ("217"%char, "249"%char);
   ("218"%char, "250"%char); ("219"%char, "251"%char); ("220"%char, "252"%char);
   ("221"%char, "253"%char); ("222"%char, "254"%char)].

(** The same character, or the two cases of one letter. *)
Definition same_letter (a b : ascii) : bool :=
  Ascii.eqb a b
  || existsb (fun p => Ascii.eqb a (fst p) && Ascii.eqb b (snd p)
                       || Ascii.eqb a (snd p) && Ascii.eqb b (fst p))
       case_pairs.

(** Two texts that differ at most in the case of their letters. *)
Fixpoint caseless (s t : string) : bool :=
  match s, t with
  | EmptyString, EmptyString => true
  | String a s', String b t' => same_letter a b && caseless s' t'
  | _, _ => false
  end.

(** The comparison, in the words of the filter: the target, in lower
    case, occurs in the content or in the source, in lower case. *)
Definition selects (target_text : string) (elem : value) : bool :=
  Text.contains (Text.lower target_text) (Text.lower (text_of "content" elem))
  || Text.contains (Text.lower target_text) (Text.lower (text_of "source" elem)).

(** ** Sample services *)

Module Sample.

Definition nl : string := String Text.newline EmptyString.

(** An event of the stream, as the service sends it. *)
Definition event (name data : string) : string :=
  "event: " ++ name ++ nl ++ "data: " ++ data ++ nl ++ nl.

Definition heartbeat : Response := Answer 200 (event "heartbeat" "null").

Definition complete (data : string) : Response :=
  Answer 200 (event "complete" data).

Definition accepted : Response :=
  Answer 200 (Decoder.json_text (VDict [("event_id", VStr "abc")])).

(** The service never has a result. *)
Definition always_pending : Service :=
  {| post := accepted; get := fun _ _ => heartbeat |}.

(** One element without any optional field, doubly encoded. *)
Definition one_bare_element : string :=
  Decoder.json_text (VList [VNone; VStr "[{}]"]).

(** A frame that does not parse, then the result. *)
Definition malformed_then_result : Service :=
  {| post := accepted;
     get := fun _ n =>
       match n with
       | O => complete "{bad"
       | _ => complete one_bare_element
       end |}.

(** The first GET cannot reach the service. *)
Definition unreachable_once : Service :=
  {| post := accepted;
     get := fun _ n =>
       match n with
       | O => Unreachable
       | _ => complete one_bare_element
       end |}.

(** Two GETs answered with status 503, then the connection fails. *)
Definition busy_then_unreachable : Service :=
  {| post := accepted;
     get := fun _ n =>
       match n with
       | 0 | 1 => Answer 503 "busy"
       | _ => Unreachable
       end |}.

(** The submission is answered with an object without [event_id]; the
    result is served under the handle [None]. *)
Definition no_handle : Service :=
  {| post := Answer 200 "{}";
     get := fun event_id _ =>
       match event_id with
       | VNone => complete one_bare_element
       | _ => Answer 404 "not found"
       end |}.

(** The result has no element. *)
Definition no_elements : Service :=
  {| post := accepted;
     get := fun _ n =>
       match n with
       | O => heartbeat
       | _ => complete (Decoder.json_text (VList [VNone; VStr "[]"]))
       end |}.

Definition settings : value :=
  VDict [("type", VStr "icon"); ("content", VStr "Settings")].

Definition globe : value :=
  VDict [("type", VStr "text"); ("source", VStr "Globe view")].

(** Two elements, sent as a list. *)
Definition two_elements : Service :=
  {| post := accepted;
     get := fun _ _ =>
       complete (Decoder.json_text (VList [VNone; VList [settings; globe]])) |}.

End Sample.

(** ** The scripts as programs *)

(** Where a script runs: the files it can open ([None] when [open]
    raises), [base64.b64encode] followed by [decode], and the service,
    which sees the body of the POST. *)
Record Host : Type := {
  open_rb : string -> option string;
  b64encode : string -> string;
  serve : value -> Service
}.

(** How a program ends: [sys.exit(status)] or the end of the script
    (status 0), or an exception nothing catches. *)
Inductive Ending : Type :=
| Exited (status : Z)
| Uncaught.

(** What a program did: how it ended, whether it sent the POST, and the
    number of GETs it made. *)
Record Ran : Type := {
  ending : Ending;
  posted : bool;
  fetched : nat
}.

(** [0 if success else 1] *)
Definition exit_status (success : option bool) : Z :=
  match success with
  | Some true => 0%Z
  | _ => 1%Z
  end.

(** The body of the POST, the same in the three scripts: the image as a
    data URL, then [box_threshold], [iou_threshold], [use_paddleocr] and
    [imgsz]. *)
Definition request_body (base64_image : string) : value :=
  VDict [("data",
          VList [VDict [("url",
                         VStr ("data:image/png;base64," ++ base64_image))];
                 VFloat 5 (-2); VFloat 1 (-1); VBool true; VInt 640])].

(** The usage exit: fewer than two arguments. *)
Definition usage : Ran :=
  {| ending := Exited 1; posted := false; fetched := 0 |}.

(** The image cannot be opened: the exception leaves the program before
    anything is sent. *)
Definition no_image : Ran :=
  {| ending := Uncaught; posted := false; fetched := 0 |}.

Module HttpMain.
Section Program.

Variable loads : string -> option value.
Variable host : Host.

(** Lines 12-15. *)
Definition image_to_base64 (image_path : string) : option string :=
  match open_rb host image_path with
  | Some image => Some (b64encode host image)
  | None => None
  end.

(** Lines 17-106: [test_omniparser] from its first line; [None] when the
    image cannot be opened. *)
Definition test_omniparser (image_path : string) : option (Exit * nat) :=
  match image_to_base64 image_path with
  | Some base64_image =>
      Some (Http.test_omniparser loads (serve host (request_body base64_image)))
  | None => None
  end.

(** Lines 108-115. *)
Definition main (argv : list string) : Ran :=
  match argv with
  | _ :: image_path :: _ =>
      match test_omniparser image_path with
      | Some (e, n) =>
          {| ending := Exited (exit_status (returned e));
             posted := true; fetched := n |}
      | None => no_image
      end
  | _ => usage
  end.

End Program.
End HttpMain.

Module LoggingMain.
Section Program.

Variable loads : string -> option value.
Variable host : Host.

(** Lines 11-157: [test_omniparser_with_logging] from its first line. *)
Definition test_omniparser_with_logging (image_path : string)
  (target_text : option string) : option (Exit * nat) :=
  match open_rb host image_path with
  | Some image =>
      Some (Logging.test_omniparser_with_logging loads
              (serve host (request_body (b64encode host image)))
              target_text)
  | None => None
  end.

(** Lines 159-171. *)
Definition main (argv : list string) : Ran :=
  match argv with
  | _ :: image_path :: rest =>
      let target_text :=
        match rest with
        | t :: _ => Some t
        | [] => None
        end in
      match test_omniparser_with_logging image_path target_text with
      | Some (e, n) =>
          {| ending := Exited (exit_status (returned e));
             posted := true; fetched := n |}
      | None => no_image
      end
  | _ => usage
  end.

End Program.
End LoggingMain.

Module InspectMain.
Section Program.

Variable loads : string -> option value.
Variable literal_eval : string -> option value.
Variable host : Host.

(** Lines 11-131: [inspect_omniparser_response] from its first line. *)
Definition inspect_omniparser_response (image_path : string)
  : option (result Inspect.Report * nat) :=
  match open_rb host image_path with
  | Some image =>
      Some (Inspect.inspect_omniparser_response loads literal_eval
              (serve host (request_body (b64encode host image))))
  | None => None
  end.

(** Lines 133-142: the script ends after the call, with status 0. *)
Definition main (argv : list string) : Ran :=
  match argv with
  | _ :: image_path :: _ =>
      match inspect_omniparser_response image_path with
      | Some (Ok _, n) =>
          {| ending := Exited 0; posted := true; fetched := n |}
      | Some (Raise _, n) =>
          {| ending := Uncaught; posted := true; fetched := n |}
      | None => no_image
      end
  | _ => usage
  end.

End Program.
End InspectMain.

(** ** Further predicates *)

(** Two services give the same answers to the POST and to the first [n]
    GETs of every handle. *)
Definition same_answers (n : nat) (s s' : Service) : Prop :=
  post s = post s'
  /\ forall event_id j, j < n -> get s event_id j = get s' event_id j.

Definition is_map (v : value) : bool :=
  match v with
  | VDict _ => true
  | _ => false
  end.

Definition is_text (v : value) : bool :=
  match v with
  | VStr _ => true
  | _ => false
  end.

(** An element the listing of [test_omniparser_with_logging] accepts: a
    map whose confidence, when present, is a number. *)
Definition listable (elem : value) : bool :=
  match elem with
  | VDict kvs => formattable (default (VInt 0) (Py.lookup "confidence" kvs))
  | _ => false
  end.

(** A target that switches the filter on: given and not empty. *)
Definition filtering (target_text : option string) : bool :=
  match target_text with
  | Some t => negb (String.eqb t EmptyString)
  | None => false
  end.

(** Whether the filter lets a run succeed on the elements [es]: it is
    off, or some element is selected. *)
Definition wanted (target_text : option string) (es : list value) : bool :=
  match target_text with
  | Some t =>
      if filtering target_text then existsb (selects t) es else true
  | None => true
  end.

(** A response the loop of the inspector passes over. *)
Definition inspect_quiet (loads literal_eval : string -> option value)
  (r : Response) : Prop :=
  match r with
  | Unreachable => False
  | Answer status_code text =>
      status_code <> 200%Z
      \/ Inspect.for_lines loads literal_eval (Inspect.lines_of text)
         = Ok None
  end.

Module Sample2.

(** Every GET is answered with status 503. *)
Definition always_busy : Service :=
  {| post := Sample.accepted; get := fun _ _ => Answer 503 "busy" |}.

(** As [Sample.malformed_then_result], but with other answers after the
    second GET. *)
Definition malformed_then_result_then_busy : Service :=
  {| post := Sample.accepted;
     get := fun _ n =>
       match n with
       | 0 => Sample.complete "{bad"
       | 1 => Sample.complete Sample.one_bare_element
       | _ => Answer 503 "busy"
       end |}.

(** The second member of the result is text that is no JSON. *)
Definition garbled_elements : string :=
  Decoder.json_text (VList [VNone; VStr "oops"]).

(** The second member of the result is the list itself. *)
Definition plain_elements : string :=
  Decoder.json_text (VList [VNone; VList [Sample.settings; Sample.globe]]).

(** An element whose content begins with a capital letter of Latin-1,
    U+00C9: [Ecole] with an acute accent. *)
Definition ecole : value :=
  VDict [("type", VStr "text"); ("content", VStr (String "201" "cole"))].

(** One pending answer, then a result with that element. *)
Definition pending_then_ecole : Service :=
  {| post := Sample.accepted;
     get := fun _ n =>
       match n with
       | O => Sample.heartbeat
       | _ => Sample.complete
                (Decoder.json_text (VList [VNone; VList [Sample.settings; ecole]]))
       end |}.

(** Two elements as Python prints a list of dicts: single quotes, an
    escaped quote, [\xe9], floats, [True] and [None]; the second dict
    ends with a comma. *)
Definition literal_elements : string :=
  "[{'type': 'icon', 'content': 'Caf\xe9 \'A\'', 'confidence': 0.91, 'interactivity': True, 'source': None}, {'type': 'text', 'bbox': [0.5, 1e-05, 12, -3],}]".

(** The elements that text stands for. *)
Definition literal_values : list value :=
  [VDict [("type", VStr "icon");
          ("content", VStr ("Caf" ++ String "233" " 'A'"));
          ("confidence", VFloat 91 (-2));
          ("interactivity", VBool true);
          ("source", VNone)];
   VDict [("type", VStr "text");
          ("bbox", VList [VFloat 5 (-1); VFloat 1 (-5); VInt 12; VInt (-3)])]].

(** The payload of a frame whose second member is that text: a JSON
    string, every backslash doubled. *)
Definition literal_frame : string :=
  "[null, "
  ++ String "034"
       ("[{'type': 'icon', 'content': 'Caf\\xe9 \\'A\\'', 'confidence': 0.91, 'interactivity': True, 'source': None}, {'type': 'text', 'bbox': [0.5, 1e-05, 12, -3],}]"
        ++ String "034" "]").

(** A host with one image and a given service. *)
Definition host_of (service : Service) : Host :=
  {| open_rb := fun path =>
       if String.eqb path "shot.png" then Some "PNG" else None;
     b64encode := fun _ => "UE5H";
     serve := fun _ => service |}.

End Sample2.

(** ** [test_omniparser.py]: the same test through the Gradio client *)

Module Gradio.

(** What lines 43-48 print for the first member of the result. *)
Inductive MarkedImage : Type :=
| Reference (url path : value)    (* a map: its [url] and [path] *)
| Other (v : value).              (* anything else: its type and text *)

(** What lines 62-69 print for one element. *)
Inductive Element : Type :=
| Fields (type bbox content confidence : value)   (* a map *)
| Whole (elem : value).                           (* anything else *)

(** What lines 51-74 print for the second member. *)
Inductive Elements : Type :=
| Found (count : nat) (first : list Element)   (* a list *)
| RawData (parsed_elements : value)            (* no list *)
| ParseError.                                  (* the inner handler *)

(** [x[i]] for a position [i]; [None] when it raises. *)
Definition item (x : value) (i : nat) : option value :=
  match x with
  | VList l => nth_error l i
  | VStr s => nth_error (map VStr (Text.chars s)) i
  | _ => None
  end.

Section Client.

Variable loads : string -> option value.

(** Lines 43-48. *)
Definition show_marked_image (marked_image : value) : MarkedImage :=
  match marked_image with
  | VDict kvs =>
      Reference (default (VStr "N/A") (Py.lookup "url" kvs))
                (default (VStr "N/A") (Py.lookup "path" kvs))
  | _ => Other marked_image
  end.

(** Lines 62-69. *)
Definition show_element (elem : value) : Element :=
  match elem with
  | VDict kvs =>
      Fields (default (VStr "N/A") (Py.lookup "type" kvs))
             (default (VStr "N/A") (Py.lookup "bbox" kvs))
             (default (VStr "N/A") (Py.lookup "content" kvs))
             (default (VStr "N/A") (Py.lookup "confidence" kvs))
  | _ => Whole elem
  end.

(** Lines 51-74: the inner [try]. *)
Definition show_elements (parsed_elements_json : value) : Elements :=
  match
    match parsed_elements_json with
    | VStr s => loads s
    | _ => Some parsed_elements_json
    end
  with
  | None => ParseError
  | Some (VList l) => Found (List.length l) (map show_element (firstn 3 l))
  | Some parsed_elements => RawData parsed_elements
  end.

(** Lines 13-82.  [predict] is what [client.predict] returns, [None]
    when making the client or the call raises.  The function returns
    [True] with what it printed, or [False], which is [None] here. *)
Definition test_omniparser (predict : option value)
  : option (MarkedImage * Elements) :=
  match predict with
  | None => None
  | Some result =>
      match item result 0 with
      | None => None
      | Some marked_image =>
          match item result 1 with
          | None => None
          | Some parsed_elements_json =>
              Some (show_marked_image marked_image,
                    show_elements parsed_elements_json)
          end
      end
  end.

End Client.
End Gradio.

(** ** The OCR scripts: reading the text out of a completion *)

Module Ocr.

(** The exceptions the expressions below can raise. *)
Inductive error : Type :=
| Builtin (x : exn)
| KeyError
| IndexError.

Inductive outcome (A : Type) : Type :=
| Done (a : A)
| Raised (x : error).
Arguments Done {A} a.
Arguments Raised {A} x.

Definition then_ {A B} (c : outcome A) (k : A -> outcome B) : outcome B :=
  match c with
  | Done a => k a
  | Raised x => Raised x
  end.

(** ["choices" in x] *)
Definition has_choices (x : value) : outcome bool :=
  match x with
  | VDict kvs =>
      Done (match Py.lookup "choices" kvs with Some _ => true | None => false end)
  | VList l =>
      Done (existsb (fun e => match e with
                              | VStr s => String.eqb s "choices"
                              | _ => false
                              end) l)
  | VStr s => Done (Text.contains "choices" s)
  | _ => Raised (Builtin TypeError)
  end.

(** [x["choices"]] *)
Definition choices_of (x : value) : outcome value :=
  match x with
  | VDict kvs =>
      match Py.lookup "choices" kvs with
      | Some v => Done v
      | None => Raised KeyError
      end
  | _ => Raised (Builtin TypeError)
  end.

(** [len(x)] *)
Definition len (x : value) : outcome nat :=
  match Py.len x with
  | Ok n => Done n
  | Raise e => Raised (Builtin e)
  end.

(** [x[0]] *)
Definition first (x : value) : outcome value :=
  match x with
  | VList (e :: _) => Done e
  | VList [] => Raised IndexError
  | VStr (String c _) => Done (VStr (String c EmptyString))
  | VStr EmptyString => Raised IndexError
  | VDict _ => Raised KeyError
  | _ => Raised (Builtin TypeError)
  end.

(** [x.get(key, default)] *)
Definition get (x : value) (key : string) (d : value) : outcome value :=
  match Py.get x key d with
  | Ok v => Done v
  | Raise e => Raised (Builtin e)
  end.

(** [x[:n]].  Slicing a dict raises (TypeError up to Python 3.11,
    KeyError from 3.12). *)
Definition upto (n : nat) (x : value) : outcome value :=
  match x with
  | VStr s => Done (VStr (Text.take n s))
  | VList l => Done (VList (firstn n l))
  | _ => Raised (Builtin TypeError)
  end.

(** [test-requests.py], lines 122-128, and [test-curl.py], lines
    139-145: the text that is printed, if any. *)
Definition extract_content (response_json : value) : outcome (option value) :=
  then_ (has_choices response_json) (fun present =>
  if present then
    then_ (choices_of response_json) (fun choices =>
    then_ (len choices) (fun n =>
    if (0 <? n)%nat then
      then_ (choices_of response_json) (fun choices =>
      then_ (first choices) (fun choice =>
      then_ (get choice "message" (VDict [])) (fun message =>
      then_ (get message "content" (VStr EmptyString)) (fun content =>
      Done (if Py.truthy content then Some content else None)))))
    else Done None))
  else Done None).

(** [diagnose-server.py], lines 54 and 118-121:
    [result.get('choices', [{}])[0].get('message', {}).get('content', d)]
    cut to [n] characters. *)
Definition diagnose_content (d : value) (n : nat) (result : value)
  : outcome value :=
  then_ (get result "choices" (VList [VDict []])) (fun choices =>
  then_ (first choices) (fun choice =>
  then_ (get choice "message" (VDict [])) (fun message =>
  then_ (get message "content" d) (fun content =>
  upto n content)))).

(** [test-requests.py], lines 112-133 and 151-156: from the response to
    the end of the program.  [can_write] tells which files can be opened
    for writing.  A body that is no JSON raises [json.JSONDecodeError]
    (as [requests] does without [simplejson]); every other exception
    ends in [sys.exit(1)]. *)
Definition requests_after_response (loads : string -> option value)
  (can_write : string -> bool) (text : string) : Ending * list string :=
  match loads text with
  | Some response_json =>
      if can_write "response.json" then
        match extract_content response_json with
        | Done _ => (Exited 0, ["response.json"])
        | Raised _ => (Exited 1, ["response.json"])
        end
      else (Exited 1, [])
  | None =>
      if can_write "response.txt" then (Exited 0, ["response.txt"])
      else (Exited 1, [])
  end.

(** [test-curl.py], lines 126-155: from the response file, when there is
    one, to the end of the program.  Only [json.JSONDecodeError] is
    caught. *)
Definition curl_after_response (loads : string -> option value)
  (response_text : option string) : Ending :=
  match response_text with
  | Some text =>
      match loads text with
      | Some response_json =>
          match extract_content response_json with
          | Done _ => Exited 0
          | Raised _ => Uncaught
          end
      | None => Exited 0
      end
  | None => Exited 0
  end.

(** A completion in the expected shape: an object whose [choices], when
    present, is a list that is empty or begins with a map whose
    [message], when present, is a map. *)
Definition well_shaped (response_json : value) : bool :=
  match response_json with
  | VDict kvs =>
      match Py.lookup "choices" kvs with
      | None => true
      | Some (VList []) => true
      | Some (VList (VDict choice :: _)) =>
          match Py.lookup "message" choice with
          | None => true
          | Some (VDict _) => true
          | Some _ => false
          end
      | Some _ => false
      end
  | _ => false
  end.

(** The content of the first choice of a well-shaped completion; empty
    when a level is missing. *)
Definition first_content (response_json : value) : value :=
  match response_json with
  | VDict kvs =>
      match Py.lookup "choices" kvs with
      | Some (VList (VDict choice :: _)) =>
          match Py.lookup "message" choice with
          | Some (VDict message) =>
              default (VStr EmptyString) (Py.lookup "content" message)
          | _ => VStr EmptyString
          end
      | _ => VStr EmptyString
      end
  | _ => VStr EmptyString
  end.

(** JSON that is neither an object, nor a list, nor text. *)
Definition scalar (v : value) : bool :=
  match v with
  | VNone | VBool _ | VInt _ | VFloat _ _ => true
  | _ => false
  end.

End Ocr.

(** * Properties *)

(** ** The polling loops *)

Section HttpLoop.

Variable loads : string -> option value.
Variable service : Service.


Lemma http_poll_other_status event_id n i fetched status_code text :
  get service event_id fetched = Answer status_code text ->
  status_code <> 200%Z ->
  Http.poll loads service event_id (S n) i fetched = Http.poll loads service event_id n (S i) (S fetched).
Proof.
  intros Hget Hstatus. simpl. rewrite Hget.
  destruct (Z.eqb_spec status_code 200); [contradiction | reflexivity].
Qed.

Lemma http_poll_unreachable event_id n i fetched :
  get service event_id fetched = Unreachable ->
  Http.poll loads service event_id (S n) i fetched = (Raise RequestException, S fetched).
Proof. intros Hget. simpl. now rewrite Hget. Qed.

Lemma http_poll_exit event_id n i fetched text e :
  get service event_id fetched = Answer 200 text ->
  Http.for_lines loads (Http.lines_of text) = Ok (Some e) ->
  Http.poll loads service event_id (S n) i fetched = (Ok (Some e), S fetched).
Proof. intros Hget Hlines. simpl. now rewrite Hget, Hlines. Qed.

Lemma http_poll_quiet event_id n i fetched :
  http_quiet loads (get service event_id fetched) ->
  i <> max_attempts - 1 ->
  Http.poll loads service event_id (S n) i fetched = Http.poll loads service event_id n (S i) (S fetched).
Proof.
  intros Hquiet Hi. simpl.
  destruct (get service event_id fetched) as [|status_code text]; [easy|].
  destruct (Z.eqb_spec status_code 200) as [->|Hne]; [|reflexivity].
  destruct Hquiet as [H|H]; [congruence|]. rewrite H.
  change (max_attempts - 1) with 29 in Hi.
  destruct (Nat.eqb_spec i 29); [contradiction | reflexivity].
Qed.

(** [m] quiet responses in a row are passed over. *)
Lemma http_poll_skip event_id m : forall n i fetched,
  (forall j, j < m -> http_quiet loads (get service event_id (fetched + j))) ->
  i + m <= max_attempts - 1 ->
  Http.poll loads service event_id (m + n) i fetched = Http.poll loads service event_id n (i + m) (fetched + m).
Proof.
  induction m as [|m IH]; intros n i fetched Hquiet Hi.
  - now rewrite !Nat.add_0_r.
  - change (S m + n) with (S (m + n)).
    rewrite http_poll_quiet.
    + rewrite IH.
      * f_equal; lia.
      * intros j Hj. replace (S fetched + j) with (fetched + S j) by lia.
        apply Hquiet. lia.
      * lia.
    + specialize (Hquiet 0). rewrite Nat.add_0_r in Hquiet. apply Hquiet. lia.
    + lia.
Qed.

End HttpLoop.

Section LoggingLoop.

Variable loads : string -> option value.
Variable service : Service.
Variable target_text : option string.


Lemma logging_poll_unreachable event_id n fetched :
  get service event_id fetched = Unreachable ->
  Logging.poll loads service target_text event_id (S n) fetched = (Raise RequestException, S fetched).
Proof. intros Hget. simpl. now rewrite Hget. Qed.

Lemma logging_poll_exit event_id n fetched text e :
  get service event_id fetched = Answer 200 text ->
  Logging.for_lines loads target_text (Logging.lines_of text) = Ok (Some e) ->
  Logging.poll loads service target_text event_id (S n) fetched = (Ok (Some e), S fetched).
Proof. intros Hget Hlines. simpl. now rewrite Hget, Hlines. Qed.

Lemma logging_poll_quiet event_id n fetched :
  logging_quiet loads target_text (get service event_id fetched) ->
  Logging.poll loads service target_text event_id (S n) fetched = Logging.poll loads service target_text event_id n (S fetched).
Proof.
  intros Hquiet. simpl.
  destruct (get service event_id fetched) as [|status_code text]; [easy|].
  destruct (Z.eqb_spec status_code 200) as [->|Hne]; [|reflexivity].
  destruct Hquiet as [H|H]; [congruence|]. now rewrite H.
Qed.

Lemma logging_poll_skip event_id m : forall n fetched,
  (forall j, j < m -> logging_quiet loads target_text (get service event_id (fetched + j))) ->
  Logging.poll loads service target_text event_id (m + n) fetched = Logging.poll loads service target_text event_id n (fetched + m).
Proof.
  induction m as [|m IH]; intros n fetched Hquiet.
  - now rewrite Nat.add_0_r.
  - change (S m + n) with (S (m + n)).
    rewrite logging_poll_quiet.
    + rewrite IH.
      * f_equal; lia.
      * intros j Hj. replace (S fetched + j) with (fetched + S j) by lia.
        apply Hquiet. lia.
    + specialize (Hquiet 0). rewrite Nat.add_0_r in Hquiet. apply Hquiet. lia.
Qed.

End LoggingLoop.

(** ** Frames that carry the sentinel *)

Lemma http_on_line_pending loads line :
  pending_line line = true -> Http.on_line loads line = Ok None.
Proof.
  unfold pending_line, Http.on_line, is_frame, payload. intros H.
  destruct (Text.startswith "data: " line); [|reflexivity].
  cbn [negb orb] in H. now rewrite H.
Qed.

Lemma logging_on_line_pending loads target_text line :
  pending_line line = true -> Logging.on_line loads target_text line = Ok None.
Proof.
  unfold pending_line, Logging.on_line, is_frame, payload. intros H.
  destruct (Text.startswith "data: " line); [|reflexivity].
  cbn [negb orb] in H. now rewrite H.
Qed.

Lemma inspect_on_line_pending loads literal_eval line :
  pending_line line = true -> Inspect.on_line loads literal_eval line = Ok None.
Proof.
  unfold pending_line, Inspect.on_line, is_frame, payload. intros H.
  destruct (Text.startswith "data: " line); [|reflexivity].
  cbn [negb orb] in H. now rewrite H.
Qed.

Lemma http_for_lines_pending loads lines :
  pending_only lines = true -> Http.for_lines loads lines = Ok None.
Proof.
  induction lines as [|line rest IH]; [reflexivity|].
  simpl. intros H. apply andb_prop in H as [Hline Hrest].
  now rewrite http_on_line_pending, IH.
Qed.

Lemma logging_for_lines_pending loads target_text lines :
  pending_only lines = true ->
  Logging.for_lines loads target_text lines = Ok None.
Proof.
  induction lines as [|line rest IH]; [reflexivity|].
  simpl. intros H. apply andb_prop in H as [Hline Hrest].
  now rewrite logging_on_line_pending, IH.
Qed.

(** C6. A frame whose payload is the sentinel [null] is passed over by
    each of the three scripts, whatever the decoder would make of it:
    the line yields neither an exit nor an exception, and the frames of
    a response are handled as if the sentinel frames were not there. *)
Theorem sentinel_frame_is_pending :
  forall (loads literal_eval : string -> option value)
         (target_text : option string) (lines : list string),
    (Http.on_line loads "data: null" = Ok None
     /\ Logging.on_line loads target_text "data: null" = Ok None
     /\ Inspect.on_line loads literal_eval "data: null" = Ok None)
    /\ Http.for_lines loads lines = Http.for_lines loads (without_pending lines)
    /\ Logging.for_lines loads target_text lines
       = Logging.for_lines loads target_text (without_pending lines)
    /\ Inspect.for_lines loads literal_eval lines
       = Inspect.for_lines loads literal_eval (without_pending lines).
Proof.
  intros loads literal_eval target_text lines.
  split; [repeat split; reflexivity|].
  unfold without_pending.
  repeat split; induction lines as [|line rest IH]; try reflexivity; simpl;
    (destruct (String.eqb_spec line "data: null") as [->|Hne]; simpl;
     [exact IH | now rewrite IH]).
Qed.

(** ** A service that is always pending *)

Lemma http_poll_pending loads service event_id :
  (forall k, exists text,
      get service event_id k = Answer 200 text
      /\ pending_only (Http.lines_of text) = true) ->
  forall n i fetched,
    i + S n = max_attempts ->
    Http.poll loads service event_id (S n) i fetched
    = (Ok (Some Timeout), fetched + S n).
Proof.
  intros Hpending n. induction n as [|n IH]; intros i fetched Hi.
  - destruct (Hpending fetched) as (text & Hget & Hlines).
    simpl. rewrite Hget. simpl.
    rewrite (http_for_lines_pending _ _ Hlines).
    replace i with 29 by (unfold max_attempts in Hi; lia).
    simpl. f_equal. lia.
  - destruct (Hpending fetched) as (text & Hget & Hlines).
    rewrite http_poll_quiet.
    + rewrite IH by lia. f_equal. lia.
    + rewrite Hget. right. now apply http_for_lines_pending.
    + unfold max_attempts in *. lia.
Qed.

Lemma logging_poll_pending loads service target_text event_id :
  (forall k, exists text,
      get service event_id k = Answer 200 text
      /\ pending_only (Logging.lines_of text) = true) ->
  forall n fetched,
    Logging.poll loads service target_text event_id n fetched
    = (Ok None, fetched + n).
Proof.
  intros Hpending n. induction n as [|n IH]; intros fetched.
  - simpl. f_equal. lia.
  - destruct (Hpending fetched) as (text & Hget & Hlines).
    rewrite logging_poll_quiet.
    + rewrite IH. f_equal. lia.
    + rewrite Hget. right. now apply logging_for_lines_pending.
Qed.

(** C2. When the submission is accepted and every response to a GET has
    status 200 and only frames that carry the sentinel, both clients
    make exactly [max_attempts] = 30 GETs and then leave by the timeout
    exit. *)
Theorem always_pending_times_out :
  forall (loads : string -> option value) (service : Service)
         (target_text : option string) (event_id : value),
    Http.submit loads service = Ok event_id ->
    Logging.submit loads service = Ok (Some event_id) ->
    (forall k, exists text,
        get service event_id k = Answer 200 text
        /\ pending_only (Http.lines_of text) = true
        /\ pending_only (Logging.lines_of text) = true) ->
    Http.test_omniparser loads service = (Timeout, 30)
    /\ Logging.test_omniparser_with_logging loads service target_text
       = (Timeout, 30).
Proof.
  intros loads service target_text event_id Hhttp Hlogging Hpending.
  split.
  - unfold Http.test_omniparser. rewrite Hhttp.
    change max_attempts with (S 29).
    rewrite http_poll_pending; [reflexivity| |reflexivity].
    intros k. destruct (Hpending k) as (text & ? & ? & ?). now exists text.
  - unfold Logging.test_omniparser_with_logging. rewrite Hlogging.
    rewrite logging_poll_pending; [reflexivity|].
    intros k. destruct (Hpending k) as (text & ? & ? & ?). now exists text.
Qed.

Lemma always_pending_times_out_witness :
  Http.submit Decoder.loads Sample.always_pending = Ok (VStr "abc")
  /\ Logging.submit Decoder.loads Sample.always_pending = Ok (Some (VStr "abc"))
  /\ (forall k, exists text,
        get Sample.always_pending (VStr "abc") k = Answer 200 text
        /\ pending_only (Http.lines_of text) = true
        /\ pending_only (Logging.lines_of text) = true)
  /\ Http.test_omniparser Decoder.loads Sample.always_pending = (Timeout, 30)
  /\ Logging.test_omniparser_with_logging Decoder.loads Sample.always_pending
       (Some "Settings") = (Timeout, 30).
Proof.
  assert (H1 : Http.submit Decoder.loads Sample.always_pending
               = Ok (VStr "abc")) by reflexivity.
  assert (H2 : Logging.submit Decoder.loads Sample.always_pending
               = Ok (Some (VStr "abc"))) by reflexivity.
  assert (H3 : forall k, exists text,
             get Sample.always_pending (VStr "abc") k = Answer 200 text
             /\ pending_only (Http.lines_of text) = true
             /\ pending_only (Logging.lines_of text) = true).
  { intros k. eexists. repeat split; reflexivity. }
  split; [exact H1|]. split; [exact H2|]. split; [exact H3|].
  exact (always_pending_times_out Decoder.loads Sample.always_pending
           (Some "Settings") (VStr "abc") H1 H2 H3).
Defined.

(** ** Frames that do not parse *)

Lemma http_on_line_undecoded loads line :
  undecoded_line loads line = true -> Http.on_line loads line = Ok None.
Proof.
  unfold undecoded_line. intros H.
  destruct (pending_line line) eqn:Hp; [now apply http_on_line_pending|].
  cbn [orb] in H. unfold Http.on_line, payload in *.
  destruct (Text.startswith "data: " line); [|reflexivity].
  destruct (String.eqb (Text.drop 6 line) "null"); [reflexivity|].
  cbn [Http.json_loads bind].
  destruct (loads (Text.drop 6 line)); [discriminate | reflexivity].
Qed.

Lemma logging_on_line_undecoded loads target_text line :
  undecoded_line loads line = true ->
  Logging.on_line loads target_text line = Ok None.
Proof.
  unfold undecoded_line. intros H.
  destruct (pending_line line) eqn:Hp; [now apply logging_on_line_pending|].
  cbn [orb] in H. unfold Logging.on_line, payload in *.
  destruct (Text.startswith "data: " line); [|reflexivity].
  destruct (String.eqb (Text.drop 6 line) "null"); [reflexivity|].
  cbn [Logging.json_loads bind].
  destruct (loads (Text.drop 6 line)); [discriminate | reflexivity].
Qed.

Lemma http_for_lines_undecoded loads lines :
  forallb (undecoded_line loads) lines = true ->
  Http.for_lines loads lines = Ok None.
Proof.
  induction lines as [|line rest IH]; [reflexivity|].
  simpl. intros H. apply andb_prop in H as [Hline Hrest].
  now rewrite http_on_line_undecoded, IH.
Qed.

Lemma logging_for_lines_undecoded loads target_text lines :
  forallb (undecoded_line loads) lines = true ->
  Logging.for_lines loads target_text lines = Ok None.
Proof.
  induction lines as [|line rest IH]; [reflexivity|].
  simpl. intros H. apply andb_prop in H as [Hline Hrest].
  now rewrite logging_on_line_undecoded, IH.
Qed.

(** C1, as stated, fails.  The first frame that is not pending carries
    [{bad], which neither decoder parses; both clients go on to a second
    GET and leave by the success exit. *)
Lemma malformed_frame_does_not_end_the_run :
  Decoder.loads "{bad" = None
  /\ Decoder.literal_eval "{bad" = None
  /\ get Sample.malformed_then_result (VStr "abc") 0
     = Sample.complete "{bad"
  /\ Http.test_omniparser Decoder.loads Sample.malformed_then_result
     = (ResultReceived, 2)
  /\ Logging.test_omniparser_with_logging Decoder.loads
       Sample.malformed_then_result None
     = (ResultReceived, 2).
Proof. repeat split; reflexivity. Qed.

(** C1, amended.  A frame whose payload [json.loads] rejects is passed
    over: the frames after it are handled as if it were not there, and a
    response made of such frames (and of pending ones) is followed by the
    next GET. *)
Theorem malformed_frame_is_skipped :
  forall (loads : string -> option value) (service : Service)
         (target_text : option string) (event_id : value)
         (line : string) (rest : list string) (text : string)
         (n i fetched : nat),
    is_frame line = true ->
    loads (payload line) = None ->
    get service event_id fetched = Answer 200 text ->
    forallb (undecoded_line loads) (Http.lines_of text) = true ->
    forallb (undecoded_line loads) (Logging.lines_of text) = true ->
    i <> max_attempts - 1 ->
    (Http.for_lines loads (line :: rest) = Http.for_lines loads rest
     /\ Logging.for_lines loads target_text (line :: rest)
        = Logging.for_lines loads target_text rest)
    /\ Http.poll loads service event_id (S n) i fetched
       = Http.poll loads service event_id n (S i) (S fetched)
    /\ Logging.poll loads service target_text event_id (S n) fetched
       = Logging.poll loads service target_text event_id n (S fetched).
Proof.
  intros loads service target_text event_id line rest text n i fetched
    Hframe Hloads Hget Hhttp Hlogging Hi.
  assert (Hline : undecoded_line loads line = true).
  { unfold undecoded_line. rewrite Hloads. apply orb_true_r. }
  repeat split.
  - simpl. now rewrite http_on_line_undecoded.
  - simpl. now rewrite logging_on_line_undecoded.
  - apply http_poll_quiet; [|exact Hi].
    rewrite Hget. right. now apply http_for_lines_undecoded.
  - apply logging_poll_quiet.
    rewrite Hget. right. now apply logging_for_lines_undecoded.
Qed.

Lemma malformed_frame_is_skipped_witness :
  is_frame "data: {bad" = true
  /\ Decoder.loads (payload "data: {bad") = None
  /\ (Http.for_lines Decoder.loads ["data: {bad"; "data: [1, 2]"]
      = Http.for_lines Decoder.loads ["data: [1, 2]"]
      /\ Logging.for_lines Decoder.loads None ["data: {bad"; "data: [1, 2]"]
         = Logging.for_lines Decoder.loads None ["data: [1, 2]"])
  /\ Http.poll Decoder.loads Sample.malformed_then_result (VStr "abc") 30 0 0
     = Http.poll Decoder.loads Sample.malformed_then_result (VStr "abc") 29 1 1
  /\ Logging.poll Decoder.loads Sample.malformed_then_result None (VStr "abc")
       30 0
     = Logging.poll Decoder.loads Sample.malformed_then_result None
         (VStr "abc") 29 1.
Proof.
  split; [reflexivity|]. split; [reflexivity|].
  apply (malformed_frame_is_skipped Decoder.loads Sample.malformed_then_result
           None (VStr "abc") "data: {bad" ["data: [1, 2]"]
           (Sample.event "complete" "{bad") 29 0 0);
    try reflexivity.
  unfold max_attempts. simpl. discriminate.
Defined.

(** ** Transport errors *)

(** C4, as stated, fails.  The first GET cannot reach the service and
    twenty-nine attempts remain, the second of which would be answered
    with the result; both clients stop at once with the failure value. *)
Lemma fetch_exception_ends_the_run :
  get Sample.unreachable_once (VStr "abc") 0 = Unreachable
  /\ get Sample.unreachable_once (VStr "abc") 1
     = Sample.complete Sample.one_bare_element
  /\ Http.test_omniparser Decoder.loads Sample.unreachable_once
     = (RequestFailed, 1)
  /\ Logging.test_omniparser_with_logging Decoder.loads
       Sample.unreachable_once None
     = (Error, 1)
  /\ returned RequestFailed = Some false
  /\ returned Error = Some false.
Proof. repeat split; reflexivity. Qed.

(** C4, amended.  In [test_omniparser], a GET answered with a status
    other than 200 does not end the run: after [m] such answers the
    client makes GET number [m + 1], and a result found there is
    returned.  A GET that raises ends the run at once with the failure
    value, as a POST that raises does. *)
Theorem fetch_status_absorbed_exception_terminal :
  forall (loads : string -> option value) (service : Service),
    (post service = Unreachable ->
     Http.test_omniparser loads service = (RequestFailed, 0))
    /\ (forall (event_id : value) (m : nat),
           Http.submit loads service = Ok event_id ->
           m < max_attempts ->
           (forall j, j < m -> exists status_code text,
                 get service event_id j = Answer status_code text
                 /\ status_code <> 200%Z) ->
           (get service event_id m = Unreachable ->
            Http.test_omniparser loads service = (RequestFailed, S m))
           /\ (forall text e,
                  get service event_id m = Answer 200 text ->
                  Http.for_lines loads (Http.lines_of text) = Ok (Some e) ->
                  Http.test_omniparser loads service = (e, S m))).
Proof.
  intros loads service. split.
  - intros Hpost. unfold Http.test_omniparser, Http.submit. now rewrite Hpost.
  - intros event_id m Hsubmit Hm Hbusy.
    assert (Hskip : Http.poll loads service event_id max_attempts 0 0
                    = Http.poll loads service event_id (max_attempts - m) m m).
    { replace max_attempts with (m + (max_attempts - m)) at 1 by lia.
      rewrite http_poll_skip; [reflexivity| |unfold max_attempts in *; lia].
      intros j Hj. destruct (Hbusy j Hj) as (status_code & text & Hget & Hne).
      simpl. rewrite Hget. now left. }
    assert (Hrest : exists n, max_attempts - m = S n).
    { exists (max_attempts - m - 1). lia. }
    destruct Hrest as [n Hn]. rewrite Hn in Hskip.
    unfold Http.test_omniparser. rewrite Hsubmit, Hskip. split.
    + intros Hget. now rewrite http_poll_unreachable.
    + intros text e Hget Hlines. now rewrite (http_poll_exit _ _ _ _ _ _ _ e Hget).
Qed.

Lemma fetch_status_absorbed_exception_terminal_witness :
  Http.submit Decoder.loads Sample.busy_then_unreachable = Ok (VStr "abc")
  /\ (forall j, j < 2 -> exists status_code text,
         get Sample.busy_then_unreachable (VStr "abc") j
         = Answer status_code text /\ status_code <> 200%Z)
  /\ get Sample.busy_then_unreachable (VStr "abc") 2 = Unreachable
  /\ Http.test_omniparser Decoder.loads Sample.busy_then_unreachable
     = (RequestFailed, 3).
Proof.
  assert (H1 : Http.submit Decoder.loads Sample.busy_then_unreachable
               = Ok (VStr "abc")) by reflexivity.
  assert (H2 : forall j, j < 2 -> exists status_code text,
               get Sample.busy_then_unreachable (VStr "abc") j
               = Answer status_code text /\ status_code <> 200%Z).
  { intros j Hj. exists 503%Z, "busy".
    destruct j as [|[|j]]; [split; [reflexivity|discriminate] ..|lia]. }
  assert (H3 : get Sample.busy_then_unreachable (VStr "abc") 2 = Unreachable)
    by reflexivity.
  split; [exact H1|]. split; [exact H2|]. split; [exact H3|].
  refine (proj1 (proj2 (fetch_status_absorbed_exception_terminal
                          Decoder.loads Sample.busy_then_unreachable)
                   (VStr "abc") 2 H1 _ H2) H3).
  unfold max_attempts. lia.
Defined.

(** ** A submission answered without a handle *)

(** C5, as stated, fails.  The POST is answered with the JSON object
    [{}], which has no [event_id]; both clients go on to poll, under the
    handle [None], and leave by the success exit after one GET. *)
Lemma missing_handle_is_polled :
  post Sample.no_handle = Answer 200 "{}"
  /\ Decoder.loads "{}" = Some (VDict [])
  /\ Http.test_omniparser Decoder.loads Sample.no_handle = (ResultReceived, 1)
  /\ Logging.test_omniparser_with_logging Decoder.loads Sample.no_handle None
     = (ResultReceived, 1).
Proof. repeat split; reflexivity. Qed.

(** C5, amended.  When the POST is answered with status 200 and a JSON
    object without [event_id], neither client checks the handle:
    [event_id] is [None] and the run is the polling loop under that
    handle, thirty attempts at most. *)
Theorem missing_handle_polls_with_none :
  forall (loads : string -> option value) (service : Service)
         (target_text : option string) (text : string)
         (kvs : list (string * value)),
    post service = Answer 200 text ->
    loads text = Some (VDict kvs) ->
    Py.lookup "event_id" kvs = None ->
    (Http.submit loads service = Ok VNone
     /\ Http.test_omniparser loads service
        = (Http.finish (fst (Http.poll loads service VNone max_attempts 0 0)),
           snd (Http.poll loads service VNone max_attempts 0 0)))
    /\ (Logging.submit loads service = Ok (Some VNone)
        /\ Logging.test_omniparser_with_logging loads service target_text
           = (Logging.finish
                (fst (Logging.poll loads service target_text VNone
                        max_attempts 0)),
              snd (Logging.poll loads service target_text VNone
                     max_attempts 0))).
Proof.
  intros loads service target_text text kvs Hpost Hloads Hkey.
  assert (Hhttp : Http.submit loads service = Ok VNone).
  { unfold Http.submit. rewrite Hpost. cbn. rewrite Hloads. cbn.
    now rewrite Hkey. }
  assert (Hlogging : Logging.submit loads service = Ok (Some VNone)).
  { unfold Logging.submit. rewrite Hpost. cbn. rewrite Hloads. cbn.
    now rewrite Hkey. }
  repeat split; try assumption.
  - unfold Http.test_omniparser. rewrite Hhttp.
    now destruct (Http.poll loads service VNone max_attempts 0 0).
  - unfold Logging.test_omniparser_with_logging. rewrite Hlogging.
    now destruct (Logging.poll loads service target_text VNone max_attempts 0).
Qed.

Lemma missing_handle_polls_with_none_witness :
  post Sample.no_handle = Answer 200 "{}"
  /\ Decoder.loads "{}" = Some (VDict [])
  /\ Py.lookup "event_id" [] = None
  /\ Http.submit Decoder.loads Sample.no_handle = Ok VNone
  /\ Logging.submit Decoder.loads Sample.no_handle = Ok (Some VNone).
Proof.
  split; [reflexivity|]. split; [reflexivity|]. split; [reflexivity|].
  split.
  - apply (missing_handle_polls_with_none Decoder.loads Sample.no_handle None
             "{}" []); reflexivity.
  - apply (missing_handle_polls_with_none Decoder.loads Sample.no_handle None
             "{}" []); reflexivity.
Defined.

(** ** What a run can end on *)

Lemma http_on_line_exit loads line e :
  Http.on_line loads line = Ok (Some e) ->
  is_frame line = true
  /\ exists v, loads (payload line) = Some v /\ terminal v = true.
Proof.
  unfold Http.on_line, is_frame, payload.
  destruct (Text.startswith "data: " line); [|discriminate].
  destruct (String.eqb (Text.drop 6 line) "null"); [discriminate|].
  cbn [Http.json_loads bind].
  destruct (loads (Text.drop 6 line)) as [v|]; [|discriminate].
  intros H. split; [reflexivity|]. exists v. split; [reflexivity|].
  destruct v; try discriminate. cbn [bind] in H. unfold terminal.
  destruct (2 <=? Datatypes.length l)%nat; [reflexivity | discriminate].
Qed.

Lemma logging_on_line_exit loads target_text line e :
  Logging.on_line loads target_text line = Ok (Some e) ->
  is_frame line = true
  /\ exists v, loads (payload line) = Some v /\ terminal v = true.
Proof.
  unfold Logging.on_line, is_frame, payload.
  destruct (Text.startswith "data: " line); [|discriminate].
  destruct (String.eqb (Text.drop 6 line) "null"); [discriminate|].
  cbn [Logging.json_loads bind].
  destruct (loads (Text.drop 6 line)) as [v|]; [|discriminate].
  intros H. split; [reflexivity|]. exists v. split; [reflexivity|].
  destruct v; try discriminate. cbn [bind] in H. unfold terminal.
  destruct (2 <=? Datatypes.length l)%nat; [reflexivity | discriminate].
Qed.

Lemma http_for_lines_exit loads lines e :
  Http.for_lines loads lines = Ok (Some e) ->
  exists line, In line lines /\ Http.on_line loads line = Ok (Some e).
Proof.
  induction lines as [|line rest IH]; [discriminate|]. simpl.
  destruct (Http.on_line loads line) as [[e'|]|x] eqn:Hline.
  - intros H. exists line. split; [now left|]. congruence.
  - intros H. destruct (IH H) as (l & Hin & Hl). exists l. split; [now right|easy].
  - discriminate.
Qed.

Lemma logging_for_lines_exit loads target_text lines e :
  Logging.for_lines loads target_text lines = Ok (Some e) ->
  exists line,
    In line lines /\ Logging.on_line loads target_text line = Ok (Some e).
Proof.
  induction lines as [|line rest IH]; [discriminate|]. simpl.
  destruct (Logging.on_line loads target_text line) as [[e'|]|x] eqn:Hline.
  - intros H. exists line. split; [now left|]. congruence.
  - intros H. destruct (IH H) as (l & Hin & Hl). exists l. split; [now right|easy].
  - discriminate.
Qed.

Lemma http_poll_success loads service event_id n : forall i fetched total,
  Http.poll loads service event_id n i fetched
  = (Ok (Some ResultReceived), total) ->
  exists k text,
    k < total /\ get service event_id k = Answer 200 text
    /\ Http.for_lines loads (Http.lines_of text) = Ok (Some ResultReceived).
Proof.
  induction n as [|n IH]; intros i fetched total; [discriminate|].
  simpl.
  destruct (get service event_id fetched) as [|status_code text] eqn:Hget;
    [discriminate|].
  destruct (Z.eqb_spec status_code 200) as [->|Hne].
  - destruct (Http.for_lines loads (Http.lines_of text)) as [[e|]|x] eqn:Hl.
    + intros H. injection H as -> <-. exists fetched, text. auto.
    + destruct (i =? 29)%nat; [discriminate|]. apply IH.
    + discriminate.
  - apply IH.
Qed.

Lemma logging_poll_success loads service target_text event_id n :
  forall fetched total e,
  Logging.poll loads service target_text event_id n fetched
  = (Ok (Some e), total) ->
  exists k text,
    k < total /\ get service event_id k = Answer 200 text
    /\ Logging.for_lines loads target_text (Logging.lines_of text)
       = Ok (Some e).
Proof.
  induction n as [|n IH]; intros fetched total e; [discriminate|].
  simpl.
  destruct (get service event_id fetched) as [|status_code text] eqn:Hget;
    [discriminate|].
  destruct (Z.eqb_spec status_code 200) as [->|Hne].
  - destruct (Logging.for_lines loads target_text (Logging.lines_of text))
      as [[e'|]|x] eqn:Hl.
    + intros H. injection H as -> <-. exists fetched, text. auto.
    + apply IH.
    + discriminate.
  - apply IH.
Qed.

(** C7. A decoded payload that is not a list of at least two members
    ends nothing: the line it came on is passed over by both clients.
    And a run that leaves by the success exit has fetched a response with
    a frame whose payload decodes to such a list. *)
Theorem only_long_lists_are_terminal :
  forall (loads : string -> option value) (service : Service)
         (target_text : option string),
    (forall line v,
        is_frame line = true ->
        loads (payload line) = Some v ->
        terminal v = false ->
        Http.on_line loads line = Ok None
        /\ Logging.on_line loads target_text line = Ok None)
    /\ (forall total,
           Http.test_omniparser loads service = (ResultReceived, total) ->
           exists event_id k text line v,
             k < total
             /\ get service event_id k = Answer 200 text
             /\ In line (Http.lines_of text)
             /\ is_frame line = true
             /\ loads (payload line) = Some v
             /\ terminal v = true)
    /\ (forall total,
           Logging.test_omniparser_with_logging loads service target_text
           = (ResultReceived, total) ->
           exists event_id k text line v,
             k < total
             /\ get service event_id k = Answer 200 text
             /\ In line (Logging.lines_of text)
             /\ is_frame line = true
             /\ loads (payload line) = Some v
             /\ terminal v = true).
Proof.
  intros loads service target_text. repeat split.
  - unfold Http.on_line, is_frame, payload in *. rewrite H.
    destruct (String.eqb (Text.drop 6 line) "null"); [reflexivity|].
    cbn [Http.json_loads bind]. rewrite H0. cbn [bind].
    destruct v; try reflexivity. unfold terminal in H1. now rewrite H1.
  - unfold Logging.on_line, is_frame, payload in *. rewrite H.
    destruct (String.eqb (Text.drop 6 line) "null"); [reflexivity|].
    cbn [Logging.json_loads bind]. rewrite H0. cbn [bind].
    destruct v; try reflexivity. unfold terminal in H1. now rewrite H1.
  - intros total. unfold Http.test_omniparser.
    destruct (Http.submit loads service) as [event_id|x];
      [|destruct x; discriminate].
    destruct (Http.poll loads service event_id max_attempts 0 0)
      as [r fetched] eqn:Hpoll.
    intros H. injection H as Hr ->.
    assert (r = Ok (Some ResultReceived)) as ->.
    { destruct r as [[e|]|x]; simpl in Hr; try discriminate;
        [now subst | destruct x; discriminate]. }
    destruct (http_poll_success _ _ _ _ _ _ _ Hpoll) as (k & text & Hk & Hget & Hl).
    destruct (http_for_lines_exit _ _ _ Hl) as (line & Hin & Hline).
    destruct (http_on_line_exit _ _ _ Hline) as (Hframe & v & Hv & Hterm).
    exists event_id, k, text, line, v. tauto.
  - intros total. unfold Logging.test_omniparser_with_logging.
    destruct (Logging.submit loads service) as [[event_id|]|x];
      [|discriminate|discriminate].
    destruct (Logging.poll loads service target_text event_id max_attempts 0)
      as [r fetched] eqn:Hpoll.
    intros H. injection H as Hr ->.
    assert (r = Ok (Some ResultReceived)) as ->.
    { destruct r as [[e|]|x]; simpl in Hr; try discriminate. now subst. }
    destruct (logging_poll_success _ _ _ _ _ _ _ _ Hpoll)
      as (k & text & Hk & Hget & Hl).
    destruct (logging_for_lines_exit _ _ _ _ Hl) as (line & Hin & Hline).
    destruct (logging_on_line_exit _ _ _ _ Hline) as (Hframe & v & Hv & Hterm).
    exists event_id, k, text, line, v. tauto.
Qed.

Lemma only_long_lists_are_terminal_witness :
  is_frame "data: [7]" = true
  /\ Decoder.loads (payload "data: [7]") = Some (VList [VInt 7])
  /\ terminal (VList [VInt 7]) = false
  /\ Http.on_line Decoder.loads "data: [7]" = Ok None
  /\ Logging.on_line Decoder.loads None "data: [7]" = Ok None.
Proof.
  split; [reflexivity|]. split; [reflexivity|]. split; [reflexivity|].
  apply (proj1 (only_long_lists_are_terminal Decoder.loads
                  Sample.always_pending None)
           "data: [7]" (VList [VInt 7])); reflexivity.
Defined.

(** ** A result without elements *)

Lemma logging_for_lines_app loads target_text pre rest :
  Logging.for_lines loads target_text pre = Ok None ->
  Logging.for_lines loads target_text (pre ++ rest)
  = Logging.for_lines loads target_text rest.
Proof.
  induction pre as [|line pre IH]; [reflexivity|]. simpl.
  destruct (Logging.on_line loads target_text line) as [[e|]|x];
    [discriminate | exact IH | discriminate].
Qed.

(** C10. In [test_omniparser_with_logging], when the first frame to end
    a run decodes to a list of two members or more and the elements in
    its second member number zero, the run leaves by the exit of line
    106 and returns [False]: no success is reported for an empty list of
    elements. *)
Theorem empty_result_is_a_failure :
  forall (loads : string -> option value) (service : Service)
         (target_text : option string) (event_id : value) (m : nat)
         (text : string) (pre post : list string) (line : string)
         (l : list value) (elements : value),
    Logging.submit loads service = Ok (Some event_id) ->
    m < max_attempts ->
    (forall j, j < m ->
       logging_quiet loads target_text (get service event_id j)) ->
    get service event_id m = Answer 200 text ->
    Logging.lines_of text = pre ++ line :: post ->
    Logging.for_lines loads target_text pre = Ok None ->
    is_frame line = true ->
    payload line <> "null" ->
    loads (payload line) = Some (VList l) ->
    2 <= List.length l ->
    Logging.elements_of loads (nth 1 l VNone) = Ok elements ->
    Py.len elements = Ok 0 ->
    Logging.test_omniparser_with_logging loads service target_text
    = (NoElements, S m)
    /\ returned NoElements = Some false.
Proof.
  intros loads service target_text event_id m text pre post line l elements
    Hsubmit Hm Hquiet Hget Hlines Hpre Hframe Hnull Hloads Hlen Helems Hzero.
  split; [|reflexivity].
  assert (Hline : Logging.on_line loads target_text line = Ok (Some NoElements)).
  { unfold Logging.on_line, is_frame, payload in *. rewrite Hframe.
    destruct (String.eqb_spec (Text.drop 6 line) "null"); [contradiction|].
    cbn [Logging.json_loads bind]. rewrite Hloads. cbn [bind].
    destruct (Nat.leb_spec 2 (Datatypes.length l)); [|lia].
    unfold Logging.on_result. rewrite Helems. cbn [bind].
    rewrite Hzero. reflexivity. }
  unfold Logging.test_omniparser_with_logging. rewrite Hsubmit.
  replace max_attempts with (m + S (max_attempts - m - 1)) by lia.
  rewrite logging_poll_skip by (simpl; exact Hquiet).
  rewrite (logging_poll_exit _ _ _ _ _ _ text NoElements); [reflexivity| |].
  - exact Hget.
  - rewrite Hlines, logging_for_lines_app by exact Hpre.
    simpl. now rewrite Hline.
Qed.

Lemma empty_result_is_a_failure_witness :
  Logging.test_omniparser_with_logging Decoder.loads Sample.no_elements
    (Some "Settings")
  = (NoElements, 2)
  /\ returned NoElements = Some false.
Proof.
  apply (empty_result_is_a_failure Decoder.loads Sample.no_elements
           (Some "Settings") (VStr "abc") 1
           (Sample.event "complete" (Decoder.json_text (VList [VNone; VStr "[]"])))
           ["event: complete"]
           [EmptyString; EmptyString]
           ("data: " ++ Decoder.json_text (VList [VNone; VStr "[]"]))
           [VNone; VStr "[]"] (VList [])); try reflexivity.
  - unfold max_attempts. lia.
  - intros j Hj. assert (j = 0) as -> by lia. right. reflexivity.
  - discriminate.
Defined.

(** ** Elements with absent fields *)

(** C8, as stated, fails.  For the element map without any field, the
    listing of lines 110-114 shows the placeholder [N/A] for the content,
    not the empty text. *)
Lemma absent_content_is_shown_as_placeholder :
  Logging.show_element (VDict [])
  = Ok {| Logging.shown_type := VStr "N/A";
          Logging.shown_content := VStr "N/A";
          Logging.shown_confidence := VInt 0;
          Logging.shown_bbox := VStr "N/A";
          Logging.shown_interactivity := VBool false |}
  /\ VStr "N/A" <> VStr EmptyString.
Proof. split; [reflexivity | discriminate]. Qed.

(** C8, amended.  For an element map whose confidence is absent or a
    number, the listing succeeds and shows each field or its default:
    [N/A] for type, content and bbox, 0 for the confidence, [False] for
    the interactivity.  For the comparison of the filter, an absent
    content or source is the empty text.  An absent field raises nothing. *)
Theorem absent_fields_take_defaults :
  forall (kvs : list (string * value)),
    formattable (default (VInt 0) (Py.lookup "confidence" kvs)) = true ->
    (exists f,
        Py.format_2f (default (VInt 0) (Py.lookup "confidence" kvs)) = Ok f
        /\ (Py.lookup "confidence" kvs = None -> f = VInt 0)
        /\ Logging.show_element (VDict kvs)
           = Ok {| Logging.shown_type :=
                     default (VStr "N/A") (Py.lookup "type" kvs);
                   Logging.shown_content :=
                     default (VStr "N/A") (Py.lookup "content" kvs);
                   Logging.shown_confidence := f;
                   Logging.shown_bbox :=
                     default (VStr "N/A") (Py.lookup "bbox" kvs);
                   Logging.shown_interactivity :=
                     default (VBool false) (Py.lookup "interactivity" kvs) |})
    /\ (Py.lookup "content" kvs = None ->
        Logging.text_field (VDict kvs) "content" = Ok EmptyString)
    /\ (Py.lookup "source" kvs = None ->
        Logging.text_field (VDict kvs) "source" = Ok EmptyString).
Proof.
  intros kvs Hformat. repeat split.
  - unfold formattable in Hformat.
    destruct (Py.format_2f (default (VInt 0) (Py.lookup "confidence" kvs)))
      as [f|x] eqn:Hf; [|discriminate].
    exists f. repeat split.
    + intros Habsent. rewrite Habsent in Hf. simpl in Hf. congruence.
    + unfold Logging.show_element, Py.get.
      destruct (Py.lookup "type" kvs), (Py.lookup "content" kvs),
        (Py.lookup "bbox" kvs), (Py.lookup "interactivity" kvs);
        cbn [bind default];
        destruct (Py.lookup "confidence" kvs); cbn [bind default] in *;
        rewrite Hf; reflexivity.
  - intros Habsent. unfold Logging.text_field, Py.get. now rewrite Habsent.
  - intros Habsent. unfold Logging.text_field, Py.get. now rewrite Habsent.
Qed.

Lemma absent_fields_take_defaults_witness :
  formattable (default (VInt 0) (Py.lookup "confidence" [("type", VStr "icon")]))
  = true
  /\ Logging.text_field (VDict [("type", VStr "icon")]) "content"
     = Ok EmptyString.
Proof.
  split; [reflexivity|].
  apply (proj1 (proj2 (absent_fields_take_defaults [("type", VStr "icon")]
                         eq_refl))).
  reflexivity.
Defined.

(** ** The filter *)

(** [str.lower], character by character: the code point of the lower
    case of each of the 256 characters of the model. *)
Lemma lower_char_table :
  map (fun n => nat_of_ascii (Text.lower_char (ascii_of_nat n))) (seq 0 256)
  = (
     [0; 1; 2; 3; 4; 5; 6; 7; 8; 9; 10; 11; 12; 13; 14; 15;
      16; 17; 18; 19; 20; 21; 22; 23; 24; 25; 26; 27; 28; 29; 30; 31;
      32; 33; 34; 35; 36; 37; 38; 39; 40; 41; 42; 43; 44; 45; 46; 47;
      48; 49; 50; 51; 52; 53; 54; 55; 56; 57; 58; 59; 60; 61; 62; 63;
      64; 97; 98; 99; 100; 101; 102; 103; 104; 105; 106; 107; 108; 109; 110; 111;
      112; 113; 114; 115; 116; 117; 118; 119; 120; 121; 122; 91; 92; 93; 94; 95;
      96; 97; 98; 99; 100; 101; 102; 103; 104; 105; 106; 107; 108; 109; 110; 111;
      112; 113; 114; 115; 116; 117; 118; 119; 120; 121; 122; 123; 124; 125; 126; 127;
      128; 129; 130; 131; 132; 133; 134; 135; 136; 137; 138; 139; 140; 141; 142; 143;
      144; 145; 146; 147; 148; 149; 150; 151; 152; 153; 154; 155; 156; 157; 158; 159;
      160; 161; 162; 163; 164; 165; 166; 167; 168; 169; 170; 171; 172; 173; 174; 175;
      176; 177; 178; 179; 180; 181; 182; 183; 184; 185; 186; 187; 188; 189; 190; 191;
      224; 225; 226; 227; 228; 229; 230; 231; 232; 233; 234; 235; 236; 237; 238; 239;
      240; 241; 242; 243; 244; 245; 246; 215; 248; 249; 250; 251; 252; 253; 254; 223;
      224; 225; 226; 227; 228; 229; 230; 231; 232; 233; 234; 235; 236; 237; 238; 239;
      240; 241; 242; 243; 244; 245; 246; 247; 248; 249; 250; 251; 252; 253; 254; 255])%nat.
Proof. vm_compute. reflexivity. Qed.

Lemma same_letter_lower a b :
  same_letter a b = true -> Text.lower_char a = Text.lower_char b.
Proof.
  unfold same_letter. intros H. apply orb_prop in H as [H | H].
  - now apply Ascii.eqb_eq in H as ->.
  - apply existsb_exists in H as (p & Hin & Hp).
    unfold case_pairs in Hin. cbn [In] in Hin.
    repeat (destruct Hin as [<- | Hin];
            [cbn [fst snd] in Hp;
             apply orb_prop in Hp as [Hp | Hp];
             apply andb_prop in Hp as [Ha Hb];
             apply Ascii.eqb_eq in Ha, Hb; subst a b; reflexivity|]).
    contradiction.
Qed.

Lemma caseless_lower s : forall t,
  caseless s t = true -> Text.lower s = Text.lower t.
Proof.
  induction s as [|a s IH]; intros [|b t] H; try discriminate;
    [reflexivity|].
  cbn [caseless] in H. apply andb_prop in H as [Hab Hst].
  cbn [Text.lower]. now rewrite (same_letter_lower _ _ Hab), (IH _ Hst).
Qed.

Lemma lower_idempotent s : Text.lower (Text.lower s) = Text.lower s.
Proof.
  induction s as [|c s IH]; [reflexivity|]. cbn [Text.lower]. rewrite IH.
  f_equal. destruct c as [[] [] [] [] [] [] [] []]; reflexivity.
Qed.

Lemma text_field_of_textual kvs key :
  textual (Py.lookup key kvs) = true ->
  Logging.text_field (VDict kvs) key
  = Ok (Text.lower (text_of key (VDict kvs))).
Proof.
  unfold Logging.text_field, Py.get, text_of, textual.
  destruct (Py.lookup key kvs) as [v|]; [|reflexivity].
  destruct v; cbn [bind]; intros H;
    try (apply negb_true_iff in H; rewrite H; reflexivity).
  cbn [Py.truthy]. now destruct (String.eqb_spec s EmptyString) as [->|].
Qed.




(** ** Python literal notation and its JSON spelling

    What the scanner of Python literals reads, the scanner of JSON reads
    from the same text in JSON spelling, with the same result.  The
    lemmas follow the scanners: characters, numbers, constants, text,
    lists and dicts, values, the whole text. *)
Module Respelling.
Import Decoder.

(** ** Characters *)

Ltac every_char c :=
  destruct c as [[] [] [] [] [] [] [] []].

Lemma digit_is_kept c d :
  digit c = Some d ->
  kept c = true /\ json_space c = false /\ python_space c = false
  /\ opens c = true
  /\ Ascii.eqb c "." = false /\ Ascii.eqb c "e" = false
  /\ Ascii.eqb c "E" = false /\ Ascii.eqb c "+" = false
  /\ Ascii.eqb c "-" = false /\ Ascii.eqb c "]" = false
  /\ Ascii.eqb c "}" = false.
Proof.
  assert (H : (match digit c with
               | Some _ =>
                   kept c && negb (json_space c) && negb (python_space c)
                   && opens c
                   && negb (Ascii.eqb c ".") && negb (Ascii.eqb c "e")
                   && negb (Ascii.eqb c "E") && negb (Ascii.eqb c "+")
                   && negb (Ascii.eqb c "-") && negb (Ascii.eqb c "]")
                   && negb (Ascii.eqb c "}")
               | None => true
               end) = true)
    by (every_char c; reflexivity).
  intros Hd. rewrite Hd in H.
  repeat (apply andb_prop in H as [H ?]).
  repeat match goal with
         | Hn : negb _ = true |- _ => apply negb_true_iff in Hn
         end.
  tauto.
Qed.

Lemma space_is_kept c :
  python_space c = true ->
  Ascii.eqb c "012" = false ->
  kept c = true /\ json_space c = true.
Proof.
  assert (H : (if python_space c && negb (Ascii.eqb c "012")
               then kept c && json_space c else true) = true)
    by (every_char c; reflexivity).
  intros Hs Hf. rewrite Hs, Hf in H. now apply andb_prop in H.
Qed.

Lemma json_space_is_python_space c :
  json_space c = true -> python_space c = true.
Proof. unfold python_space. now intros ->. Qed.

Lemma kept_respell c r :
  kept c = true ->
  respell Outside (String c r) = String c (respell Outside r).
Proof.
  unfold kept. intros H. apply negb_true_iff in H.
  cbn [respell].
  destruct (is_quote python_syntax c); [discriminate|].
  destruct (Ascii.eqb c "T"); [discriminate|].
  destruct (Ascii.eqb c "F"); [discriminate|].
  destruct (Ascii.eqb c "N"); [discriminate|].
  destruct (Ascii.eqb c "012"); [discriminate|].
  destruct (Ascii.eqb c ","); [discriminate|].
  reflexivity.
Qed.

(** What the respelling of a text begins with. *)

Lemma closing_is_kept c :
  Ascii.eqb c "]" || Ascii.eqb c "}" = true ->
  kept c = true /\ python_space c = false /\ json_space c = false
  /\ digit c = None.
Proof.
  assert (H : (if Ascii.eqb c "]" || Ascii.eqb c "}"
               then kept c && negb (python_space c) && negb (json_space c)
                    && match digit c with Some _ => false | None => true end
               else true) = true)
    by (every_char c; reflexivity).
  intros Hc. rewrite Hc in H.
  repeat (apply andb_prop in H as [H ?]).
  repeat match goal with
         | Hn : negb _ = true |- _ => apply negb_true_iff in Hn
         end.
  destruct (digit c); [discriminate|]. tauto.
Qed.

Lemma respell_closing r :
  closes (skip_space python_syntax r) = true ->
  closing_head (respell Outside r) = true.
Proof.
  induction r as [|c r IH]; [discriminate|].
  cbn [skip_space]. change (space python_syntax c) with (python_space c).
  destruct (python_space c) eqn:Hs.
  - intros H. specialize (IH H).
    destruct (Ascii.eqb c "012") eqn:Hf.
    + apply Ascii.eqb_eq in Hf as ->. reflexivity.
    + destruct (space_is_kept c Hs Hf) as [Hk Hj].
      rewrite kept_respell by exact Hk. cbn [closing_head]. now rewrite Hj.
  - unfold closes, starts_with. intros H.
    destruct (closing_is_kept c H) as [Hk _].
    rewrite kept_respell by exact Hk. cbn [closing_head].
    apply orb_prop in H as [-> | ->]; now rewrite ?orb_true_r.
Qed.

Lemma closing_head_no_digit s :
  closing_head s = true -> no_digit s.
Proof.
  destruct s as [|c s]; [discriminate|]. cbn [closing_head no_digit].
  assert (H : (if json_space c || Ascii.eqb c "]" || Ascii.eqb c "}"
               then match digit c with Some _ => false | None => true end
               else true) = true)
    by (every_char c; reflexivity).
  intros Hc. rewrite Hc in H. now destruct (digit c).
Qed.

Lemma closing_head_follows s :
  closing_head s = true -> follows json_syntax s = true.
Proof.
  destruct s as [|c s]; [discriminate|]. cbn [closing_head follows].
  change (space json_syntax c) with (json_space c).
  intros H. apply orb_prop in H as [H | ->]; [|now rewrite orb_true_r].
  apply orb_prop in H as [-> | ->]; [reflexivity|].
  now rewrite !orb_true_r.
Qed.

(** The respelling of a character between tokens begins with a
    character that is no digit unless the character is one. *)
Lemma no_digit_respell s :
  no_digit s -> no_digit (respell Outside s).
Proof.
  destruct s as [|c r]; [trivial|]. cbn [no_digit]. intros Hd.
  cbn [respell].
  destruct (is_quote python_syntax c); [reflexivity|].
  destruct (Ascii.eqb c "T"); [reflexivity|].
  destruct (Ascii.eqb c "F"); [reflexivity|].
  destruct (Ascii.eqb c "N"); [reflexivity|].
  destruct (Ascii.eqb c "012"); [reflexivity|].
  destruct (Ascii.eqb c ",").
  - destruct (closes (skip_space python_syntax r)) eqn:Hc; [|reflexivity].
    now apply closing_head_no_digit, respell_closing.
  - exact Hd.
Qed.

Lemma follows_respell s :
  follows python_syntax s = true ->
  follows json_syntax (respell Outside s) = true.
Proof.
  destruct s as [|c r]; [reflexivity|]. cbn [follows].
  change (space python_syntax c) with (python_space c).
  intros H. cbn [respell].
  assert (Hc : (if python_space c || Ascii.eqb c "," || Ascii.eqb c "]"
                   || Ascii.eqb c "}"
                then negb (is_quote python_syntax c)
                     && negb (Ascii.eqb c "T") && negb (Ascii.eqb c "F")
                     && negb (Ascii.eqb c "N")
                     && (Ascii.eqb c "012" || Ascii.eqb c ","
                         || json_space c || Ascii.eqb c "]" || Ascii.eqb c "}")
                else true) = true)
    by (every_char c; reflexivity).
  rewrite H in Hc.
  repeat (apply andb_prop in Hc as [Hc ?]).
  repeat match goal with
         | Hn : negb _ = true |- _ => apply negb_true_iff in Hn; rewrite Hn
         end.
  destruct (Ascii.eqb c "012"); [reflexivity|].
  destruct (Ascii.eqb c ",") eqn:Hcomma.
  - destruct (closes (skip_space python_syntax r)) eqn:Hcl.
    + now apply closing_head_follows, respell_closing.
    + reflexivity.
  - cbn [follows]. change (space json_syntax c) with (json_space c).
    rewrite Hcomma. cbn [orb] in *. now rewrite orb_false_r.
Qed.

(** White space between tokens. *)
Lemma skip_space_respell s :
  skip_space json_syntax (respell Outside s)
  = skip_space json_syntax (respell Outside (skip_space python_syntax s)).
Proof.
  induction s as [|c r IH]; [reflexivity|].
  cbn [skip_space]. change (space python_syntax c) with (python_space c).
  destruct (python_space c) eqn:Hs; [|reflexivity].
  destruct (Ascii.eqb c "012") eqn:Hf.
  - apply Ascii.eqb_eq in Hf as ->. exact IH.
  - destruct (space_is_kept c Hs Hf) as [Hk Hj].
    rewrite kept_respell by exact Hk. cbn [skip_space].
    change (space json_syntax c) with (json_space c). now rewrite Hj.
Qed.

Lemma skip_space_solid syn s :
  match skip_space syn s with
  | String c _ => space syn c = false
  | EmptyString => True
  end.
Proof.
  induction s as [|c r IH]; [exact I|]. cbn [skip_space].
  destruct (space syn c) eqn:Hs; [exact IH | exact Hs].
Qed.

Lemma skip_space_idem syn s :
  skip_space syn (skip_space syn s) = skip_space syn s.
Proof.
  pose proof (skip_space_solid syn s) as H.
  destruct (skip_space syn s) as [|c r]; [reflexivity|].
  cbn [skip_space]. now rewrite H.
Qed.

(** A value begins with a character whose respelling is no white space
    and closes nothing. *)
Lemma opens_respell c r :
  opens c = true ->
  exists c' X,
    respell Outside (String c r) = String c' X
    /\ json_space c' = false
    /\ Ascii.eqb c' "]" = false /\ Ascii.eqb c' "}" = false
    /\ Ascii.eqb c' "," = false.
Proof.
  intros Ho. cbn [respell].
  assert (Hc : (if opens c
                then negb (python_space c) && negb (Ascii.eqb c "012")
                     && negb (Ascii.eqb c ",")
                     && (is_quote python_syntax c || Ascii.eqb c "T"
                         || Ascii.eqb c "F" || Ascii.eqb c "N"
                         || (negb (json_space c) && negb (Ascii.eqb c "]")
                             && negb (Ascii.eqb c "}")))
                else true) = true)
    by (every_char c; reflexivity).
  rewrite Ho in Hc.
  repeat (apply andb_prop in Hc as [Hc ?]).
  repeat match goal with
         | Hn : negb _ = true |- _ => apply negb_true_iff in Hn
         end.
  destruct (is_quote python_syntax c); [now eexists _, _|].
  destruct (Ascii.eqb c "T"); [now eexists _, _|].
  destruct (Ascii.eqb c "F"); [now eexists _, _|].
  destruct (Ascii.eqb c "N"); [now eexists _, _|].
  rewrite H1, H0. cbn [orb] in H.
  repeat (apply andb_prop in H as [H ?]).
  repeat match goal with
         | Hn : negb _ = true |- _ => apply negb_true_iff in Hn
         end.
  exists c, (respell Outside r). tauto.
Qed.

Lemma value_start_respell s :
  value_start s = true ->
  skip_space json_syntax (respell Outside s) = respell Outside s
  /\ starts_with "]" (respell Outside s) = false
  /\ starts_with "}" (respell Outside s) = false.
Proof.
  destruct s as [|c r]; [discriminate|]. cbn [value_start]. intros Ho.
  destruct (opens_respell c r Ho) as (c' & X & -> & Hs & Hb & Hc & _).
  cbn [skip_space starts_with].
  change (space json_syntax c') with (json_space c').
  now rewrite Hs, Hb, Hc.
Qed.

Lemma value_start_solid s :
  value_start s = true ->
  skip_space python_syntax s = s /\ closes s = false
  /\ starts_with "," s = false.
Proof.
  destruct s as [|c r]; [discriminate|]. cbn [value_start]. intros Ho.
  assert (Hc : (if opens c
                then negb (python_space c) && negb (Ascii.eqb c "]")
                     && negb (Ascii.eqb c "}") && negb (Ascii.eqb c ",")
                else true) = true)
    by (every_char c; reflexivity).
  rewrite Ho in Hc.
  repeat (apply andb_prop in Hc as [Hc ?]).
  repeat match goal with
         | Hn : negb _ = true |- _ => apply negb_true_iff in Hn
         end.
  cbn [skip_space]. change (space python_syntax c) with (python_space c).
  unfold closes, starts_with. now rewrite Hc, H, H0, H1.
Qed.

(** ** Numbers *)

Lemma digits_stop acc s :
  no_digit s -> digits acc s = (acc, 0, s).
Proof.
  destruct s as [|c r]; [reflexivity|]. cbn [no_digit digits]. now intros ->.
Qed.

Lemma digits_rest acc s :
  no_digit (snd (digits acc s)).
Proof.
  revert acc. induction s as [|c r IH]; intros acc; [exact I|].
  cbn [digits]. destruct (digit c) eqn:Hd.
  - specialize (IH (acc * 10 + z)%Z).
    now destruct (digits (acc * 10 + z) r) as [[z' n] r'].
  - exact Hd.
Qed.

Lemma digits_respell s : forall acc z n r,
  digits acc s = (z, n, r) ->
  digits acc (respell Outside s) = (z, n, respell Outside r).
Proof.
  induction s as [|c s IH]; intros acc z n r H.
  - now inversion H.
  - cbn [digits] in H. destruct (digit c) as [d|] eqn:Hd.
    + destruct (digit_is_kept c d Hd) as [Hk _].
      rewrite kept_respell by exact Hk. cbn [digits]. rewrite Hd.
      destruct (digits (acc * 10 + d) s) as [[z' n'] r'] eqn:Hrest.
      inversion H; subst. now rewrite (IH _ _ _ _ Hrest).
    + inversion H; subst. apply digits_stop, no_digit_respell. exact Hd.
Qed.

Lemma digits_some_head acc s z n r :
  digits acc s = (z, S n, r) ->
  exists c s' d, s = String c s' /\ digit c = Some d.
Proof.
  destruct s as [|c s']; [discriminate|]. cbn [digits].
  destruct (digit c) as [d|] eqn:Hd; [|discriminate].
  intros _. now exists c, s', d.
Qed.

Lemma int_part_respell s z n r :
  int_part s = Some (z, n, r) ->
  int_part (respell Outside s) = Some (z, n, respell Outside r).
Proof.
  destruct s as [|c s']; [discriminate|]. cbn [int_part].
  destruct (Ascii.eqb c "0") eqn:H0.
  - intros H. inversion H; subst. apply Ascii.eqb_eq in H0 as ->.
    reflexivity.
  - destruct (digits 0 (String c s')) as [[z' n'] r'] eqn:Hd.
    destruct n' as [|n']; [discriminate|].
    intros H. inversion H; subst.
    destruct (digits_some_head _ _ _ _ _ Hd) as (c0 & s0 & d & Hs & Hc).
    inversion Hs; subst c0 s0.
    apply digits_respell in Hd.
    destruct (digit_is_kept c d Hc) as [Hk _].
    rewrite kept_respell in * by exact Hk.
    cbn [int_part]. now rewrite H0, Hd.
Qed.

Lemma int_part_head s x :
  int_part s = Some x ->
  exists c s' d, s = String c s' /\ digit c = Some d.
Proof.
  destruct s as [|c s']; [discriminate|]. cbn [int_part].
  destruct (Ascii.eqb c "0") eqn:H0.
  - apply Ascii.eqb_eq in H0 as ->. intros _.
    now exists "0"%char, s', 0%Z.
  - destruct (digits 0 (String c s')) as [[z' n'] r'] eqn:Hd.
    destruct n' as [|n']; [discriminate|]. intros _.
    exact (digits_some_head _ _ _ _ _ Hd).
Qed.

Lemma frac_part_respell m s x r :
  frac_part m s = Some (x, r) ->
  frac_part m (respell Outside s) = Some (x, respell Outside r).
Proof.
  destruct s as [|c s']; [discriminate|]. cbn [frac_part].
  destruct (Ascii.eqb c ".") eqn:Hc; [|discriminate].
  apply Ascii.eqb_eq in Hc as ->.
  destruct (digits m s') as [[m' n'] r'] eqn:Hd.
  destruct n' as [|n']; [discriminate|].
  intros H. inversion H; subst.
  rewrite kept_respell by reflexivity. cbn [frac_part Ascii.eqb].
  change (Ascii.eqb "." ".") with true. cbv iota.
  now rewrite (digits_respell _ _ _ _ _ Hd).
Qed.

Lemma exp_part_respell s e r :
  exp_part s = Some (e, r) ->
  exp_part (respell Outside s) = Some (e, respell Outside r).
Proof.
  destruct s as [|c s']; [discriminate|]. cbn [exp_part].
  destruct (Ascii.eqb c "e" || Ascii.eqb c "E") eqn:Hc; [|discriminate].
  assert (Hk : kept c = true).
  { apply orb_prop in Hc as [Hc | Hc]; apply Ascii.eqb_eq in Hc as ->;
      reflexivity. }
  rewrite kept_respell by exact Hk. cbn [exp_part]. rewrite Hc.
  destruct s' as [|c1 s1].
  - discriminate.
  - cbn [exp_sign].
    destruct (Ascii.eqb c1 "+") eqn:Hplus.
    { apply Ascii.eqb_eq in Hplus as ->.
      destruct (digits 0 s1) as [[z' n'] r'] eqn:Hd.
      destruct n' as [|n']; [discriminate|].
      intros H. inversion H; subst.
      rewrite kept_respell by reflexivity. cbn [exp_sign].
      change (Ascii.eqb "+" "+") with true. cbv iota.
      now rewrite (digits_respell _ _ _ _ _ Hd). }
    destruct (Ascii.eqb c1 "-") eqn:Hminus.
    { apply Ascii.eqb_eq in Hminus as ->.
      destruct (digits 0 s1) as [[z' n'] r'] eqn:Hd.
      destruct n' as [|n']; [discriminate|].
      intros H. inversion H; subst.
      rewrite kept_respell by reflexivity. cbn [exp_sign].
      change (Ascii.eqb "-" "+") with false.
      change (Ascii.eqb "-" "-") with true. cbv iota.
      now rewrite (digits_respell _ _ _ _ _ Hd). }
    destruct (digits 0 (String c1 s1)) as [[z' n'] r'] eqn:Hd.
    destruct n' as [|n']; [discriminate|].
    intros H. inversion H; subst.
    destruct (digits_some_head _ _ _ _ _ Hd) as (c0 & s0 & d & Hs & Hdig).
    inversion Hs; subst c0 s0.
    destruct (digit_is_kept c1 d Hdig) as [Hk1 _].
    pose proof (digits_respell _ _ _ _ _ Hd) as Hd'.
    rewrite kept_respell in * by exact Hk1.
    cbn [exp_sign]. now rewrite Hplus, Hminus, Hd'.
Qed.

Lemma no_fraction_follows m s :
  follows json_syntax s = true ->
  frac_part m s = None /\ exp_part s = None.
Proof.
  destruct s as [|c r]; [now split|]. cbn [follows frac_part exp_part].
  change (space json_syntax c) with (json_space c).
  assert (Hc : (if json_space c || Ascii.eqb c "," || Ascii.eqb c "]"
                   || Ascii.eqb c "}"
                then negb (Ascii.eqb c ".")
                     && negb (Ascii.eqb c "e" || Ascii.eqb c "E")
                else true) = true)
    by (every_char c; reflexivity).
  intros H. rewrite H in Hc. apply andb_prop in Hc as [H1 H2].
  apply negb_true_iff in H1, H2. now rewrite H1, H2.
Qed.

Lemma exp_part_head s x :
  exp_part s = Some x ->
  exists c s', s = String c s' /\ kept c = true /\ Ascii.eqb c "." = false.
Proof.
  destruct s as [|c s']; [discriminate|]. cbn [exp_part].
  destruct (Ascii.eqb c "e" || Ascii.eqb c "E") eqn:Hc; [|discriminate].
  intros _. exists c, s'. split; [reflexivity|].
  apply orb_prop in Hc as [Hc | Hc]; apply Ascii.eqb_eq in Hc as ->;
    now split.
Qed.

Lemma number_respell s v r :
  number s = Some (v, r) ->
  follows python_syntax r = true ->
  number (respell Outside s) = Some (v, respell Outside r).
Proof.
  unfold number. intros H Hfollow.
  assert (Hsign : number_sign (respell Outside s)
                  = (fst (number_sign s), respell Outside (snd (number_sign s)))
                  \/ int_part (snd (number_sign s)) = None).
  { destruct s as [|c s']; [now left|]. cbn [number_sign].
    destruct (Ascii.eqb c "-") eqn:Hminus.
    - apply Ascii.eqb_eq in Hminus as ->. left.
      now rewrite kept_respell by reflexivity.
    - cbn [fst snd].
      destruct (int_part (String c s')) as [x|] eqn:Hint; [|now right].
      left. destruct (int_part_head _ _ Hint) as (c0 & s0 & d & Hs & Hd).
      inversion Hs; subst c0 s0.
      destruct (digit_is_kept c d Hd) as [Hk _].
      rewrite kept_respell by exact Hk. cbn [number_sign].
      now rewrite Hminus. }
  destruct (number_sign s) as [sign s1]. cbn [fst snd] in Hsign.
  destruct (int_part s1) as [[[i k] s2]|] eqn:Hint; [|discriminate].
  destruct Hsign as [Hsign | Hsign]; [|discriminate].
  rewrite Hsign, (int_part_respell _ _ _ _ Hint).
  destruct (frac_part i s2) as [[[m n] s3]|] eqn:Hfrac.
  - rewrite (frac_part_respell _ _ _ _ Hfrac).
    destruct (exp_part s3) as [[e s4]|] eqn:Hexp.
    + rewrite (exp_part_respell _ _ _ Hexp). now inversion H.
    + inversion H; subst.
      now rewrite (proj2 (no_fraction_follows 0 _ (follows_respell _ Hfollow))).
  - destruct (exp_part s2) as [[e s4]|] eqn:Hexp.
    + destruct (exp_part_head _ _ Hexp) as (c & s' & -> & Hk & Hdot).
      pose proof (exp_part_respell _ _ _ Hexp) as Hexp'.
      rewrite kept_respell in * by exact Hk.
      cbn [frac_part]. rewrite Hdot, Hexp'. now inversion H.
    + destruct (k <=? int_max_str_digits)%nat; [|discriminate].
      inversion H; subst.
      destruct (no_fraction_follows i _ (follows_respell _ Hfollow))
        as [-> ->].
      reflexivity.
Qed.

Lemma number_head s x :
  number s = Some x ->
  exists c s', s = String c s' /\ numeric c = true.
Proof.
  unfold number. destruct s as [|c s'].
  - discriminate.
  - cbn [number_sign]. intros H. exists c, s'. split; [reflexivity|].
    unfold numeric.
    destruct (Ascii.eqb c "-") eqn:Hminus.
    + now destruct (digit c).
    + destruct (int_part (String c s')) as [x'|] eqn:Hint; [|discriminate].
      destruct (int_part_head _ _ Hint) as (c0 & s0 & d & Hs & Hd).
      inversion Hs; subst. now rewrite Hd.
Qed.

(** ** Constants *)

Lemma prefix_split p : forall s,
  String.prefix p s = true ->
  exists r, s = (p ++ r)%string /\ Text.drop (String.length p) s = r.
Proof.
  induction p as [|a p IH]; intros s H.
  - exists s. now destruct s.
  - destruct s as [|b s]; [discriminate|]. cbn [String.prefix] in H.
    destruct (ascii_dec a b) as [->|]; [|discriminate].
    destruct (IH s H) as (r & -> & Hr). exists r. now split.
Qed.

Lemma keyword_respell s v r :
  keyword python_syntax s = Some (v, r) ->
  keyword json_syntax (respell Outside s) = Some (v, respell Outside r).
Proof.
  unfold keyword.
  cbn [lit_none lit_true lit_false python_syntax json_syntax].
  destruct (String.prefix "None" s) eqn:HN.
  { destruct (prefix_split _ _ HN) as (r' & -> & Hr).
    clear Hr. intros H. inversion H; subst. cbn.
    match goal with
    | |- context [respell Outside ?x] => now destruct (respell Outside x)
    end. }
  destruct (String.prefix "True" s) eqn:HT.
  { destruct (prefix_split _ _ HT) as (r' & -> & Hr).
    clear Hr. intros H. inversion H; subst. cbn.
    match goal with
    | |- context [respell Outside ?x] => now destruct (respell Outside x)
    end. }
  destruct (String.prefix "False" s) eqn:HF; [|discriminate].
  destruct (prefix_split _ _ HF) as (r' & -> & Hr).
  clear Hr. intros H. inversion H; subst. cbn.
  match goal with
    | |- context [respell Outside ?x] => now destruct (respell Outside x)
    end.
Qed.

Lemma keyword_head s x :
  keyword python_syntax s = Some x ->
  exists c s', s = String c s'
    /\ (Ascii.eqb c "T" || Ascii.eqb c "F" || Ascii.eqb c "N") = true.
Proof.
  unfold keyword.
  cbn [lit_none lit_true lit_false python_syntax].
  destruct (String.prefix "None" s) eqn:HN.
  { destruct (prefix_split _ _ HN) as (r' & -> & _). intros _.
    now eexists _, _. }
  destruct (String.prefix "True" s) eqn:HT.
  { destruct (prefix_split _ _ HT) as (r' & -> & _). intros _.
    now eexists _, _. }
  destruct (String.prefix "False" s) eqn:HF; [|discriminate].
  destruct (prefix_split _ _ HF) as (r' & -> & _). intros _.
  now eexists _, _.
Qed.

Lemma no_keyword_numeric c s :
  numeric c = true -> keyword json_syntax (String c s) = None.
Proof.
  intros H. unfold keyword.
  cbn [lit_none lit_true lit_false json_syntax String.prefix].
  destruct (ascii_dec "n" c) as [<-|]; [discriminate|].
  destruct (ascii_dec "t" c) as [<-|]; [discriminate|].
  destruct (ascii_dec "f" c) as [<-|]; [discriminate|].
  reflexivity.
Qed.

(** ** Text *)

Lemma quote_cases q :
  is_quote python_syntax q = true -> q = "'"%char \/ q = "034"%char.
Proof.
  unfold is_quote. cbn [quotes python_syntax existsb].
  destruct (Ascii.eqb_spec q "'") as [->|]; [now left|].
  destruct (Ascii.eqb_spec q "034") as [->|]; [now right|].
  discriminate.
Qed.

Lemma hex_digit_plain c d :
  hex_digit c = Some d ->
  Ascii.eqb c "'" = false /\ Ascii.eqb c "034" = false
  /\ Ascii.eqb c "092" = false /\ (nat_of_ascii c <? 32)%nat = false.
Proof.
  assert (H : (match hex_digit c with
               | Some _ =>
                   negb (Ascii.eqb c "'") && negb (Ascii.eqb c "034")
                   && negb (Ascii.eqb c "092")
                   && negb (nat_of_ascii c <? 32)%nat
               | None => true
               end) = true)
    by (every_char c; reflexivity).
  intros Hd. rewrite Hd in H.
  repeat (apply andb_prop in H as [H ?]).
  repeat match goal with
         | Hn : negb _ = true |- _ => apply negb_true_iff in Hn
         end.
  tauto.
Qed.

Lemma hex_digit_respell q c d r :
  is_quote python_syntax q = true ->
  hex_digit c = Some d ->
  respell (Inside q) (String c r) = String c (respell (Inside q) r).
Proof.
  intros Hq Hd. destruct (hex_digit_plain c d Hd) as (H1 & H2 & H3 & H4).
  cbn [respell].
  destruct (quote_cases q Hq) as [-> | ->]; now rewrite ?H1, ?H2, ?H3, ?H4.
Qed.

Lemma unicode_escape_respell q s x r :
  is_quote python_syntax q = true ->
  unicode_escape s = Some (x, r) ->
  unicode_escape (respell (Inside q) s) = Some (x, respell (Inside q) r)
  /\ String.length (respell (Inside q) s)
     = 4 + String.length (respell (Inside q) r).
Proof.
  intros Hq. destruct s as [|a [|b [|c [|d s]]]]; try discriminate.
  cbn [unicode_escape].
  destruct (hex_digit a) as [za|] eqn:Ha; [|discriminate].
  destruct (hex_digit b) as [zb|] eqn:Hb;
    [|destruct za as [|?|?]; discriminate].
  destruct (hex_digit c) as [zc|] eqn:Hc;
    [|destruct za as [|?|?]; try discriminate;
      destruct zb as [|?|?]; discriminate].
  destruct (hex_digit d) as [zd|] eqn:Hd;
    [|destruct za as [|?|?]; try discriminate;
      destruct zb as [|?|?]; discriminate].
  intros H.
  rewrite (hex_digit_respell q a za) by assumption.
  rewrite (hex_digit_respell q b zb) by assumption.
  rewrite (hex_digit_respell q c zc) by assumption.
  rewrite (hex_digit_respell q d zd) by assumption.
  cbn [unicode_escape String.length]. rewrite Ha, Hb, Hc, Hd.
  destruct za as [|?|?]; try discriminate.
  destruct zb as [|?|?]; try discriminate.
  inversion H; subst. now split.
Qed.

Lemma byte_escape_respell q s x r :
  is_quote python_syntax q = true ->
  byte_escape s = Some (x, r) ->
  unicode_escape (String "0" (String "0" (respell (Inside q) s)))
  = Some (x, respell (Inside q) r)
  /\ String.length (respell (Inside q) s)
     = 2 + String.length (respell (Inside q) r).
Proof.
  intros Hq. destruct s as [|a [|b s]]; try discriminate.
  cbn [byte_escape].
  destruct (hex_digit a) as [za|] eqn:Ha; [|discriminate].
  destruct (hex_digit b) as [zb|] eqn:Hb; [|discriminate].
  intros H. inversion H; subst.
  rewrite (hex_digit_respell q a za) by assumption.
  rewrite (hex_digit_respell q b zb) by assumption.
  cbn [unicode_escape String.length]. rewrite Ha, Hb.
  now split.
Qed.

(** The escape written for a control character reads as it. *)
Lemma unicode_of_read c tail :
  (nat_of_ascii c <? 32)%nat = true ->
  unicode_of c tail
  = String "092" (String "u"
      (String "0" (String "0"
         (String (hex_char (nat_of_ascii c / 16))
            (String (hex_char (nat_of_ascii c mod 16)) tail)))))
  /\ unicode_escape
       (String "0" (String "0"
          (String (hex_char (nat_of_ascii c / 16))
             (String (hex_char (nat_of_ascii c mod 16)) tail))))
     = Some (c, tail).
Proof.
  intros H. split; [reflexivity|].
  revert H. every_char c; intros H;
    try (vm_compute in H; discriminate H); reflexivity.
Qed.

Lemma raw_json_char c :
  (nat_of_ascii c <? 32)%nat = false ->
  raw json_syntax c = true.
Proof.
  cbn [raw json_syntax]. intros H.
  apply Nat.ltb_ge in H. now apply Nat.leb_le.
Qed.

Lemma text_body_respell f : forall q s t r,
  is_quote python_syntax q = true ->
  text_body python_syntax f q s = Some (t, r) ->
  forall f',
    String.length (respell (Inside q) s) < f' ->
    text_body json_syntax f' "034" (respell (Inside q) s)
    = Some (t, respell Outside r).
Proof.
  induction f as [|f IH]; intros q s t r Hq H f' Hlen; [discriminate|].
  destruct f' as [|f']; [lia|].
  destruct s as [|c s]; [discriminate|].
  cbn [text_body] in H.
  destruct (Ascii.eqb c q) eqn:Hcq.
  { inversion H; subst. cbn [respell]. rewrite Hcq. reflexivity. }
  destruct (Ascii.eqb c "092") eqn:Hback.
  { destruct s as [|e s1]; [discriminate|].
    cbn [respell] in *. rewrite Hcq, Hback in *.
    destruct (Ascii.eqb e "u") eqn:Hu.
    { apply Ascii.eqb_eq in Hu as ->.
      destruct (unicode_escape s1) as [[x r2]|] eqn:Hesc; [|discriminate].
      destruct (text_body python_syntax f q r2) as [[t' r3]|] eqn:Hrest;
        [|discriminate].
      inversion H; subst.
      destruct (unicode_escape_respell q _ _ _ Hq Hesc) as [Hesc' Hl].
      cbn [Ascii.eqb Bool.eqb andb] in Hlen |- *.
      cbn [String.length] in Hlen.
      cbn [text_body]. change (Ascii.eqb "092" "034") with false.
      change (Ascii.eqb "092" "092") with true.
      change (Ascii.eqb "u" "u") with true. cbv iota.
      rewrite Hesc'.
      now rewrite (IH q r2 t' r Hq Hrest f') by lia. }
    cbn [hex_escape python_syntax andb] in H.
    destruct (Ascii.eqb e "x") eqn:Hx.
    { apply Ascii.eqb_eq in Hx as ->.
      destruct (byte_escape s1) as [[x r2]|] eqn:Hesc; [|discriminate].
      destruct (text_body python_syntax f q r2) as [[t' r3]|] eqn:Hrest;
        [|discriminate].
      inversion H; subst.
      destruct (byte_escape_respell q _ _ _ Hq Hesc) as [Hesc' Hl].
      cbn [Ascii.eqb Bool.eqb andb] in Hlen |- *.
      cbn [String.length] in Hlen.
      cbn [text_body]. change (Ascii.eqb "092" "034") with false.
      change (Ascii.eqb "092" "092") with true.
      change (Ascii.eqb "u" "u") with true. cbv iota.
      rewrite Hesc'.
      now rewrite (IH q r2 t' r Hq Hrest f') by lia. }
    destruct (escape_of e (escapes python_syntax)) as [x|] eqn:Hesc;
      [|discriminate].
    destruct (text_body python_syntax f q s1) as [[t' r2]|] eqn:Hrest;
      [|discriminate].
    inversion H; subst. clear H.
    cbn [escapes python_syntax escape_of] in Hesc.
    repeat match type of Hesc with
           | (if Ascii.eqb e ?k then _ else _) = _ =>
               destruct (Ascii.eqb_spec e k) as [->|?]
           end;
      try discriminate; inversion Hesc; subst x; clear Hesc;
      cbn [respell Ascii.eqb Bool.eqb] in Hlen |- *;
      unfold unicode_of in Hlen |- *;
      cbn [String.length] in Hlen;
      cbn [text_body Ascii.eqb Bool.eqb andb hex_escape json_syntax
             escapes escape_of raw];
      rewrite ?(proj2 (unicode_of_read "007" _ eq_refl)),
        ?(proj2 (unicode_of_read "011" _ eq_refl));
      rewrite (IH q s1 t' r Hq Hrest f') by lia; reflexivity. }
  destruct (raw python_syntax c) eqn:Hraw; [|discriminate].
  destruct (text_body python_syntax f q s) as [[t' r1]|] eqn:Hrest;
    [|discriminate].
  inversion H; subst. clear H.
  cbn [respell] in *. rewrite Hcq, Hback in *.
  destruct (Ascii.eqb c "034") eqn:Hdq.
  { apply Ascii.eqb_eq in Hdq as ->. cbn [String.length] in Hlen.
    cbn [text_body Ascii.eqb Bool.eqb andb hex_escape json_syntax
           escapes escape_of].
    now rewrite (IH q s t' r Hq Hrest f') by lia. }
  destruct (nat_of_ascii c <? 32)%nat eqn:Hctl.
  { destruct (unicode_of_read c (respell (Inside q) s) Hctl) as [Heq Hread].
    rewrite Heq in *. cbn [String.length] in Hlen.
    cbn [text_body]. change (Ascii.eqb "092" "034") with false.
    change (Ascii.eqb "092" "092") with true.
    change (Ascii.eqb "u" "u") with true. cbv iota.
    rewrite Hread.
    now rewrite (IH q s t' r Hq Hrest f') by lia. }
  cbn [String.length] in Hlen.
  cbn [text_body]. rewrite Hdq, Hback, (raw_json_char c Hctl).
  now rewrite (IH q s t' r Hq Hrest f') by lia.
Qed.

Lemma scan_text_respell q s t r :
  is_quote python_syntax q = true ->
  scan_text python_syntax q s = Some (t, r) ->
  scan_text json_syntax "034" (respell (Inside q) s)
  = Some (t, respell Outside r).
Proof.
  unfold scan_text. intros Hq H.
  apply (text_body_respell _ _ _ _ _ Hq H). lia.
Qed.

(** ** Every scanner consumes what it reads *)

Lemma skip_space_length syn s :
  String.length (skip_space syn s) <= String.length s.
Proof.
  induction s as [|c r IH]; [reflexivity|]. cbn [skip_space].
  destruct (space syn c); cbn [String.length]; lia.
Qed.

Lemma drop_length n s :
  String.length (Text.drop n s) <= String.length s.
Proof.
  revert s. induction n as [|n IH]; intros s; [reflexivity|].
  destruct s as [|c r]; [reflexivity|]. cbn [Text.drop String.length].
  specialize (IH r). lia.
Qed.

Lemma unicode_escape_length s x r :
  unicode_escape s = Some (x, r) ->
  String.length s = 4 + String.length r.
Proof.
  destruct s as [|a [|b [|c [|d s]]]]; try discriminate.
  cbn [unicode_escape].
  destruct (hex_digit a) as [[|?|?]|]; try discriminate;
    destruct (hex_digit b) as [[|?|?]|]; try discriminate;
    destruct (hex_digit c) as [?|]; try discriminate;
    destruct (hex_digit d) as [?|]; try discriminate.
  intros H. now inversion H.
Qed.

Lemma byte_escape_length s x r :
  byte_escape s = Some (x, r) ->
  String.length s = 2 + String.length r.
Proof.
  destruct s as [|a [|b s]]; try discriminate. cbn [byte_escape].
  destruct (hex_digit a), (hex_digit b); try discriminate.
  intros H. now inversion H.
Qed.

Lemma text_body_progress syn f : forall q s t r,
  text_body syn f q s = Some (t, r) ->
  String.length r < String.length s.
Proof.
  induction f as [|f IH]; intros q s t r H; [discriminate|].
  destruct s as [|c s]; [discriminate|]. cbn [text_body] in H.
  cbn [String.length].
  destruct (Ascii.eqb c q).
  { inversion H; subst. lia. }
  destruct (Ascii.eqb c "092").
  { destruct s as [|e s1]; [discriminate|]. cbn [String.length].
    destruct (Ascii.eqb e "u").
    { destruct (unicode_escape s1) as [[x r2]|] eqn:Hesc; [|discriminate].
      destruct (text_body syn f q r2) as [[t' r3]|] eqn:Hrest;
        [|discriminate].
      inversion H; subst. apply IH in Hrest.
      apply unicode_escape_length in Hesc. lia. }
    destruct (hex_escape syn && Ascii.eqb e "x").
    { destruct (byte_escape s1) as [[x r2]|] eqn:Hesc; [|discriminate].
      destruct (text_body syn f q r2) as [[t' r3]|] eqn:Hrest;
        [|discriminate].
      inversion H; subst. apply IH in Hrest.
      apply byte_escape_length in Hesc. lia. }
    destruct (escape_of e (escapes syn)); [|discriminate].
    destruct (text_body syn f q s1) as [[t' r2]|] eqn:Hrest;
      [|discriminate].
    inversion H; subst. apply IH in Hrest. lia. }
  destruct (raw syn c); [|discriminate].
  destruct (text_body syn f q s) as [[t' r1]|] eqn:Hrest; [|discriminate].
  inversion H; subst. apply IH in Hrest. lia.
Qed.

Lemma digits_length s : forall acc z n r,
  digits acc s = (z, n, r) ->
  String.length s = n + String.length r.
Proof.
  induction s as [|c s IH]; intros acc z n r H.
  - now inversion H.
  - cbn [digits] in H. destruct (digit c) as [d|].
    + destruct (digits (acc * 10 + d) s) as [[z' n'] r'] eqn:Hrest.
      inversion H; subst. apply IH in Hrest. cbn [String.length]. lia.
    + now inversion H.
Qed.

Lemma number_progress s v r :
  number s = Some (v, r) -> String.length r < String.length s.
Proof.
  unfold number.
  assert (Hsign : String.length (snd (number_sign s)) <= String.length s).
  { destruct s as [|c s']; [reflexivity|]. cbn [number_sign].
    destruct (Ascii.eqb c "-"); cbn [snd String.length]; lia. }
  destruct (number_sign s) as [sign s1]. cbn [snd] in Hsign.
  assert (Hint : forall i k s2, int_part s1 = Some (i, k, s2) ->
                   String.length s2 < String.length s1).
  { intros i k s2. destruct s1 as [|c s']; [discriminate|].
    cbn [int_part]. destruct (Ascii.eqb c "0").
    - intros H. inversion H; subst. cbn [String.length]. lia.
    - destruct (digits 0 (String c s')) as [[z' n'] r'] eqn:Hd.
      destruct n' as [|n']; [discriminate|].
      intros H. inversion H; subst. apply digits_length in Hd. lia. }
  assert (Hfrac : forall m s2 x s3, frac_part m s2 = Some (x, s3) ->
                    String.length s3 < String.length s2).
  { intros m s2 x s3. destruct s2 as [|c s']; [discriminate|].
    cbn [frac_part]. destruct (Ascii.eqb c "."); [|discriminate].
    destruct (digits m s') as [[m' n'] r'] eqn:Hd.
    destruct n' as [|n']; [discriminate|].
    intros H. inversion H; subst. apply digits_length in Hd.
    cbn [String.length]. lia. }
  assert (Hexp : forall s2 e s3, exp_part s2 = Some (e, s3) ->
                   String.length s3 < String.length s2).
  { intros s2 e s3. destruct s2 as [|c s']; [discriminate|].
    cbn [exp_part]. destruct (Ascii.eqb c "e" || Ascii.eqb c "E");
      [|discriminate].
    assert (Hs : String.length (snd (exp_sign s')) <= String.length s').
    { destruct s' as [|c1 s1']; [reflexivity|]. cbn [exp_sign].
      destruct (Ascii.eqb c1 "+"); [cbn [snd String.length]; lia|].
      destruct (Ascii.eqb c1 "-"); cbn [snd String.length]; lia. }
    destruct (exp_sign s') as [sg r1]. cbn [snd] in Hs.
    destruct (digits 0 r1) as [[z' n'] r'] eqn:Hd.
    destruct n' as [|n']; [discriminate|].
    intros H. inversion H; subst. apply digits_length in Hd.
    cbn [String.length]. lia. }
  destruct (int_part s1) as [[[i k] s2]|] eqn:Hi; [|discriminate].
  specialize (Hint _ _ _ eq_refl).
  destruct (frac_part i s2) as [[[m n] s3]|] eqn:Hf.
  - apply Hfrac in Hf.
    destruct (exp_part s3) as [[e s4]|] eqn:He.
    + apply Hexp in He. intros H. inversion H; subst. lia.
    + intros H. inversion H; subst. lia.
  - destruct (exp_part s2) as [[e s4]|] eqn:He.
    + apply Hexp in He. intros H. inversion H; subst. lia.
    + destruct (k <=? int_max_str_digits)%nat; [|discriminate].
      intros H. inversion H; subst. lia.
Qed.

Lemma append_length s t :
  String.length (s ++ t) = String.length s + String.length t.
Proof.
  induction s as [|c s IH]; [reflexivity|]. cbn [append String.length].
  now rewrite IH.
Qed.

Lemma keyword_progress_json s v r :
  keyword json_syntax s = Some (v, r) -> String.length r < String.length s.
Proof.
  unfold keyword. cbn [lit_none lit_true lit_false json_syntax].
  destruct (String.prefix "null" s) eqn:HN.
  { destruct (prefix_split _ _ HN) as (r' & -> & Hr).
    intros H. inversion H; subst. rewrite append_length.
    cbn [String.length]. lia. }
  destruct (String.prefix "true" s) eqn:HT.
  { destruct (prefix_split _ _ HT) as (r' & -> & Hr).
    intros H. inversion H; subst. rewrite append_length.
    cbn [String.length]. lia. }
  destruct (String.prefix "false" s) eqn:HF; [|discriminate].
  destruct (prefix_split _ _ HF) as (r' & -> & Hr).
  intros H. inversion H; subst. rewrite append_length.
  cbn [String.length]. lia.
Qed.

Section Progress.

Variable syn : Syntax.
Variable member : string -> option (value * string).
Hypothesis member_progress : forall s v r,
  member s = Some (v, r) -> String.length r < String.length s.

Lemma scan_items_progress fuel : forall s vs r,
  scan_items syn member fuel s = Some (vs, r) ->
  String.length r < String.length s.
Proof.
  induction fuel as [|fuel IH]; intros s vs r H; [discriminate|].
  cbn [scan_items] in H.
  destruct (member s) as [[v r0]|] eqn:Hm; [|discriminate].
  apply member_progress in Hm.
  pose proof (skip_space_length syn r0) as Hs.
  destruct (skip_space syn r0) as [|c r1]; [discriminate|].
  cbn [String.length] in Hs.
  destruct (Ascii.eqb c "]").
  { inversion H; subst. lia. }
  destruct (Ascii.eqb c ","); [|discriminate].
  pose proof (skip_space_length syn r1) as Hs1.
  destruct (starts_with "]" (skip_space syn r1)).
  - destruct (trailing_comma syn); [|discriminate].
    pose proof (drop_length 1 (skip_space syn r1)) as Hdrop.
    remember (Text.drop 1 (skip_space syn r1)) as dropped.
    inversion H; subst. lia.
  - destruct (scan_items syn member fuel (skip_space syn r1))
      as [[vs' r3]|] eqn:Hrest; [|discriminate].
    inversion H; subst. apply IH in Hrest. lia.
Qed.

Lemma scan_pairs_progress fuel : forall acc s kvs r,
  scan_pairs syn member fuel acc s = Some (kvs, r) ->
  String.length r < String.length s.
Proof.
  induction fuel as [|fuel IH]; intros acc s kvs r H; [discriminate|].
  cbn [scan_pairs] in H.
  destruct s as [|q r0]; [discriminate|]. cbn [String.length].
  destruct (is_quote syn q); [|discriminate].
  destruct (scan_text syn q r0) as [[k r1]|] eqn:Htext; [|discriminate].
  apply text_body_progress in Htext.
  pose proof (skip_space_length syn r1) as Hs1.
  destruct (starts_with ":" (skip_space syn r1)); [|discriminate].
  pose proof (drop_length 1 (skip_space syn r1)) as Hd.
  pose proof (skip_space_length syn (Text.drop 1 (skip_space syn r1))) as Hs2.
  destruct (member (skip_space syn (Text.drop 1 (skip_space syn r1))))
    as [[v r3]|] eqn:Hm; [|discriminate].
  apply member_progress in Hm.
  pose proof (skip_space_length syn r3) as Hs3.
  destruct (skip_space syn r3) as [|c r4]; [discriminate|].
  cbn [String.length] in Hs3.
  destruct (Ascii.eqb c "}").
  { inversion H; subst. lia. }
  destruct (Ascii.eqb c ","); [|discriminate].
  pose proof (skip_space_length syn r4) as Hs4.
  destruct (starts_with "}" (skip_space syn r4)).
  - destruct (trailing_comma syn); [|discriminate].
    pose proof (drop_length 1 (skip_space syn r4)) as Hdrop.
    remember (Text.drop 1 (skip_space syn r4)) as dropped.
    inversion H; subst. lia.
  - apply IH in H. lia.
Qed.

End Progress.

Lemma scan_progress_json depth : forall s v r,
  scan json_syntax depth s = Some (v, r) ->
  String.length r < String.length s.
Proof.
  induction depth as [|depth IH]; intros s v r H; [discriminate|].
  cbn [scan] in H. destruct s as [|c s0]; [discriminate|].
  destruct (is_quote json_syntax c).
  { destruct (scan_text json_syntax c s0) as [[t r1]|] eqn:Htext;
      [|discriminate].
    inversion H; subst. apply text_body_progress in Htext.
    cbn [String.length]. lia. }
  destruct (Ascii.eqb c "[").
  { pose proof (skip_space_length json_syntax s0) as Hs.
    destruct (starts_with "]" (skip_space json_syntax s0)).
    - pose proof (drop_length 1 (skip_space json_syntax s0)) as Hdrop.
      remember (Text.drop 1 (skip_space json_syntax s0)) as dropped.
      inversion H; subst.
      cbn [String.length]. lia.
    - destruct (scan_items json_syntax (scan json_syntax depth)
                  (String.length (skip_space json_syntax s0))
                  (skip_space json_syntax s0)) as [[vs r2]|] eqn:Hitems;
        [|discriminate].
      inversion H; subst.
      apply (scan_items_progress _ _ IH) in Hitems.
      cbn [String.length]. lia. }
  destruct (Ascii.eqb c "{").
  { pose proof (skip_space_length json_syntax s0) as Hs.
    destruct (starts_with "}" (skip_space json_syntax s0)).
    - pose proof (drop_length 1 (skip_space json_syntax s0)) as Hdrop.
      remember (Text.drop 1 (skip_space json_syntax s0)) as dropped.
      inversion H; subst.
      cbn [String.length]. lia.
    - destruct (scan_pairs json_syntax (scan json_syntax depth)
                  (String.length (skip_space json_syntax s0)) []
                  (skip_space json_syntax s0)) as [[kvs r2]|] eqn:Hpairs;
        [|discriminate].
      inversion H; subst.
      apply (scan_pairs_progress _ _ IH) in Hpairs.
      cbn [String.length]. lia. }
  destruct (keyword json_syntax (String c s0)) as [[v' r']|] eqn:Hk.
  - inversion H; subst. now apply keyword_progress_json in Hk.
  - now apply number_progress in H.
Qed.

(** ** Lists and dicts *)

Lemma skipped_follows r c r1 :
  skip_space python_syntax r = String c r1 ->
  Ascii.eqb c "," || Ascii.eqb c "]" || Ascii.eqb c "}" = true ->
  follows python_syntax r = true.
Proof.
  destruct r as [|a r']; [discriminate|]. cbn [skip_space follows].
  destruct (space python_syntax a) eqn:Hs; [reflexivity|].
  intros H. inversion H; subst. cbn [orb]. now rewrite <- !orb_assoc.
Qed.

Lemma skip_to_kept r c r1 :
  skip_space python_syntax r = String c r1 ->
  kept c = true ->
  json_space c = false ->
  skip_space json_syntax (respell Outside r) = String c (respell Outside r1)
  /\ String.length (respell Outside r1) < String.length (respell Outside r).
Proof.
  intros Hskip Hk Hs.
  pose proof (skip_space_length json_syntax (respell Outside r)) as Hl.
  rewrite skip_space_respell, Hskip, kept_respell in * by exact Hk.
  cbn [skip_space] in *. change (space json_syntax c) with (json_space c) in *.
  rewrite Hs in *. cbn [String.length] in Hl. split; [reflexivity | lia].
Qed.

Lemma skip_to_value r :
  value_start (skip_space python_syntax r) = true ->
  skip_space json_syntax (respell Outside r)
  = respell Outside (skip_space python_syntax r)
  /\ String.length (respell Outside (skip_space python_syntax r))
     <= String.length (respell Outside r).
Proof.
  intros Hv.
  pose proof (skip_space_length json_syntax (respell Outside r)) as Hl.
  rewrite skip_space_respell in *.
  rewrite (proj1 (value_start_respell _ Hv)) in *. now split.
Qed.

Lemma respell_comma r :
  respell Outside (String "," r)
  = if closes (skip_space python_syntax r) then respell Outside r
    else String "," (respell Outside r).
Proof. reflexivity. Qed.

Lemma starts_with_split c s :
  starts_with c s = true -> exists r, s = String c r.
Proof.
  destruct s as [|a r]; [discriminate|]. cbn [starts_with].
  intros H. apply Ascii.eqb_eq in H as ->. now exists r.
Qed.

Lemma quote_respell q r :
  is_quote python_syntax q = true ->
  respell Outside (String q r) = String "034" (respell (Inside q) r).
Proof. intros H. cbn [respell]. now rewrite H. Qed.

Section Members.

Variables mpy mjs : string -> option (value * string).

Hypothesis member_respell : forall s v r,
  mpy s = Some (v, r) ->
  follows python_syntax r = true ->
  mjs (respell Outside s) = Some (v, respell Outside r).

Hypothesis member_start : forall s x,
  mpy s = Some x -> value_start s = true.

Hypothesis member_progress : forall s v r,
  mjs s = Some (v, r) -> String.length r < String.length s.

Lemma scan_items_respell fuel : forall s vs r,
  scan_items python_syntax mpy fuel s = Some (vs, r) ->
  forall fuel',
    String.length (respell Outside s) <= fuel' ->
    scan_items json_syntax mjs fuel' (respell Outside s)
    = Some (vs, respell Outside r).
Proof.
  induction fuel as [|fuel IH]; intros s vs r H fuel' Hlen; [discriminate|].
  cbn [scan_items] in H.
  destruct (mpy s) as [[v r0]|] eqn:Hm; [|discriminate].
  destruct (skip_space python_syntax r0) as [|c r1] eqn:Hskip;
    [discriminate|].
  assert (Hfollow : follows python_syntax r0 = true).
  { apply (skipped_follows _ _ _ Hskip).
    destruct (Ascii.eqb c "]"); [now rewrite orb_true_r|].
    destruct (Ascii.eqb c ","); [reflexivity | discriminate]. }
  pose proof (member_respell _ _ _ Hm Hfollow) as Hj.
  pose proof (member_progress _ _ _ Hj) as Hp.
  destruct fuel' as [|fuel']; [lia|].
  cbn [scan_items]. rewrite Hj.
  destruct (Ascii.eqb c "]") eqn:Hc1.
  { apply Ascii.eqb_eq in Hc1 as ->. inversion H; subst.
    destruct (skip_to_kept _ _ _ Hskip eq_refl eq_refl) as [-> _].
    reflexivity. }
  destruct (Ascii.eqb c ",") eqn:Hc2; [|discriminate].
  apply Ascii.eqb_eq in Hc2 as ->.
  pose proof (skip_space_length json_syntax (respell Outside r0)) as Hl0.
  rewrite skip_space_respell, Hskip, respell_comma in *.
  destruct (starts_with "]" (skip_space python_syntax r1)) eqn:Ht.
  - cbn [trailing_comma python_syntax] in H. inversion H; subst.
    unfold closes. rewrite Ht. cbn [orb].
    destruct (starts_with_split _ _ Ht) as (r2 & Hr2).
    destruct (skip_to_kept _ _ _ Hr2 eq_refl eq_refl) as [-> _].
    rewrite Hr2. reflexivity.
  - destruct (scan_items python_syntax mpy fuel (skip_space python_syntax r1))
      as [[vs' r3]|] eqn:Hrest; [|discriminate].
    inversion H; subst.
    assert (Hv : value_start (skip_space python_syntax r1) = true).
    { destruct fuel as [|fuel0]; [discriminate|]. cbn [scan_items] in Hrest.
      destruct (mpy (skip_space python_syntax r1)) as [x|] eqn:Hm1;
        [|discriminate].
      exact (member_start _ _ Hm1). }
    rewrite (proj1 (proj2 (value_start_solid _ Hv))) in *.
    cbn [skip_space space json_syntax json_space Ascii.eqb Bool.eqb
           andb orb] in Hl0 |- *.
    cbv iota. cbn [String.length] in Hl0.
    destruct (skip_to_value r1 Hv) as [-> Hl1].
    rewrite (proj1 (proj2 (value_start_respell _ Hv))).
    now rewrite (IH _ _ _ Hrest fuel') by lia.
Qed.

Lemma scan_pairs_respell fuel : forall acc s kvs r,
  scan_pairs python_syntax mpy fuel acc s = Some (kvs, r) ->
  forall fuel',
    String.length (respell Outside s) <= fuel' ->
    scan_pairs json_syntax mjs fuel' acc (respell Outside s)
    = Some (kvs, respell Outside r).
Proof.
  induction fuel as [|fuel IH]; intros acc s kvs r H fuel' Hlen;
    [discriminate|].
  cbn [scan_pairs] in H.
  destruct s as [|q r0]; [discriminate|].
  destruct (is_quote python_syntax q) eqn:Hq; [|discriminate].
  destruct (scan_text python_syntax q r0) as [[k r1]|] eqn:Htext;
    [|discriminate].
  destruct (starts_with ":" (skip_space python_syntax r1)) eqn:Hcolon;
    [|discriminate].
  destruct (starts_with_split _ _ Hcolon) as (r2 & Hr2).
  rewrite Hr2 in H. cbn [Text.drop] in H.
  destruct (mpy (skip_space python_syntax r2)) as [[v r3]|] eqn:Hm;
    [|discriminate].
  destruct (skip_space python_syntax r3) as [|c r4] eqn:Hskip;
    [discriminate|].
  assert (Hfollow : follows python_syntax r3 = true).
  { apply (skipped_follows _ _ _ Hskip).
    destruct (Ascii.eqb c "}"); [now rewrite orb_true_r|].
    destruct (Ascii.eqb c ","); [reflexivity | discriminate]. }
  pose proof (member_start _ _ Hm) as Hv.
  pose proof (member_respell _ _ _ Hm Hfollow) as Hj.
  pose proof (member_progress _ _ _ Hj) as Hp.
  pose proof (scan_text_respell _ _ _ _ Hq Htext) as Htj.
  pose proof (text_body_progress _ _ _ _ _ _ Htj) as Htp.
  destruct (skip_to_kept _ _ _ Hr2 eq_refl eq_refl) as [Hcj Hcl].
  destruct (skip_to_value r2 Hv) as [Hvj Hvl].
  rewrite quote_respell in * by exact Hq.
  cbn [String.length] in Hlen.
  destruct fuel' as [|fuel']; [lia|].
  cbn [scan_pairs].
  change (is_quote json_syntax "034") with true. cbv iota.
  rewrite Htj, Hcj. cbn [starts_with Text.drop].
  change (Ascii.eqb ":" ":") with true. cbv iota.
  rewrite Hvj, Hj.
  destruct (Ascii.eqb c "}") eqn:Hc1.
  { apply Ascii.eqb_eq in Hc1 as ->. inversion H; subst.
    destruct (skip_to_kept _ _ _ Hskip eq_refl eq_refl) as [-> _].
    reflexivity. }
  destruct (Ascii.eqb c ",") eqn:Hc2; [|discriminate].
  apply Ascii.eqb_eq in Hc2 as ->.
  pose proof (skip_space_length json_syntax (respell Outside r3)) as Hl3.
  rewrite skip_space_respell, Hskip, respell_comma in *.
  destruct (starts_with "}" (skip_space python_syntax r4)) eqn:Ht.
  - cbn [trailing_comma python_syntax] in H. inversion H; subst.
    unfold closes. rewrite Ht, orb_true_r.
    destruct (starts_with_split _ _ Ht) as (r5 & Hr5).
    destruct (skip_to_kept _ _ _ Hr5 eq_refl eq_refl) as [-> _].
    rewrite Hr5. reflexivity.
  - assert (Hkey : exists q' r6,
               skip_space python_syntax r4 = String q' r6
               /\ is_quote python_syntax q' = true).
    { destruct fuel as [|fuel0]; [discriminate|]. cbn [scan_pairs] in H.
      destruct (skip_space python_syntax r4) as [|q' r6]; [discriminate|].
      destruct (is_quote python_syntax q') eqn:Hq'; [|discriminate].
      now exists q', r6. }
    destruct Hkey as (q' & r6 & Hr4 & Hq').
    assert (Hv4 : value_start (skip_space python_syntax r4) = true).
    { rewrite Hr4. cbn [value_start]. unfold opens. now rewrite Hq'. }
    rewrite (proj1 (proj2 (value_start_solid _ Hv4))) in *.
    cbn [skip_space space json_syntax json_space Ascii.eqb Bool.eqb
           andb orb] in Hl3 |- *.
    cbv iota. cbn [String.length] in Hl3.
    destruct (skip_to_value r4 Hv4) as [-> Hl4].
    rewrite (proj2 (proj2 (value_start_respell _ Hv4))).
    now rewrite (IH _ _ _ _ H fuel') by lia.
Qed.

End Members.

(** ** Values *)

Lemma scan_start depth s x :
  scan python_syntax depth s = Some x -> value_start s = true.
Proof.
  destruct depth as [|depth]; [discriminate|]. cbn [scan].
  destruct s as [|c s0]; [discriminate|]. cbn [value_start]. unfold opens.
  destruct (is_quote python_syntax c); [reflexivity|].
  destruct (Ascii.eqb c "["); [reflexivity|].
  destruct (Ascii.eqb c "{"); [reflexivity|].
  cbn [orb].
  destruct (keyword python_syntax (String c s0)) as [y|] eqn:Hk.
  - intros _. destruct (keyword_head _ _ Hk) as (c0 & s' & Hs & Hc).
    inversion Hs; subst. now rewrite Hc.
  - intros H. destruct (number_head _ _ H) as (c0 & s' & Hs & Hc).
    inversion Hs; subst. now rewrite Hc, !orb_true_r.
Qed.

Lemma numeric_is_kept c :
  numeric c = true ->
  kept c = true /\ is_quote json_syntax c = false
  /\ Ascii.eqb c "[" = false /\ Ascii.eqb c "{" = false.
Proof.
  assert (H : (if numeric c
               then kept c && negb (is_quote json_syntax c)
                    && negb (Ascii.eqb c "[") && negb (Ascii.eqb c "{")
               else true) = true)
    by (every_char c; reflexivity).
  intros Hn. rewrite Hn in H.
  repeat (apply andb_prop in H as [H ?]).
  repeat match goal with
         | Hn : negb _ = true |- _ => apply negb_true_iff in Hn
         end.
  tauto.
Qed.

Lemma scan_respell depth : forall s v r,
  scan python_syntax depth s = Some (v, r) ->
  follows python_syntax r = true ->
  scan json_syntax depth (respell Outside s) = Some (v, respell Outside r).
Proof.
  induction depth as [|depth IH]; intros s v r H Hfollow; [discriminate|].
  cbn [scan] in H. destruct s as [|c s0]; [discriminate|].
  destruct (is_quote python_syntax c) eqn:Hq.
  { destruct (scan_text python_syntax c s0) as [[t r1]|] eqn:Htext;
      [|discriminate].
    inversion H; subst. rewrite quote_respell by exact Hq.
    cbn [scan]. change (is_quote json_syntax "034") with true. cbv iota.
    now rewrite (scan_text_respell _ _ _ _ Hq Htext). }
  destruct (Ascii.eqb c "[") eqn:Hlist.
  { apply Ascii.eqb_eq in Hlist as ->.
    rewrite kept_respell by reflexivity. cbn [scan].
    change (is_quote json_syntax "[") with false.
    change (Ascii.eqb "[" "[") with true. cbv iota.
    destruct (starts_with "]" (skip_space python_syntax s0)) eqn:Hend.
    - inversion H; subst.
      destruct (starts_with_split _ _ Hend) as (r1 & Hr1).
      destruct (skip_to_kept _ _ _ Hr1 eq_refl eq_refl) as [-> _].
      rewrite Hr1. reflexivity.
    - destruct (scan_items python_syntax (scan python_syntax depth)
                  (String.length (skip_space python_syntax s0))
                  (skip_space python_syntax s0)) as [[vs r2]|] eqn:Hitems;
        [|discriminate].
      inversion H; subst.
      assert (Hv : value_start (skip_space python_syntax s0) = true).
      { destruct (String.length (skip_space python_syntax s0));
          [discriminate|].
        cbn [scan_items] in Hitems.
        destruct (scan python_syntax depth (skip_space python_syntax s0))
          as [x|] eqn:Hm; [|discriminate].
        exact (scan_start _ _ _ Hm). }
      destruct (skip_to_value s0 Hv) as [-> _].
      rewrite (proj1 (proj2 (value_start_respell _ Hv))).
      rewrite (scan_items_respell (scan python_syntax depth)
                 (scan json_syntax depth) IH (scan_start depth)
                 (scan_progress_json depth) _ _ _ _ Hitems) by lia.
      reflexivity. }
  destruct (Ascii.eqb c "{") eqn:Hdict.
  { apply Ascii.eqb_eq in Hdict as ->.
    rewrite kept_respell by reflexivity. cbn [scan].
    change (is_quote json_syntax "{") with false.
    change (Ascii.eqb "{" "[") with false.
    change (Ascii.eqb "{" "{") with true. cbv iota.
    destruct (starts_with "}" (skip_space python_syntax s0)) eqn:Hend.
    - inversion H; subst.
      destruct (starts_with_split _ _ Hend) as (r1 & Hr1).
      destruct (skip_to_kept _ _ _ Hr1 eq_refl eq_refl) as [-> _].
      rewrite Hr1. reflexivity.
    - destruct (scan_pairs python_syntax (scan python_syntax depth)
                  (String.length (skip_space python_syntax s0)) []
                  (skip_space python_syntax s0)) as [[kvs r2]|] eqn:Hpairs;
        [|discriminate].
      inversion H; subst.
      assert (Hv : value_start (skip_space python_syntax s0) = true).
      { destruct (String.length (skip_space python_syntax s0));
          [discriminate|].
        cbn [scan_pairs] in Hpairs.
        destruct (skip_space python_syntax s0) as [|q' r6]; [discriminate|].
        destruct (is_quote python_syntax q') eqn:Hq'; [|discriminate].
        cbn [value_start]. unfold opens. now rewrite Hq'. }
      destruct (skip_to_value s0 Hv) as [-> _].
      rewrite (proj2 (proj2 (value_start_respell _ Hv))).
      rewrite (scan_pairs_respell (scan python_syntax depth)
                 (scan json_syntax depth) IH (scan_start depth)
                 (scan_progress_json depth) _ _ _ _ _ Hpairs) by lia.
      reflexivity. }
  destruct (keyword python_syntax (String c s0)) as [[v' r']|] eqn:Hk.
  - inversion H; subst.
    pose proof (keyword_respell _ _ _ Hk) as Hkj.
    destruct (keyword_head _ _ Hk) as (c0 & s' & Hs & Hc).
    inversion Hs; subst c0 s'. clear Hs.
    destruct (Ascii.eqb_spec c "T") as [->|];
      [|destruct (Ascii.eqb_spec c "F") as [->|];
        [|destruct (Ascii.eqb_spec c "N") as [->|]; [|discriminate]]];
      cbn [respell is_quote python_syntax quotes existsb Ascii.eqb
             Bool.eqb andb orb append] in Hkj |- *;
      cbn [scan is_quote json_syntax quotes existsb Ascii.eqb Bool.eqb
             andb orb];
      now rewrite Hkj.
  - destruct (number_head _ _ H) as (c0 & s' & Hs & Hc).
    inversion Hs; subst c0 s'. clear Hs.
    destruct (numeric_is_kept c Hc) as (Hk1 & Hk2 & Hk3 & Hk4).
    pose proof (number_respell _ _ _ H Hfollow) as Hn.
    rewrite kept_respell in * by exact Hk1.
    cbn [scan]. rewrite Hk2, Hk3, Hk4.
    now rewrite (no_keyword_numeric c _ Hc).
Qed.

(** ** The whole text *)

Lemma trailer_respell s : forall broken indented,
  trailer broken indented s = true ->
  follows python_syntax s = true
  /\ skip_space json_syntax (respell Outside s) = EmptyString.
Proof.
  induction s as [|c s IH]; intros broken indented H; [now split|].
  cbn [trailer] in H. cbn [follows].
  change (space python_syntax c) with (python_space c).
  assert (Hc : (if blank c || Ascii.eqb c "012" || line_break c
                then python_space c else true) = true)
    by (every_char c; reflexivity).
  destruct (blank c) eqn:Hb.
  { cbn [orb] in Hc. rewrite Hc. split; [reflexivity|].
    destruct (Ascii.eqb c "012") eqn:Hf.
    - apply Ascii.eqb_eq in Hf as ->. discriminate.
    - destruct (space_is_kept c Hc Hf) as [Hk Hj].
      rewrite kept_respell by exact Hk. cbn [skip_space].
      change (space json_syntax c) with (json_space c). rewrite Hj.
      exact (proj2 (IH _ _ H)). }
  destruct (Ascii.eqb c "012") eqn:Hf.
  { apply Ascii.eqb_eq in Hf as ->. split; [reflexivity|].
    exact (proj2 (IH _ _ H)). }
  destruct (line_break c) eqn:Hl; [|discriminate].
  cbn [orb] in Hc. rewrite Hc. split; [reflexivity|].
  destruct (space_is_kept c Hc Hf) as [Hk Hj].
  rewrite kept_respell by exact Hk. cbn [skip_space].
  change (space json_syntax c) with (json_space c). rewrite Hj.
  exact (proj2 (IH _ _ H)).
Qed.

Lemma lstrip_blank_respell s :
  skip_space json_syntax (respell Outside s)
  = skip_space json_syntax (respell Outside (lstrip_blank s)).
Proof.
  induction s as [|c s IH]; [reflexivity|]. cbn [lstrip_blank].
  destruct (blank c) eqn:Hb; [|reflexivity].
  assert (Hc : (if blank c then kept c && json_space c else true) = true)
    by (every_char c; reflexivity).
  rewrite Hb in Hc. apply andb_prop in Hc as [Hk Hj].
  rewrite kept_respell by exact Hk. cbn [skip_space].
  change (space json_syntax c) with (json_space c). now rewrite Hj.
Qed.

Lemma margin_respell s : forall indented s1,
  margin indented s = Some s1 ->
  skip_space json_syntax (respell Outside s)
  = skip_space json_syntax (respell Outside s1).
Proof.
  induction s as [|c s IH]; intros indented s1 H.
  - now inversion H.
  - cbn [margin] in H.
    assert (Hc : (if blank c || line_break c
                  then kept c && json_space c else true) = true)
      by (every_char c; reflexivity).
    destruct (blank c) eqn:Hb.
    { cbn [orb] in Hc. apply andb_prop in Hc as [Hk Hj].
      rewrite kept_respell by exact Hk. cbn [skip_space].
      change (space json_syntax c) with (json_space c). rewrite Hj.
      exact (IH _ _ H). }
    destruct (line_break c) eqn:Hl.
    { cbn [orb] in Hc, H. apply andb_prop in Hc as [Hk Hj].
      rewrite kept_respell by exact Hk. cbn [skip_space].
      change (space json_syntax c) with (json_space c). rewrite Hj.
      exact (IH _ _ H). }
    cbn [orb] in H.
    destruct (Ascii.eqb c "012") eqn:Hf.
    { apply Ascii.eqb_eq in Hf as ->. exact (IH _ _ H). }
    destruct indented; [discriminate|]. now inversion H.
Qed.

(** What [ast.literal_eval] reads, [json.loads] reads from the same text
    in JSON spelling, with the same result. *)
Lemma literal_reads_as_json s v :
  literal_eval s = Some v -> loads (as_json s) = Some v.
Proof.
  unfold literal_eval, loads, parse, as_json.
  destruct (margin false (lstrip_blank s)) as [s1|] eqn:Hmargin;
    [|discriminate].
  destruct (scan python_syntax (S max_nesting) s1) as [[v' r]|] eqn:Hscan;
    [|discriminate].
  destruct (trailer false false r) eqn:Htrail; [|discriminate].
  intros H. inversion H; subst.
  destruct (trailer_respell _ _ _ Htrail) as [Hfollow Hrest].
  rewrite lstrip_blank_respell, (margin_respell _ _ _ Hmargin).
  rewrite (proj1 (value_start_respell _ (scan_start _ _ _ Hscan))).
  now rewrite (scan_respell _ _ _ _ Hscan Hfollow), Hrest.
Qed.

End Respelling.

(** ** The fallback of the inspector *)

(** Lines 104-123, whatever the two decoders are: when the strict one
    rejects the text and the permissive one reads a list, that list is
    what the frame yields. *)
Lemma inspect_falls_back loads literal_eval data parsed inner elements :
  data <> "null" ->
  loads data = Some (VList parsed) ->
  2 <= List.length parsed ->
  nth 1 parsed VNone = VStr inner ->
  loads inner = None ->
  literal_eval inner = Some (VList elements) ->
  Inspect.on_line loads literal_eval ("data: " ++ data)
  = Ok (Some (Inspect.LiteralEval (VList elements))).
Proof.
  intros Hnull Hdata Hlen Hinner Hstrict Hliteral.
  unfold Inspect.on_line.
  assert (Hstart : Text.startswith "data: " ("data: " ++ data) = true)
    by (destruct data; reflexivity).
  rewrite Hstart. change (Text.drop 6 ("data: " ++ data)) with data.
  destruct (String.eqb_spec data "null"); [contradiction|].
  rewrite Hdata. destruct (Nat.leb_spec 2 (List.length parsed)); [|lia].
  rewrite Hinner. unfold Inspect.decode_elements.
  now rewrite Hstrict, Hliteral.
Qed.



(** * Further properties of the scripts *)

(** ** How many GETs a run makes *)

Lemma http_poll_count loads service event_id n : forall i fetched,
  fetched <= snd (Http.poll loads service event_id n i fetched)
  /\ snd (Http.poll loads service event_id n i fetched) <= fetched + n
  /\ (0 < n -> fetched < snd (Http.poll loads service event_id n i fetched)).
Proof.
  induction n as [|n IH]; intros i fetched; [simpl; lia|].
  cbn [Http.poll].
  destruct (get service event_id fetched) as [|status_code text];
    [simpl; lia|].
  specialize (IH (S i) (S fetched)).
  destruct (status_code =? 200)%Z; [|lia].
  destruct (Http.for_lines loads (Http.lines_of text)) as [[e|]|x];
    [simpl; lia | | simpl; lia].
  destruct (i =? max_attempts - 1)%nat; [simpl; lia | lia].
Qed.

Lemma logging_poll_count loads service target_text event_id n :
  forall fetched,
  fetched
  <= snd (Logging.poll loads service target_text event_id n fetched)
  /\ snd (Logging.poll loads service target_text event_id n fetched)
     <= fetched + n
  /\ (0 < n ->
      fetched
      < snd (Logging.poll loads service target_text event_id n fetched)).
Proof.
  induction n as [|n IH]; intros fetched; [simpl; lia|].
  cbn [Logging.poll].
  destruct (get service event_id fetched) as [|status_code text];
    [simpl; lia|].
  specialize (IH (S fetched)).
  destruct (status_code =? 200)%Z; [|lia].
  destruct (Logging.for_lines loads target_text (Logging.lines_of text))
    as [[e|]|x]; simpl; lia.
Qed.

Lemma inspect_poll_count loads literal_eval service event_id n :
  forall fetched,
  fetched
  <= snd (Inspect.poll loads literal_eval service event_id n fetched)
  /\ snd (Inspect.poll loads literal_eval service event_id n fetched)
     <= fetched + n.
Proof.
  induction n as [|n IH]; intros fetched; [simpl; lia|].
  cbn [Inspect.poll].
  destruct (get service event_id fetched) as [|status_code text];
    [simpl; lia|].
  specialize (IH (S fetched)).
  destruct (status_code =? 200)%Z; [|lia].
  destruct (Inspect.for_lines loads literal_eval (Inspect.lines_of text))
    as [[e|]|x]; simpl; lia.
Qed.

(** X1. Whatever the service answers and whatever the decoders do, a run
    of any of the three scripts makes at most thirty GETs. *)
Theorem runs_make_at_most_thirty_gets :
  forall (loads literal_eval : string -> option value) (service : Service)
         (target_text : option string),
    snd (Http.test_omniparser loads service) <= 30
    /\ snd (Logging.test_omniparser_with_logging loads service target_text)
       <= 30
    /\ snd (Inspect.inspect_omniparser_response loads literal_eval service)
       <= 30.
Proof.
  intros loads literal_eval service target_text. repeat split.
  - unfold Http.test_omniparser.
    destruct (Http.submit loads service) as [event_id|x]; [|simpl; lia].
    pose proof (http_poll_count loads service event_id max_attempts 0 0) as H.
    destruct (Http.poll loads service event_id max_attempts 0 0).
    simpl in *. unfold max_attempts in H. lia.
  - unfold Logging.test_omniparser_with_logging.
    destruct (Logging.submit loads service) as [[event_id|]|x];
      [|simpl; lia|simpl; lia].
    pose proof (logging_poll_count loads service target_text event_id
                  max_attempts 0) as H.
    destruct (Logging.poll loads service target_text event_id max_attempts 0).
    simpl in *. unfold max_attempts in H. lia.
  - unfold Inspect.inspect_omniparser_response.
    destruct (post service) as [|status_code text]; [simpl; lia|].
    destruct (negb (status_code =? 200)%Z); [simpl; lia|].
    destruct (loads text) as [result|]; [|simpl; lia].
    destruct (Py.get result "event_id" VNone) as [event_id|x]; [|simpl; lia].
    pose proof (inspect_poll_count loads literal_eval service event_id 30 0)
      as H.
    destruct (Inspect.poll loads literal_eval service event_id 30 0)
      as [[[d|]|x] n]; simpl in *; lia.
Qed.

(** ** When a run reports a timeout *)

Lemma http_on_line_success_only loads line e :
  Http.on_line loads line = Ok (Some e) -> e = ResultReceived.
Proof.
  unfold Http.on_line.
  destruct (Text.startswith "data: " line); [|discriminate].
  destruct (String.eqb (Text.drop 6 line) "null"); [discriminate|].
  cbn [Http.json_loads bind].
  destruct (loads (Text.drop 6 line)) as [v|]; [|discriminate].
  cbn [bind]. destruct v; try discriminate.
  destruct (2 <=? Datatypes.length l)%nat; [|discriminate].
  destruct (Http.show_elements loads (nth 1 l VNone)) as [[]|x]; cbn [bind].
  - congruence.
  - destruct x; discriminate.
Qed.

Lemma http_for_lines_success_only loads lines e :
  Http.for_lines loads lines = Ok (Some e) -> e = ResultReceived.
Proof.
  intros H. destruct (http_for_lines_exit _ _ _ H) as (line & _ & Hline).
  now apply http_on_line_success_only in Hline.
Qed.

Lemma http_poll_timeout loads service event_id n : forall i fetched total,
  i + n = max_attempts ->
  Http.poll loads service event_id n i fetched = (Ok (Some Timeout), total)
  \/ Http.poll loads service event_id n i fetched = (Ok None, total) ->
  total = fetched + n.
Proof.
  induction n as [|n IH]; intros i fetched total Hi H.
  - simpl in H. destruct H as [H|H]; [discriminate|]. injection H. lia.
  - cbn [Http.poll] in H.
    destruct (get service event_id fetched) as [|status_code text];
      [destruct H; discriminate|].
    destruct (status_code =? 200)%Z;
      [|rewrite (IH (S i) (S fetched) total); [lia | lia | exact H]].
    destruct (Http.for_lines loads (Http.lines_of text)) as [[e|]|x] eqn:Hl.
    + apply http_for_lines_success_only in Hl. subst e.
      destruct H; discriminate.
    + destruct (Nat.eqb_spec i (max_attempts - 1)) as [->|Hne].
      * destruct H as [H|H]; [|discriminate]. injection H.
        unfold max_attempts in *. lia.
      * rewrite (IH (S i) (S fetched) total); [lia | lia | exact H].
    + destruct H; discriminate.
Qed.

Lemma http_poll_exits loads service event_id n : forall i fetched total e,
  Http.poll loads service event_id n i fetched = (Ok (Some e), total) ->
  e = Timeout \/ e = ResultReceived.
Proof.
  induction n as [|n IH]; intros i fetched total e; [discriminate|].
  cbn [Http.poll].
  destruct (get service event_id fetched) as [|status_code text];
    [discriminate|].
  destruct (status_code =? 200)%Z; [|apply IH].
  destruct (Http.for_lines loads (Http.lines_of text)) as [[e'|]|x] eqn:Hl.
  - apply http_for_lines_success_only in Hl. subst e'.
    intros H. injection H as <- _. now right.
  - destruct (i =? max_attempts - 1)%nat; [|apply IH].
    intros H. injection H as <- _. now left.
  - discriminate.
Qed.

Lemma logging_on_line_exits loads target_text line e :
  Logging.on_line loads target_text line = Ok (Some e) ->
  e = ResultReceived \/ e = NoElements \/ e = NoMatch.
Proof.
  unfold Logging.on_line.
  destruct (Text.startswith "data: " line); [|discriminate].
  destruct (String.eqb (Text.drop 6 line) "null"); [discriminate|].
  cbn [Logging.json_loads bind].
  destruct (loads (Text.drop 6 line)) as [v|]; [|discriminate].
  cbn [bind]. destruct v; try discriminate.
  destruct (2 <=? Datatypes.length l)%nat; [|discriminate].
  unfold Logging.on_result.
  destruct (Logging.elements_of loads (nth 1 l VNone)) as [elements|x];
    cbn [bind]; [|destruct x; discriminate].
  destruct (Py.len elements) as [n|x]; cbn [bind];
    [|destruct x; discriminate].
  destruct (n =? 0)%nat; [intros H; injection H as <-; auto|].
  destruct (Py.slice_items 10 elements) as [first|x]; cbn [bind];
    [|destruct x; discriminate].
  destruct (for_each _ first) as [[]|x]; cbn [bind];
    [|destruct x; discriminate].
  unfold Logging.filter_step.
  destruct target_text as [t|]; cbn [bind];
    [|intros H; injection H as <-; auto].
  destruct (negb (String.eqb t EmptyString)); cbn [bind];
    [|intros H; injection H as <-; auto].
  destruct (Py.items elements) as [all|x]; cbn [bind];
    [|destruct x; discriminate].
  destruct (Logging.filter_elements (Text.lower t) all) as [matched|x];
    cbn [bind]; [|destruct x; discriminate].
  destruct matched; cbn [bind]; intros H; injection H as <-; auto.
Qed.

Lemma logging_poll_falls loads service target_text event_id n :
  forall fetched total,
  Logging.poll loads service target_text event_id n fetched
  = (Ok None, total) ->
  total = fetched + n.
Proof.
  induction n as [|n IH]; intros fetched total H.
  - simpl in H. injection H. lia.
  - cbn [Logging.poll] in H.
    destruct (get service event_id fetched) as [|status_code text];
      [discriminate|].
    destruct (status_code =? 200)%Z;
      [|rewrite (IH (S fetched) total H); lia].
    destruct (Logging.for_lines loads target_text (Logging.lines_of text))
      as [[e|]|x]; [discriminate| |discriminate].
    rewrite (IH (S fetched) total H). lia.
Qed.

(** X2. A run that reports a timeout, or that falls off the end of
    [test_omniparser], has made all thirty GETs: neither happens while
    attempts remain. *)
Theorem timeout_means_thirty_gets :
  forall (loads : string -> option value) (service : Service)
         (target_text : option string) (n : nat),
    (Http.test_omniparser loads service = (Timeout, n) -> n = 30)
    /\ (Http.test_omniparser loads service = (FellThrough, n) -> n = 30)
    /\ (Logging.test_omniparser_with_logging loads service target_text
        = (Timeout, n) -> n = 30).
Proof.
  intros loads service target_text n.
  assert (Hhttp : forall e, e = Timeout \/ e = FellThrough ->
            Http.test_omniparser loads service = (e, n) -> n = 30).
  { intros e He. unfold Http.test_omniparser.
    destruct (Http.submit loads service) as [event_id|x].
    - destruct (Http.poll loads service event_id max_attempts 0 0)
        as [r total] eqn:Hpoll.
      intros H. injection H as Hr ->.
      apply (http_poll_timeout loads service event_id max_attempts 0 0 n);
        [reflexivity|].
      destruct r as [[e'|]|x]; simpl in Hr.
      + subst e'. destruct He as [-> | ->]; [now left|].
        apply http_poll_exits in Hpoll. destruct Hpoll; discriminate.
      + now right.
      + destruct He as [-> | ->]; destruct x; discriminate.
    - intros H. injection H as Hr _.
      destruct He as [-> | ->]; destruct x; discriminate. }
  repeat split.
  - apply Hhttp. now left.
  - apply Hhttp. now right.
  - unfold Logging.test_omniparser_with_logging.
    destruct (Logging.submit loads service) as [[event_id|]|x];
      [|discriminate|discriminate].
    destruct (Logging.poll loads service target_text event_id max_attempts 0)
      as [r total] eqn:Hpoll.
    intros H. injection H as Hr ->.
    destruct r as [[e|]|x]; simpl in Hr; [|clear Hr|discriminate].
    + subst e.
      destruct (logging_poll_success _ _ _ _ _ _ _ _ Hpoll)
        as (k & text & _ & _ & Hl).
      destruct (logging_for_lines_exit _ _ _ _ Hl) as (line & _ & Hline).
      apply logging_on_line_exits in Hline.
      destruct Hline as [H|[H|H]]; discriminate.
    + now apply logging_poll_falls in Hpoll.
Qed.

Lemma timeout_means_thirty_gets_witness :
  Http.test_omniparser Decoder.loads Sample.always_pending = (Timeout, 30)
  /\ 30 = 30.
Proof.
  assert (H : Http.test_omniparser Decoder.loads Sample.always_pending
              = (Timeout, 30)) by reflexivity.
  split; [exact H|].
  exact (proj1 (timeout_means_thirty_gets Decoder.loads Sample.always_pending
                  None 30) H).
Defined.

(** ** A run sees only the answers it fetched *)

Lemma http_submit_same loads s s' :
  post s = post s' -> Http.submit loads s' = Http.submit loads s.
Proof. intros H. unfold Http.submit. now rewrite H. Qed.

Lemma logging_submit_same loads s s' :
  post s = post s' -> Logging.submit loads s' = Logging.submit loads s.
Proof. intros H. unfold Logging.submit. now rewrite H. Qed.

Lemma http_poll_same loads s s' event_id n : forall i fetched,
  (forall j,
      fetched <= j < snd (Http.poll loads s event_id n i fetched) ->
      get s event_id j = get s' event_id j) ->
  Http.poll loads s' event_id n i fetched
  = Http.poll loads s event_id n i fetched.
Proof.
  induction n as [|n IH]; intros i fetched Hsame; [reflexivity|].
  assert (Hfirst : get s event_id fetched = get s' event_id fetched).
  { apply Hsame. split; [lia|].
    apply (http_poll_count loads s event_id (S n) i fetched). lia. }
  cbn [Http.poll] in *. rewrite <- Hfirst.
  destruct (get s event_id fetched) as [|status_code text]; [reflexivity|].
  destruct (status_code =? 200)%Z.
  - destruct (Http.for_lines loads (Http.lines_of text)) as [[e|]|x];
      [reflexivity| |reflexivity].
    destruct (i =? max_attempts - 1)%nat; [reflexivity|].
    apply IH. intros j Hj. apply Hsame. lia.
  - apply IH. intros j Hj. apply Hsame. lia.
Qed.

Lemma logging_poll_same loads s s' target_text event_id n : forall fetched,
  (forall j,
      fetched <= j
      < snd (Logging.poll loads s target_text event_id n fetched) ->
      get s event_id j = get s' event_id j) ->
  Logging.poll loads s' target_text event_id n fetched
  = Logging.poll loads s target_text event_id n fetched.
Proof.
  induction n as [|n IH]; intros fetched Hsame; [reflexivity|].
  assert (Hfirst : get s event_id fetched = get s' event_id fetched).
  { apply Hsame. split; [lia|].
    apply (logging_poll_count loads s target_text event_id (S n) fetched).
    lia. }
  cbn [Logging.poll] in *. rewrite <- Hfirst.
  destruct (get s event_id fetched) as [|status_code text]; [reflexivity|].
  destruct (status_code =? 200)%Z.
  - destruct (Logging.for_lines loads target_text (Logging.lines_of text))
      as [[e|]|x]; [reflexivity| |reflexivity].
    apply IH. intros j Hj. apply Hsame. lia.
  - apply IH. intros j Hj. apply Hsame. lia.
Qed.

(** X3. A run is decided by the answer to the POST and by the answers to
    the GETs it made: a service that differs only in later answers gives
    the same exit after the same number of GETs.  Nothing is fetched, or
    looked at, beyond the answer that ends the run. *)
Theorem run_depends_on_fetched_answers_only :
  forall (loads : string -> option value) (s s' : Service)
         (target_text : option string),
    (same_answers (snd (Http.test_omniparser loads s)) s s' ->
     Http.test_omniparser loads s' = Http.test_omniparser loads s)
    /\ (same_answers
          (snd (Logging.test_omniparser_with_logging loads s target_text))
          s s' ->
        Logging.test_omniparser_with_logging loads s' target_text
        = Logging.test_omniparser_with_logging loads s target_text).
Proof.
  intros loads s s' target_text. split; intros [Hpost Hget].
  - unfold Http.test_omniparser in *.
    rewrite (http_submit_same loads s s' Hpost).
    destruct (Http.submit loads s) as [event_id|x]; [|reflexivity].
    rewrite (http_poll_same loads s s'); [reflexivity|].
    intros j Hj. apply Hget.
    destruct (Http.poll loads s event_id max_attempts 0 0). simpl in *. lia.
  - unfold Logging.test_omniparser_with_logging in *.
    rewrite (logging_submit_same loads s s' Hpost).
    destruct (Logging.submit loads s) as [[event_id|]|x];
      [|reflexivity|reflexivity].
    rewrite (logging_poll_same loads s s'); [reflexivity|].
    intros j Hj. apply Hget.
    destruct (Logging.poll loads s target_text event_id max_attempts 0).
    simpl in *. lia.
Qed.

Lemma run_depends_on_fetched_answers_only_witness :
  same_answers 2 Sample.malformed_then_result
    Sample2.malformed_then_result_then_busy
  /\ get Sample.malformed_then_result (VStr "abc") 2
     <> get Sample2.malformed_then_result_then_busy (VStr "abc") 2
  /\ Http.test_omniparser Decoder.loads
       Sample2.malformed_then_result_then_busy
     = Http.test_omniparser Decoder.loads Sample.malformed_then_result.
Proof.
  assert (H : same_answers 2 Sample.malformed_then_result
                Sample2.malformed_then_result_then_busy).
  { split; [reflexivity|]. intros event_id j Hj.
    destruct j as [|[|j]]; [reflexivity | reflexivity | lia]. }
  split; [exact H|]. split; [discriminate|].
  exact (proj1 (run_depends_on_fetched_answers_only Decoder.loads
                  Sample.malformed_then_result
                  Sample2.malformed_then_result_then_busy None) H).
Defined.

(** ** The last attempt of [test_omniparser] *)

(** X4. In [test_omniparser] the timeout is reported inside the branch
    for status 200.  When the first twenty-nine answers end nothing and
    the thirtieth has another status, the function reports no timeout:
    it reaches its end and returns [None], after thirty GETs. *)
Theorem last_answer_not_ok_returns_none :
  forall (loads : string -> option value) (service : Service)
         (event_id : value) (status_code : Z) (text : string),
    Http.submit loads service = Ok event_id ->
    (forall j, j < 29 -> http_quiet loads (get service event_id j)) ->
    get service event_id 29 = Answer status_code text ->
    status_code <> 200%Z ->
    Http.test_omniparser loads service = (FellThrough, 30)
    /\ returned FellThrough = None.
Proof.
  intros loads service event_id status_code text Hsubmit Hquiet Hget Hne.
  split; [|reflexivity].
  unfold Http.test_omniparser. rewrite Hsubmit.
  change max_attempts with (29 + 1).
  rewrite http_poll_skip by (simpl; auto).
  now rewrite (http_poll_other_status _ _ _ _ _ _ _ _ Hget Hne).
Qed.

Lemma last_answer_not_ok_returns_none_witness :
  Http.test_omniparser Decoder.loads Sample2.always_busy = (FellThrough, 30)
  /\ returned FellThrough = None.
Proof.
  apply (last_answer_not_ok_returns_none Decoder.loads Sample2.always_busy
           (VStr "abc") 503 "busy").
  - reflexivity.
  - intros j _. left. discriminate.
  - reflexivity.
  - discriminate.
Defined.

(** ** The second member of a result *)

Lemma http_on_line_terminal loads line l :
  is_frame line = true ->
  payload line <> "null" ->
  loads (payload line) = Some (VList l) ->
  2 <= List.length l ->
  Http.on_line loads line
  = match Http.show_elements loads (nth 1 l VNone) with
    | Ok _ => Ok (Some ResultReceived)
    | Raise x => Raise x
    end.
Proof.
  unfold is_frame, payload, Http.on_line. intros Hframe Hnull Hloads Hlen.
  rewrite Hframe.
  destruct (String.eqb_spec (Text.drop 6 line) "null"); [contradiction|].
  cbn [Http.json_loads bind]. rewrite Hloads. cbn [bind].
  destruct (Nat.leb_spec 2 (List.length l)); [|lia].
  destruct (Http.show_elements loads (nth 1 l VNone)) as [[]|x] eqn:Hshow;
    cbn [bind]; [reflexivity|].
  destruct x; try reflexivity.
  unfold Http.show_elements in Hshow.
  destruct (bind (Http.json_loads loads (nth 1 l VNone)) _) as [[]|[]];
    discriminate.
Qed.

Lemma logging_on_line_terminal loads target_text line l :
  is_frame line = true ->
  payload line <> "null" ->
  loads (payload line) = Some (VList l) ->
  2 <= List.length l ->
  Logging.on_line loads target_text line
  = match Logging.on_result loads target_text l with
    | Raise JSONDecodeError => Ok None
    | r => r
    end.
Proof.
  unfold is_frame, payload, Logging.on_line. intros Hframe Hnull Hloads Hlen.
  rewrite Hframe.
  destruct (String.eqb_spec (Text.drop 6 line) "null"); [contradiction|].
  cbn [Logging.json_loads bind]. rewrite Hloads. cbn [bind].
  now destruct (Nat.leb_spec 2 (List.length l)); [|lia].
Qed.

(** X5. When the second member of a result is text that [json.loads]
    rejects, the two test scripts part ways: [test_omniparser] prints the
    raw text and returns [True]; [test_omniparser_with_logging] passes
    over the frame and goes on polling. *)
Theorem elements_that_are_no_json :
  forall (loads : string -> option value) (target_text : option string)
         (line : string) (l : list value) (s : string),
    is_frame line = true ->
    payload line <> "null" ->
    loads (payload line) = Some (VList l) ->
    2 <= List.length l ->
    nth 1 l VNone = VStr s ->
    loads s = None ->
    Http.on_line loads line = Ok (Some ResultReceived)
    /\ Logging.on_line loads target_text line = Ok None.
Proof.
  intros loads target_text line l s Hframe Hnull Hloads Hlen Hs Hinner. split.
  - rewrite (http_on_line_terminal loads line l) by assumption.
    rewrite Hs. unfold Http.show_elements. cbn [Http.json_loads bind].
    now rewrite Hinner.
  - rewrite (logging_on_line_terminal loads target_text line l)
      by assumption.
    unfold Logging.on_result, Logging.elements_of. rewrite Hs.
    cbn [Logging.json_loads bind]. now rewrite Hinner.
Qed.

Lemma elements_that_are_no_json_witness :
  Decoder.loads "oops" = None
  /\ Http.on_line Decoder.loads ("data: " ++ Sample2.garbled_elements)
     = Ok (Some ResultReceived)
  /\ Logging.on_line Decoder.loads None ("data: " ++ Sample2.garbled_elements)
     = Ok None.
Proof.
  split; [reflexivity|].
  apply (elements_that_are_no_json Decoder.loads None
           ("data: " ++ Sample2.garbled_elements)
           [VNone; VStr "oops"] "oops"); try reflexivity.
  discriminate.
Defined.

(** X6. [test_omniparser] hands the second member to [json.loads]
    without looking at its type.  When the service sends the elements as
    a list rather than as text, that call raises a [TypeError], which no
    handler of the loop catches: the run ends by the last clause and
    returns [False].  [test_omniparser_with_logging] takes such a member
    as the elements. *)
Theorem elements_sent_as_a_list :
  forall (loads : string -> option value) (target_text : option string)
         (line : string) (l : list value),
    is_frame line = true ->
    payload line <> "null" ->
    loads (payload line) = Some (VList l) ->
    2 <= List.length l ->
    is_text (nth 1 l VNone) = false ->
    (Http.on_line loads line = Raise TypeError
     /\ Http.finish (Raise TypeError) = Error
     /\ returned Error = Some false)
    /\ Logging.elements_of loads (nth 1 l VNone) = Ok (nth 1 l VNone).
Proof.
  intros loads target_text line l Hframe Hnull Hloads Hlen Htext.
  repeat split.
  - rewrite (http_on_line_terminal loads line l) by assumption.
    unfold Http.show_elements.
    destruct (nth 1 l VNone); try reflexivity. discriminate.
  - unfold Logging.elements_of.
    destruct (nth 1 l VNone); try reflexivity. discriminate.
Qed.

Lemma elements_sent_as_a_list_witness :
  Http.on_line Decoder.loads ("data: " ++ Sample2.plain_elements)
  = Raise TypeError
  /\ Http.test_omniparser Decoder.loads Sample.two_elements = (Error, 1)
  /\ Logging.test_omniparser_with_logging Decoder.loads Sample.two_elements
       None
     = (ResultReceived, 1).
Proof.
  split; [|split; reflexivity].
  apply (elements_sent_as_a_list Decoder.loads None
           ("data: " ++ Sample2.plain_elements)
           [VNone; VList [Sample.settings; Sample.globe]]);
    try reflexivity.
  discriminate.
Defined.

(** ** How much of the elements is looked at *)

Lemma http_listing l :
  for_each (fun elem => Http.show_element elem ;;; Ok tt) l
  = if forallb is_map l then Ok tt else Raise AttributeError.
Proof.
  induction l as [|elem l IH]; [reflexivity|].
  cbn [for_each forallb]. destruct elem; try reflexivity.
  cbn [is_map andb]. rewrite <- IH.
  unfold Http.show_element, Py.get.
  destruct (Py.lookup "type" kvs), (Py.lookup "bbox" kvs),
    (Py.lookup "content" kvs), (Py.lookup "confidence" kvs); reflexivity.
Qed.

(** X7. [test_omniparser] lists [elements[:5]]: when the second member
    decodes to a list, the frame is accepted exactly when the first five
    elements are maps, and an [AttributeError] is raised otherwise.  No
    element after the fifth is looked at, and no field of a map is
    required. *)
Theorem listing_looks_at_five_elements :
  forall (loads : string -> option value) (s : string) (es : list value),
    loads s = Some (VList es) ->
    Http.show_elements loads (VStr s)
    = if forallb is_map (firstn 5 es) then Ok tt else Raise AttributeError.
Proof.
  intros loads s es Hloads. unfold Http.show_elements.
  cbn [Http.json_loads bind]. rewrite Hloads.
  cbn [bind Py.len Py.slice_items]. rewrite http_listing.
  now destruct (forallb is_map (firstn 5 es)).
Qed.

Lemma listing_looks_at_five_elements_witness :
  Decoder.loads "[{}, {}, {}, {}, {}, 6]"
  = Some (VList [VDict []; VDict []; VDict []; VDict []; VDict []; VInt 6])
  /\ Http.show_elements Decoder.loads (VStr "[{}, {}, {}, {}, {}, 6]")
     = Ok tt
  /\ Decoder.loads "[{}, 6]" = Some (VList [VDict []; VInt 6])
  /\ Http.show_elements Decoder.loads (VStr "[{}, 6]") = Raise AttributeError.
Proof.
  split; [reflexivity|]. split.
  - apply (listing_looks_at_five_elements Decoder.loads
             "[{}, {}, {}, {}, {}, 6]"
             [VDict []; VDict []; VDict []; VDict []; VDict []; VInt 6]).
    reflexivity.
  - split; [reflexivity|].
    apply (listing_looks_at_five_elements Decoder.loads "[{}, 6]"
             [VDict []; VInt 6]).
    reflexivity.
Defined.

(** ** The answer to the submission *)

(** X8. A POST answered with a status other than 200 ends
    [test_omniparser_with_logging] at once, without a GET.
    [test_omniparser] relies on [raise_for_status]: it ends at once for
    the statuses 400 to 599 only, and for any other status goes on to
    decode the body. *)
Theorem rejected_submission_fetches_nothing :
  forall (loads : string -> option value) (service : Service)
         (target_text : option string) (status_code : Z) (text : string),
    post service = Answer status_code text ->
    status_code <> 200%Z ->
    Logging.test_omniparser_with_logging loads service target_text
    = (BadStatus, 0)
    /\ ((400 <= status_code < 600)%Z ->
        Http.test_omniparser loads service = (RequestFailed, 0))
    /\ ((status_code < 400 \/ 600 <= status_code)%Z ->
        Http.submit loads service
        = match loads text with
          | Some result => Py.get result "event_id" VNone
          | None => Raise RequestException
          end).
Proof.
  intros loads service target_text status_code text Hpost Hne. repeat split.
  - unfold Logging.test_omniparser_with_logging, Logging.submit.
    rewrite Hpost. now destruct (Z.eqb_spec status_code 200).
  - intros Hrange. unfold Http.test_omniparser, Http.submit. rewrite Hpost.
    destruct (Z.leb_spec 400 status_code); [|lia].
    now destruct (Z.ltb_spec status_code 600); [|lia].
  - intros Hrange. unfold Http.submit. rewrite Hpost.
    destruct (Z.leb_spec 400 status_code);
      destruct (Z.ltb_spec status_code 600); try reflexivity; lia.
Qed.

Lemma rejected_submission_fetches_nothing_witness :
  Logging.test_omniparser_with_logging Decoder.loads
    {| post := Answer 201 (Decoder.json_text (VDict [("event_id", VStr "abc")]));
       get := fun _ _ => Sample.heartbeat |} None
  = (BadStatus, 0).
Proof.
  apply (rejected_submission_fetches_nothing Decoder.loads
           {| post := Answer 201
                        (Decoder.json_text (VDict [("event_id", VStr "abc")]));
              get := fun _ _ => Sample.heartbeat |}
           None 201
           (Decoder.json_text (VDict [("event_id", VStr "abc")])));
    [reflexivity | discriminate].
Defined.

(** X9. When the POST is answered with status 200 and a body that is no
    JSON, or JSON for anything but an object, [event_id] cannot be read:
    each test script returns [False] without a GET, and in the inspector
    the exception leaves the function. *)
Theorem unreadable_submission_answer :
  forall (loads literal_eval : string -> option value) (service : Service)
         (target_text : option string) (text : string),
    post service = Answer 200 text ->
    match loads text with
    | Some v => is_map v = false
    | None => True
    end ->
    (exists e, Http.test_omniparser loads service = (e, 0)
               /\ returned e = Some false)
    /\ Logging.test_omniparser_with_logging loads service target_text
       = (Error, 0)
    /\ exists x,
        Inspect.inspect_omniparser_response loads literal_eval service
        = (Raise x, 0).
Proof.
  intros loads literal_eval service target_text text Hpost Hbody.
  unfold Http.test_omniparser, Http.submit,
    Logging.test_omniparser_with_logging, Logging.submit,
    Inspect.inspect_omniparser_response.
  rewrite Hpost.
  change ((400 <=? 200)%Z && (200 <? 600)%Z) with false.
  change (negb (200 =? 200)%Z) with false. cbv iota.
  destruct (loads text) as [v|].
  - destruct v; try discriminate Hbody;
      (split; [exists Error; now split|]; split; [reflexivity|];
       now exists AttributeError).
  - split; [exists RequestFailed; now split|]. split; [reflexivity|].
    now exists RequestException.
Qed.

Lemma unreadable_submission_answer_witness :
  Decoder.loads "[1, 2]" = Some (VList [VInt 1; VInt 2])
  /\ Logging.test_omniparser_with_logging Decoder.loads
       {| post := Answer 200 "[1, 2]"; get := fun _ _ => Sample.heartbeat |}
       None
     = (Error, 0).
Proof.
  split; [reflexivity|].
  apply (unreadable_submission_answer Decoder.loads Decoder.literal_eval
           {| post := Answer 200 "[1, 2]"; get := fun _ _ => Sample.heartbeat |}
           None "[1, 2]"); reflexivity.
Defined.

(** ** The filter, once more *)

Lemma filter_elements_of_maps target_text elements :
  forallb element_map elements = true ->
  Logging.filter_elements (Text.lower target_text) elements
  = Ok (filter (selects target_text) elements).
Proof.
  induction elements as [|elem rest IH]; [reflexivity|].
  cbn [forallb]. intros Hall. apply andb_prop in Hall as [Helem Hrest].
  specialize (IH Hrest).
  destruct elem as [| | | | |l|kvs]; try discriminate.
  unfold element_map in Helem.
  apply andb_prop in Helem as [Helem Hconf].
  apply andb_prop in Helem as [Hcontent Hsource].
  cbn [Logging.filter_elements filter].
  rewrite (text_field_of_textual _ _ Hcontent),
    (text_field_of_textual _ _ Hsource).
  cbn [bind]. unfold selects at 1, Logging.matches.
  destruct (Text.contains _ _ || Text.contains _ _).
  - unfold Py.get, formattable, default in *.
    destruct (Py.lookup "confidence" kvs) as [c|]; cbn [bind];
      [destruct (Py.format_2f c); [|discriminate] |]; cbn [bind];
      now rewrite IH.
  - exact IH.
Qed.

Lemma forallb_filter {A} (p f : A -> bool) l :
  forallb p l = true -> forallb p (filter f l) = true.
Proof.
  induction l as [|x l IH]; [reflexivity|]. cbn [forallb filter].
  intros H. apply andb_prop in H as [Hx Hl].
  destruct (f x); cbn [forallb]; [rewrite Hx|]; now apply IH.
Qed.

Lemma filter_twice {A} (f : A -> bool) l :
  filter f (filter f l) = filter f l.
Proof.
  induction l as [|x l IH]; [reflexivity|]. cbn [filter].
  destruct (f x) eqn:E; [|exact IH]. cbn [filter]. now rewrite E, IH.
Qed.

(** X10. On element maps the filter is idempotent: filtering what it
    kept, with the same target, keeps all of it; and it keeps only
    elements of the list it was given. *)
Theorem filter_is_idempotent :
  forall (target_text : string) (elements matched : list value),
    forallb element_map elements = true ->
    Logging.filter_elements (Text.lower target_text) elements = Ok matched ->
    Logging.filter_elements (Text.lower target_text) matched = Ok matched
    /\ incl matched elements.
Proof.
  intros target_text elements matched Hall Hfilter.
  rewrite filter_elements_of_maps in Hfilter by exact Hall.
  injection Hfilter as <-. split.
  - rewrite filter_elements_of_maps by (now apply forallb_filter).
    now rewrite filter_twice.
  - intros x Hx. now apply filter_In in Hx.
Qed.

Lemma filter_is_idempotent_witness :
  Logging.filter_elements (Text.lower "set") [Sample.settings; Sample.globe]
  = Ok [Sample.settings]
  /\ Logging.filter_elements (Text.lower "set") [Sample.settings]
     = Ok [Sample.settings].
Proof.
  assert (H : Logging.filter_elements (Text.lower "set")
                [Sample.settings; Sample.globe]
              = Ok [Sample.settings]) by reflexivity.
  split; [exact H|].
  exact (proj1 (filter_is_idempotent "set" [Sample.settings; Sample.globe]
                  [Sample.settings] eq_refl H)).
Defined.

(** ** A target that is empty *)

Lemma logging_on_line_without_filter loads target_text line :
  filtering target_text = false ->
  Logging.on_line loads target_text line = Logging.on_line loads None line.
Proof.
  intros Hoff. unfold Logging.on_line.
  destruct (Text.startswith "data: " line); [|reflexivity].
  destruct (String.eqb (Text.drop 6 line) "null"); [reflexivity|].
  destruct (Logging.json_loads loads (VStr (Text.drop 6 line))) as [v|x];
    cbn [bind]; [|reflexivity].
  destruct v; try reflexivity.
  destruct (2 <=? Datatypes.length l)%nat; [|reflexivity].
  unfold Logging.on_result, Logging.filter_step.
  destruct target_text as [t|]; [|reflexivity].
  cbn [filtering] in Hoff. now rewrite Hoff.
Qed.

Lemma logging_for_lines_without_filter loads target_text lines :
  filtering target_text = false ->
  Logging.for_lines loads target_text lines
  = Logging.for_lines loads None lines.
Proof.
  intros Hoff. induction lines as [|line rest IH]; [reflexivity|].
  cbn [Logging.for_lines].
  now rewrite (logging_on_line_without_filter _ _ _ Hoff), IH.
Qed.

Lemma logging_poll_without_filter loads service target_text event_id n :
  filtering target_text = false ->
  forall fetched,
    Logging.poll loads service target_text event_id n fetched
    = Logging.poll loads service None event_id n fetched.
Proof.
  intros Hoff. induction n as [|n IH]; intros fetched; [reflexivity|].
  cbn [Logging.poll].
  destruct (get service event_id fetched) as [|status_code text];
    [reflexivity|].
  rewrite (logging_for_lines_without_filter _ _ _ Hoff).
  now rewrite !IH.
Qed.

(** X11. A target text that is given but empty switches no filter on: the
    run is the run without a target.  So the program called with an empty
    third argument does what it does with two arguments. *)
Theorem empty_target_is_no_target :
  forall (loads : string -> option value) (service : Service) (host : Host)
         (target_text : option string) (script image_path : string),
    filtering target_text = false ->
    Logging.test_omniparser_with_logging loads service target_text
    = Logging.test_omniparser_with_logging loads service None
    /\ LoggingMain.main loads host [script; image_path; EmptyString]
       = LoggingMain.main loads host [script; image_path].
Proof.
  intros loads service host target_text script image_path Hoff.
  assert (Hrun : forall s t, filtering t = false ->
            Logging.test_omniparser_with_logging loads s t
            = Logging.test_omniparser_with_logging loads s None).
  { intros s t Ht. unfold Logging.test_omniparser_with_logging.
    destruct (Logging.submit loads s) as [[event_id|]|x];
      [|reflexivity|reflexivity].
    now rewrite (logging_poll_without_filter _ _ _ _ _ Ht). }
  split; [now apply Hrun|].
  unfold LoggingMain.main, LoggingMain.test_omniparser_with_logging.
  destruct (open_rb host image_path); [|reflexivity].
  now rewrite (Hrun _ (Some EmptyString)).
Qed.

Lemma empty_target_is_no_target_witness :
  filtering (Some EmptyString) = false
  /\ Logging.test_omniparser_with_logging Decoder.loads Sample.two_elements
       (Some EmptyString)
     = Logging.test_omniparser_with_logging Decoder.loads Sample.two_elements
         None.
Proof.
  split; [reflexivity|].
  exact (proj1 (empty_target_is_no_target Decoder.loads Sample.two_elements
                  (Sample2.host_of Sample.two_elements) (Some EmptyString)
                  "test.py" "shot.png" eq_refl)).
Defined.

(** ** A result on attempt [m + 1] *)

Lemma logging_listing l :
  forallb listable l = true ->
  for_each (fun elem => Logging.show_element elem ;;; Ok tt) l = Ok tt.
Proof.
  induction l as [|elem l IH]; [reflexivity|].
  cbn [forallb for_each]. intros H. apply andb_prop in H as [Helem Hl].
  rewrite (IH Hl). destruct elem; try discriminate.
  unfold listable, formattable, default in Helem.
  unfold Logging.show_element, Py.get.
  destruct (Py.lookup "type" kvs), (Py.lookup "content" kvs),
    (Py.lookup "bbox" kvs), (Py.lookup "interactivity" kvs);
    cbn [bind];
    destruct (Py.lookup "confidence" kvs) as [c|]; cbn [bind];
    try (destruct (Py.format_2f c); [reflexivity | discriminate]);
    reflexivity.
Qed.

Lemma element_maps_are_listable l n :
  forallb element_map l = true -> forallb listable (firstn n l) = true.
Proof.
  revert n. induction l as [|elem l IH]; intros [|n] H; try reflexivity.
  cbn [forallb firstn] in *. apply andb_prop in H as [Helem Hl].
  rewrite (IH n Hl), andb_true_r.
  destruct elem; try discriminate.
  unfold element_map in Helem. now apply andb_prop in Helem as [_ ?].
Qed.

Lemma filter_nil_existsb {A} (f : A -> bool) l :
  existsb f l = match filter f l with [] => false | _ :: _ => true end.
Proof.
  induction l as [|x l IH]; [reflexivity|]. cbn [existsb filter].
  destruct (f x); [reflexivity | exact IH].
Qed.

Lemma logging_on_result_of_maps loads target_text l es :
  Logging.elements_of loads (nth 1 l VNone) = Ok (VList es) ->
  es <> [] ->
  forallb element_map es = true ->
  Logging.on_result loads target_text l
  = Ok (Some (if wanted target_text es then ResultReceived else NoMatch)).
Proof.
  intros Helems Hne Hmaps. unfold Logging.on_result.
  rewrite Helems. cbn [bind Py.len].
  destruct es as [|e es']; [contradiction|].
  cbn [List.length Nat.eqb Py.slice_items bind].
  rewrite logging_listing by now apply element_maps_are_listable.
  cbn [bind]. unfold Logging.filter_step, wanted.
  destruct target_text as [t|]; [|reflexivity].
  cbn [filtering]. destruct (negb (String.eqb t EmptyString)); [|reflexivity].
  cbn [Py.items bind]. rewrite filter_elements_of_maps by exact Hmaps.
  cbn [bind]. rewrite filter_nil_existsb.
  now destruct (filter (selects t) (e :: es')).
Qed.

(** X12. In [test_omniparser_with_logging], when the first [m] answers
    end nothing and answer [m + 1] carries, as its first frame that is
    not passed over, a result with a list of at least one element map,
    the run ends there after exactly [m + 1] GETs.  It returns [True]
    unless the filter is on and selects nothing; then it returns
    [False]. *)
Theorem result_on_attempt :
  forall (loads : string -> option value) (service : Service)
         (target_text : option string) (event_id : value) (m : nat)
         (text : string) (pre post : list string) (line : string)
         (l es : list value),
    Logging.submit loads service = Ok (Some event_id) ->
    m < max_attempts ->
    (forall j, j < m ->
       logging_quiet loads target_text (get service event_id j)) ->
    get service event_id m = Answer 200 text ->
    Logging.lines_of text = pre ++ line :: post ->
    Logging.for_lines loads target_text pre = Ok None ->
    is_frame line = true ->
    payload line <> "null" ->
    loads (payload line) = Some (VList l) ->
    2 <= List.length l ->
    Logging.elements_of loads (nth 1 l VNone) = Ok (VList es) ->
    es <> [] ->
    forallb element_map es = true ->
    Logging.test_omniparser_with_logging loads service target_text
    = (if wanted target_text es then ResultReceived else NoMatch, S m).
Proof.
  intros loads service target_text event_id m text pre post line l es
    Hsubmit Hm Hquiet Hget Hlines Hpre Hframe Hnull Hloads Hlen Helems Hne
    Hmaps.
  unfold Logging.test_omniparser_with_logging. rewrite Hsubmit.
  replace max_attempts with (m + S (max_attempts - m - 1)) by lia.
  rewrite logging_poll_skip by (simpl; exact Hquiet).
  rewrite (logging_poll_exit _ _ _ _ _ _ text
             (if wanted target_text es then ResultReceived else NoMatch));
    [reflexivity | exact Hget |].
  rewrite Hlines, logging_for_lines_app by exact Hpre.
  cbn [Logging.for_lines].
  rewrite (logging_on_line_terminal loads target_text line l) by assumption.
  now rewrite (logging_on_result_of_maps loads target_text l es).
Qed.

(** The second answer carries the result; the target, [ecole] with
    U+00E9, is found in the content [Ecole], with U+00C9. *)
Lemma result_on_attempt_witness :
  Logging.test_omniparser_with_logging Decoder.loads
    Sample2.pending_then_ecole (Some (String "233" "cole"))
  = (ResultReceived, 2)
  /\ Logging.test_omniparser_with_logging Decoder.loads
       Sample2.pending_then_ecole (Some "globe")
     = (NoMatch, 2).
Proof.
  split.
  - apply (result_on_attempt Decoder.loads Sample2.pending_then_ecole
             (Some (String "233" "cole")) (VStr "abc") 1
             (Sample.event "complete"
                (Decoder.json_text
                   (VList [VNone; VList [Sample.settings; Sample2.ecole]])))
             ["event: complete"] [EmptyString; EmptyString]
             ("data: "
              ++ Decoder.json_text
                   (VList [VNone; VList [Sample.settings; Sample2.ecole]]))
             [VNone; VList [Sample.settings; Sample2.ecole]]
             [Sample.settings; Sample2.ecole]); try reflexivity.
    + unfold max_attempts. lia.
    + intros j Hj. assert (j = 0) as -> by lia. right. reflexivity.
    + discriminate.
    + discriminate.
  - reflexivity.
Defined.

(** ** The first frame that ends a response *)

Lemma http_for_lines_app loads pre rest :
  Http.for_lines loads pre = Ok None ->
  Http.for_lines loads (pre ++ rest) = Http.for_lines loads rest.
Proof.
  induction pre as [|line pre IH]; [reflexivity|]. simpl.
  destruct (Http.on_line loads line) as [[e|]|x];
    [discriminate | exact IH | discriminate].
Qed.

Lemma inspect_for_lines_app loads literal_eval pre rest :
  Inspect.for_lines loads literal_eval pre = Ok None ->
  Inspect.for_lines loads literal_eval (pre ++ rest)
  = Inspect.for_lines loads literal_eval rest.
Proof.
  induction pre as [|line pre IH]; [reflexivity|]. simpl.
  destruct (Inspect.on_line loads literal_eval line) as [[e|]|x];
    [discriminate | exact IH | discriminate].
Qed.

(** X13. Within one response the first line that ends the run, by a
    return or by an exception, decides: the lines after it are not
    looked at, in any of the three scripts. *)
Theorem first_ending_line_decides :
  forall (loads literal_eval : string -> option value)
         (target_text : option string) (pre post : list string)
         (line : string),
    (Http.for_lines loads pre = Ok None ->
     Http.on_line loads line <> Ok None ->
     Http.for_lines loads (pre ++ line :: post) = Http.on_line loads line)
    /\ (Logging.for_lines loads target_text pre = Ok None ->
        Logging.on_line loads target_text line <> Ok None ->
        Logging.for_lines loads target_text (pre ++ line :: post)
        = Logging.on_line loads target_text line)
    /\ (Inspect.for_lines loads literal_eval pre = Ok None ->
        Inspect.on_line loads literal_eval line <> Ok None ->
        Inspect.for_lines loads literal_eval (pre ++ line :: post)
        = Inspect.on_line loads literal_eval line).
Proof.
  intros loads literal_eval target_text pre post line. repeat split;
    intros Hpre Hline.
  - rewrite http_for_lines_app by exact Hpre. cbn [Http.for_lines].
    destruct (Http.on_line loads line) as [[e|]|x]; congruence.
  - rewrite logging_for_lines_app by exact Hpre. cbn [Logging.for_lines].
    destruct (Logging.on_line loads target_text line) as [[e|]|x];
      congruence.
  - rewrite inspect_for_lines_app by exact Hpre. cbn [Inspect.for_lines].
    destruct (Inspect.on_line loads literal_eval line) as [[e|]|x];
      congruence.
Qed.

Lemma first_ending_line_decides_witness :
  Http.for_lines Decoder.loads
    (["event: complete"]
     ++ ("data: " ++ Sample.one_bare_element)%string
        :: [("data: " ++ Sample2.plain_elements)%string])%list
  = Http.on_line Decoder.loads ("data: " ++ Sample.one_bare_element)
  /\ Http.on_line Decoder.loads ("data: " ++ Sample.one_bare_element)
     = Ok (Some ResultReceived)
  /\ Http.on_line Decoder.loads ("data: " ++ Sample2.plain_elements)
     = Raise TypeError.
Proof.
  split; [|split; reflexivity].
  apply (proj1 (first_ending_line_decides Decoder.loads Decoder.literal_eval
                  None ["event: complete"]
                  [("data: " ++ Sample2.plain_elements)%string]
                  ("data: " ++ Sample.one_bare_element))).
  - reflexivity.
  - discriminate.
Defined.

(** ** The inspector *)

(** X14. In the inspector, a frame that decodes to a list of two members
    or more always ends the inspection, whatever becomes of its second
    member: a member that is no text is not decoded; text that strict
    JSON reads as a list is taken from [json.loads], and
    [ast.literal_eval] is not consulted; text that neither decoder reads
    still ends the inspection. *)
Theorem inspector_returns_at_the_first_result :
  forall (loads literal_eval : string -> option value) (line : string)
         (l : list value),
    is_frame line = true ->
    payload line <> "null" ->
    loads (payload line) = Some (VList l) ->
    2 <= List.length l ->
    Inspect.on_line loads literal_eval line <> Ok None
    /\ (is_text (nth 1 l VNone) = false ->
        Inspect.on_line loads literal_eval line = Ok (Some Inspect.NotText))
    /\ (forall s es,
           nth 1 l VNone = VStr s ->
           loads s = Some (VList es) ->
           Inspect.on_line loads literal_eval line
           = Ok (Some (Inspect.StrictJson (VList es))))
    /\ (forall s,
           nth 1 l VNone = VStr s ->
           loads s = None ->
           literal_eval s = None ->
           Inspect.on_line loads literal_eval line
           = Ok (Some Inspect.Undecoded)).
Proof.
  intros loads literal_eval line l Hframe Hnull Hloads Hlen.
  assert (Hline : Inspect.on_line loads literal_eval line
                  = (d <- Inspect.decode_elements loads literal_eval
                            (nth 1 l VNone) ;; Ok (Some d))).
  { unfold is_frame, payload, Inspect.on_line in *. rewrite Hframe.
    destruct (String.eqb_spec (Text.drop 6 line) "null"); [contradiction|].
    rewrite Hloads. now destruct (Nat.leb_spec 2 (List.length l)); [|lia]. }
  rewrite Hline. repeat split.
  - destruct (Inspect.decode_elements loads literal_eval (nth 1 l VNone));
      discriminate.
  - intros Htext. destruct (nth 1 l VNone); try reflexivity. discriminate.
  - intros s es -> Hs. cbn [Inspect.decode_elements]. now rewrite Hs.
  - intros s -> Hs Hliteral. cbn [Inspect.decode_elements].
    now rewrite Hs, Hliteral.
Qed.

Lemma inspector_returns_at_the_first_result_witness :
  Inspect.on_line Decoder.loads Decoder.literal_eval
    ("data: " ++ Sample2.garbled_elements)
  = Ok (Some Inspect.Undecoded).
Proof.
  apply (proj2 (proj2 (proj2
           (inspector_returns_at_the_first_result Decoder.loads
              Decoder.literal_eval ("data: " ++ Sample2.garbled_elements)
              [VNone; VStr "oops"] eq_refl
              ltac:(discriminate) eq_refl (le_n 2))))
           "oops"); reflexivity.
Defined.

(** ** The programs *)

Lemma inspect_on_line_pending_line loads literal_eval line :
  pending_line line = true ->
  Inspect.on_line loads literal_eval line = Ok None.
Proof. apply inspect_on_line_pending. Qed.

Lemma inspect_for_lines_pending loads literal_eval lines :
  pending_only lines = true ->
  Inspect.for_lines loads literal_eval lines = Ok None.
Proof.
  induction lines as [|line rest IH]; [reflexivity|].
  simpl. intros H. apply andb_prop in H as [Hline Hrest].
  now rewrite inspect_on_line_pending, IH.
Qed.

Lemma inspect_poll_pending loads literal_eval service event_id :
  (forall k, exists text,
      get service event_id k = Answer 200 text
      /\ pending_only (Inspect.lines_of text) = true) ->
  forall n fetched,
    Inspect.poll loads literal_eval service event_id n fetched
    = (Ok None, fetched + n).
Proof.
  intros Hpending n. induction n as [|n IH]; intros fetched.
  - simpl. f_equal. lia.
  - destruct (Hpending fetched) as (text & Hget & Hlines).
    cbn [Inspect.poll]. rewrite Hget.
    change (200 =? 200)%Z with true. cbv iota.
    rewrite (inspect_for_lines_pending _ _ _ Hlines), IH. f_equal. lia.
Qed.

(** X15. When the image can be opened, the submission is accepted and
    the service answers every GET with sentinel frames only, each
    program makes thirty GETs; the two test programs then exit with
    status 1, and the inspector, which ends without [sys.exit], with
    status 0. *)
Theorem programs_on_a_pending_service :
  forall (loads literal_eval : string -> option value) (host : Host)
         (script image_path : string) (rest : list string)
         (image : string) (event_id : value),
    open_rb host image_path = Some image ->
    Logging.submit loads (serve host (request_body (b64encode host image)))
    = Ok (Some event_id) ->
    (forall k, exists text,
        get (serve host (request_body (b64encode host image))) event_id k
        = Answer 200 text
        /\ pending_only (Http.lines_of text) = true
        /\ pending_only (Logging.lines_of text) = true) ->
    HttpMain.main loads host (script :: image_path :: rest)
    = {| ending := Exited 1; posted := true; fetched := 30 |}
    /\ LoggingMain.main loads host (script :: image_path :: rest)
       = {| ending := Exited 1; posted := true; fetched := 30 |}
    /\ InspectMain.main loads literal_eval host (script :: image_path :: rest)
       = {| ending := Exited 0; posted := true; fetched := 30 |}.
Proof.
  intros loads literal_eval host script image_path rest image event_id
    Hopen Hsubmit Hpending.
  set (service := serve host (request_body (b64encode host image))) in *.
  assert (Hpost : exists text result,
             post service = Answer 200 text
             /\ loads text = Some result
             /\ Py.get result "event_id" VNone = Ok event_id).
  { unfold Logging.submit in Hsubmit.
    destruct (post service) as [|status_code text] eqn:Hpost;
      [discriminate|].
    destruct (Z.eqb_spec status_code 200) as [->|]; [|discriminate].
    cbn [negb] in Hsubmit.
    destruct (loads text) as [result|] eqn:Hbody; [|discriminate].
    destruct (Py.get result "event_id" VNone) as [v|x] eqn:Hget;
      [|discriminate].
    cbn [bind] in Hsubmit. exists text, result.
    split; [reflexivity|]. split; [exact Hbody|]. congruence. }
  destruct Hpost as (text & result & Hpost & Hbody & Hid).
  repeat split.
  - unfold HttpMain.main, HttpMain.test_omniparser, HttpMain.image_to_base64.
    rewrite Hopen. fold service.
    unfold Http.test_omniparser, Http.submit.
    rewrite Hpost.
    change ((400 <=? 200)%Z && (200 <? 600)%Z) with false. cbv iota.
    rewrite Hbody, Hid. change max_attempts with (S 29).
    rewrite http_poll_pending; [reflexivity| |reflexivity].
    intros k. destruct (Hpending k) as (t & ? & ? & ?). now exists t.
  - unfold LoggingMain.main, LoggingMain.test_omniparser_with_logging.
    rewrite Hopen. fold service.
    unfold Logging.test_omniparser_with_logging. rewrite Hsubmit.
    rewrite logging_poll_pending; [reflexivity|].
    intros k. destruct (Hpending k) as (t & ? & ? & ?). now exists t.
  - unfold InspectMain.main, InspectMain.inspect_omniparser_response.
    rewrite Hopen. fold service.
    unfold Inspect.inspect_omniparser_response. rewrite Hpost.
    change (negb (200 =? 200)%Z) with false. cbv iota.
    rewrite Hbody, Hid.
    rewrite inspect_poll_pending; [reflexivity|].
    intros k. destruct (Hpending k) as (t & ? & ? & ?). now exists t.
Qed.

Lemma programs_on_a_pending_service_witness :
  HttpMain.main Decoder.loads (Sample2.host_of Sample.always_pending)
    ["test.py"; "shot.png"]
  = {| ending := Exited 1; posted := true; fetched := 30 |}
  /\ LoggingMain.main Decoder.loads (Sample2.host_of Sample.always_pending)
       ["test.py"; "shot.png"]
     = {| ending := Exited 1; posted := true; fetched := 30 |}
  /\ InspectMain.main Decoder.loads Decoder.literal_eval
       (Sample2.host_of Sample.always_pending) ["test.py"; "shot.png"]
     = {| ending := Exited 0; posted := true; fetched := 30 |}.
Proof.
  apply (programs_on_a_pending_service Decoder.loads Decoder.literal_eval
           (Sample2.host_of Sample.always_pending) "test.py" "shot.png" []
           "PNG" (VStr "abc")).
  - reflexivity.
  - reflexivity.
  - intros k. eexists. repeat split; reflexivity.
Defined.

(** X16. Each test program exits with status 0 exactly when it was given
    an image path, the image could be opened, and the run returned
    [True]; [False] and the [None] of a run that falls off the end of
    [test_omniparser] both give status 1. *)
Theorem exit_status_tells_success :
  forall (loads : string -> option value) (host : Host) (argv : list string),
    (ending (HttpMain.main loads host argv) = Exited 0
     <-> exists script image_path rest image n,
         argv = script :: image_path :: rest
         /\ open_rb host image_path = Some image
         /\ Http.test_omniparser loads
              (serve host (request_body (b64encode host image)))
            = (ResultReceived, n))
    /\ (ending (LoggingMain.main loads host argv) = Exited 0
        <-> exists script image_path rest image n,
            argv = script :: image_path :: rest
            /\ open_rb host image_path = Some image
            /\ Logging.test_omniparser_with_logging loads
                 (serve host (request_body (b64encode host image)))
                 (hd_error rest)
               = (ResultReceived, n)).
Proof.
  intros loads host argv. split; split.
  - destruct argv as [|script [|image_path rest]]; try discriminate.
    unfold HttpMain.main, HttpMain.test_omniparser, HttpMain.image_to_base64.
    destruct (open_rb host image_path) as [image|] eqn:Hopen;
      [|discriminate].
    destruct (Http.test_omniparser loads _) as [e n] eqn:Hrun.
    cbn [ending]. intros H.
    exists script, image_path, rest, image, n.
    split; [reflexivity|]. split; [exact Hopen|].
    rewrite Hrun. now destruct e.
  - intros (script & image_path & rest & image & n & -> & Hopen & Hrun).
    unfold HttpMain.main, HttpMain.test_omniparser, HttpMain.image_to_base64.
    now rewrite Hopen, Hrun.
  - destruct argv as [|script [|image_path rest]]; try discriminate.
    unfold LoggingMain.main, LoggingMain.test_omniparser_with_logging.
    destruct (open_rb host image_path) as [image|] eqn:Hopen;
      [|discriminate].
    replace (match rest with t :: _ => Some t | [] => None end)
      with (hd_error rest) by now destruct rest.
    destruct (Logging.test_omniparser_with_logging loads _ _) as [e n]
      eqn:Hrun.
    cbn [ending]. intros H.
    exists script, image_path, rest, image, n.
    split; [reflexivity|]. split; [exact Hopen|].
    rewrite Hrun. now destruct e.
  - intros (script & image_path & rest & image & n & -> & Hopen & Hrun).
    unfold LoggingMain.main, LoggingMain.test_omniparser_with_logging.
    rewrite Hopen.
    replace (match rest with t :: _ => Some t | [] => None end)
      with (hd_error rest) by now destruct rest.
    now rewrite Hrun.
Qed.

(** X17. Without an image nothing is sent: when fewer than two arguments
    are given, or the image named by the second cannot be opened, each of
    the three programs ends with a status other than 0 before the POST,
    and makes no GET. *)
Theorem nothing_is_sent_without_an_image :
  forall (loads literal_eval : string -> option value) (host : Host)
         (argv : list string) (r : Ran),
    (forall image_path,
        nth_error argv 1 = Some image_path ->
        open_rb host image_path = None) ->
    r = HttpMain.main loads host argv
    \/ r = LoggingMain.main loads host argv
    \/ r = InspectMain.main loads literal_eval host argv ->
    posted r = false /\ fetched r = 0 /\ ending r <> Exited 0.
Proof.
  intros loads literal_eval host argv r Hnone Hr.
  assert (H : r = usage \/ r = no_image).
  { destruct argv as [|script [|image_path rest]];
      try (left; destruct Hr as [->|[->| ->]]; reflexivity).
    specialize (Hnone image_path eq_refl). right.
    destruct Hr as [->|[->| ->]];
      unfold HttpMain.main, HttpMain.test_omniparser,
        HttpMain.image_to_base64, LoggingMain.main,
        LoggingMain.test_omniparser_with_logging, InspectMain.main,
        InspectMain.inspect_omniparser_response;
      now rewrite Hnone. }
  destruct H as [-> | ->]; repeat split; discriminate.
Qed.

Lemma nothing_is_sent_without_an_image_witness :
  posted (HttpMain.main Decoder.loads (Sample2.host_of Sample.two_elements)
            ["test.py"; "missing.png"])
  = false
  /\ fetched (HttpMain.main Decoder.loads
                (Sample2.host_of Sample.two_elements)
                ["test.py"; "missing.png"])
     = 0
  /\ ending (HttpMain.main Decoder.loads
               (Sample2.host_of Sample.two_elements)
               ["test.py"; "missing.png"])
     <> Exited 0.
Proof.
  apply (nothing_is_sent_without_an_image Decoder.loads Decoder.literal_eval
           (Sample2.host_of Sample.two_elements) ["test.py"; "missing.png"]).
  - intros image_path H. injection H as <-. reflexivity.
  - now left.
Defined.

Lemma exit_status_tells_success_witness :
  ending (HttpMain.main Decoder.loads
            (Sample2.host_of Sample.malformed_then_result)
            ["test.py"; "shot.png"])
  = Exited 0.
Proof.
  apply (proj2 (proj1 (exit_status_tells_success Decoder.loads
                         (Sample2.host_of Sample.malformed_then_result)
                         ["test.py"; "shot.png"]))).
  exists "test.py", "shot.png", [], "PNG", 2. repeat split.
Defined.

(** ** The test through the Gradio client *)

(** X18. The Gradio variant of [test_omniparser] judges the shape of the
    answer only: for a result that is a sequence it returns [True]
    exactly when the sequence has two members or more.  What the second
    member holds cannot make the test fail: it lists at most three
    elements, and an element that is no map is printed as it is. *)
Theorem gradio_test_judges_the_shape_only :
  forall (loads : string -> option value) (result : list value),
    (Gradio.test_omniparser loads (Some (VList result)) = None
     <-> List.length result < 2)
    /\ (forall parsed_elements_json,
           match Gradio.show_elements loads parsed_elements_json with
           | Gradio.Found count first =>
               List.length first <= 3 /\ List.length first <= count
           | _ => True
           end)
    /\ (forall elem, is_map elem = false ->
           Gradio.show_element elem = Gradio.Whole elem).
Proof.
  intros loads result. split; [split|split].
  - destruct result as [|a [|b r]]; simpl; try lia; discriminate.
  - destruct result as [|a [|b r]]; simpl; try reflexivity; lia.
  - intros parsed_elements_json. unfold Gradio.show_elements.
    destruct (match parsed_elements_json with
              | VStr s => loads s
              | _ => Some parsed_elements_json
              end) as [[| | | | |l|]|]; try exact I.
    rewrite length_map, length_firstn. lia.
  - intros elem Hmap. destruct elem; try reflexivity. discriminate.
Qed.

(** ** The text of a completion *)

(** X19. On a completion in the expected shape the extraction of the two
    OCR test scripts raises nothing: it prints the content of the
    message of the first choice when that content is true in the sense
    of Python, and nothing when [choices], the first [message] or its
    [content] is missing or empty. *)
Theorem extraction_of_a_well_shaped_completion :
  forall (response_json : value),
    Ocr.well_shaped response_json = true ->
    Ocr.extract_content response_json
    = Ocr.Done (if Py.truthy (Ocr.first_content response_json)
                then Some (Ocr.first_content response_json)
                else None).
Proof.
  intros response_json Hshape.
  destruct response_json as [| | | | | |kvs]; try discriminate.
  unfold Ocr.extract_content, Ocr.has_choices, Ocr.choices_of,
    Ocr.first_content.
  cbn [Ocr.well_shaped] in Hshape.
  destruct (Py.lookup "choices" kvs) as [choices|]; [|reflexivity].
  cbn [Ocr.then_].
  destruct choices as [| | | | |l|]; try discriminate.
  destruct l as [|choice l]; [reflexivity|].
  destruct choice as [| | | | | |choice]; try discriminate.
  cbn [Ocr.len Py.len List.length Nat.ltb Nat.leb Ocr.then_ Ocr.first].
  unfold Ocr.get at 1. cbn [Py.get].
  destruct (Py.lookup "message" choice) as [message|];
    [|reflexivity].
  destruct message as [| | | | | |message]; try discriminate.
  cbn [Ocr.then_]. unfold Ocr.get. cbn [Py.get].
  now destruct (Py.lookup "content" message).
Qed.

Lemma extraction_of_a_well_shaped_completion_witness :
  Ocr.extract_content
    (VDict [("choices",
             VList [VDict [("message",
                            VDict [("content", VStr "Invoice 42")])]])])
  = Ocr.Done (Some (VStr "Invoice 42")).
Proof.
  apply (extraction_of_a_well_shaped_completion
           (VDict [("choices",
                    VList [VDict [("message",
                                   VDict [("content", VStr "Invoice 42")])]])])).
  reflexivity.
Defined.

(** X20. An object whose [choices] is an empty list divides the scripts:
    the two OCR test scripts find nothing to print and go on, while the
    expression of the diagnostic script raises an [IndexError].  On an
    object without [choices] the diagnostic expression yields its
    default, cut to length. *)
Theorem empty_choices_divide_the_scripts :
  forall (kvs : list (string * value)) (d : value) (n : nat),
    (Py.lookup "choices" kvs = Some (VList []) ->
     Ocr.extract_content (VDict kvs) = Ocr.Done None
     /\ Ocr.diagnose_content d n (VDict kvs) = Ocr.Raised Ocr.IndexError)
    /\ (Py.lookup "choices" kvs = None ->
        Ocr.extract_content (VDict kvs) = Ocr.Done None
        /\ Ocr.diagnose_content d n (VDict kvs) = Ocr.upto n d).
Proof.
  intros kvs d n.
  assert (Hget : forall v,
             Ocr.get (VDict kvs) "choices" v
             = Ocr.Done (default v (Py.lookup "choices" kvs))).
  { intros v. unfold Ocr.get. cbn [Py.get].
    now destruct (Py.lookup "choices" kvs). }
  split; intros Hchoices; split.
  - unfold Ocr.extract_content, Ocr.has_choices, Ocr.choices_of.
    now rewrite Hchoices.
  - unfold Ocr.diagnose_content. now rewrite Hget, Hchoices.
  - unfold Ocr.extract_content, Ocr.has_choices. now rewrite Hchoices.
  - unfold Ocr.diagnose_content. now rewrite Hget, Hchoices.
Qed.

Lemma empty_choices_divide_the_scripts_witness :
  Ocr.extract_content (VDict [("choices", VList [])]) = Ocr.Done None
  /\ Ocr.diagnose_content (VStr "N/A") 100 (VDict [("choices", VList [])])
     = Ocr.Raised Ocr.IndexError.
Proof.
  apply (proj1 (empty_choices_divide_the_scripts [("choices", VList [])]
                  (VStr "N/A") 100)).
  reflexivity.
Defined.

(** X21. The OCR test scripts never look at the kind of JSON they got.
    A body that is JSON for a number, a boolean or [null] makes
    ["choices" in response_json] raise: [test-requests.py], which has
    saved the body by then, exits with status 1, and in [test-curl.py]
    the exception is not caught.  A body that is no JSON is printed, and
    both programs end with status 0. *)
Theorem completion_that_is_no_object :
  forall (loads : string -> option value) (can_write : string -> bool)
         (text : string),
    (forall response_json,
        loads text = Some response_json ->
        Ocr.scalar response_json = true ->
        can_write "response.json" = true ->
        Ocr.requests_after_response loads can_write text
        = (Exited 1, ["response.json"])
        /\ Ocr.curl_after_response loads (Some text) = Uncaught)
    /\ (loads text = None ->
        can_write "response.txt" = true ->
        Ocr.requests_after_response loads can_write text
        = (Exited 0, ["response.txt"])
        /\ Ocr.curl_after_response loads (Some text) = Exited 0).
Proof.
  intros loads can_write text. split.
  - intros response_json Hloads Hscalar Hwrite.
    unfold Ocr.requests_after_response, Ocr.curl_after_response.
    rewrite Hloads, Hwrite.
    destruct response_json; try discriminate; split; reflexivity.
  - intros Hloads Hwrite.
    unfold Ocr.requests_after_response, Ocr.curl_after_response.
    now rewrite Hloads, Hwrite.
Qed.

Lemma completion_that_is_no_object_witness :
  Decoder.loads "503" = Some (VInt 503)
  /\ Ocr.requests_after_response Decoder.loads (fun _ => true) "503"
     = (Exited 1, ["response.json"])
  /\ Ocr.curl_after_response Decoder.loads (Some "503") = Uncaught.
Proof.
  split; [reflexivity|].
  apply (proj1 (completion_that_is_no_object Decoder.loads (fun _ => true)
                  "503") (VInt 503)); reflexivity.
Defined.
